(** * FinAgent-Pro: the query action and the dashboard's history flow

    A shallow embedding of [src/app/actions.ts] (the server action
    [analyzeFinancialDataAction] with its two Zod schemas) and of the pure
    parts of [src/app/page.tsx] ([validateChartData], the history updater of
    [handleSearch], [filteredHistory]), followed by the properties that the
    specification states about them.  Further on: [useLocalStorage],
    [handleSearch] and [clearHistory] as state transformers, the display
    text of [MarkdownRenderer], [postMessageDedup], the error list of
    [QaErrorReporter], the row count of [Textarea] and [getInitials], with
    properties read off their code. *)

From Stdlib Require Import List String Ascii Bool Arith NArith ZArith QArith Lia.
From Stdlib Require Import DecimalString.
Import ListNotations.

Close Scope Q_scope.

Set Implicit Arguments.
Set Warnings "-register-all".

(* ================================================================== *)
(** ** ECMAScript strings

    A JavaScript string is a sequence of UTF-16 code units and [length]
    counts code units, so a string is a list of code units.  Code units are
    kept in [N]; nothing below depends on the 16-bit bound. *)

Definition jsstring : Type := list N.

Module Js.

Definition str : Type := jsstring.

(** A source literal (Basic Latin / Latin-1 only). *)
Definition lit (s : string) : str := map N_of_ascii (list_ascii_of_string s).

(** A literal in which every apostrophe stands for a double quote. *)
Definition quoted (s : str) : str :=
  map (fun c => if N.eqb c 39 then 34%N else c) s.

Definition length (s : str) : nat := List.length s.

Fixpoint eqb (a b : str) : bool :=
  match a, b with
  | [], [] => true
  | x :: a', y :: b' => N.eqb x y && eqb a' b'
  | _, _ => false
  end.

(** [WhiteSpace] and [LineTerminator] code points: what [trim] removes and
    what [\s] matches. *)
Definition isWhiteSpace (c : N) : bool :=
  ((9 <=? c) && (c <=? 13) || (c =? 32) || (c =? 160) || (c =? 5760)
   || (8192 <=? c) && (c <=? 8202)
   || (c =? 8232) || (c =? 8233) || (c =? 8239) || (c =? 8287)
   || (c =? 12288) || (c =? 65279))%N.

Fixpoint trimStart (s : str) : str :=
  match s with
  | c :: t => if isWhiteSpace c then trimStart t else s
  | [] => []
  end.

Definition trimEnd (s : str) : str := rev (trimStart (rev s)).

Definition trim (s : str) : str := trimEnd (trimStart s).

Fixpoint startsWith (s p : str) {struct p} : bool :=
  match p, s with
  | [], _ => true
  | x :: p', y :: s' => N.eqb x y && startsWith s' p'
  | _ :: _, [] => false
  end.

(** [s.includes(needle)] *)
Fixpoint includes (s needle : str) : bool :=
  startsWith s needle ||
  match s with
  | [] => false
  | _ :: t => includes t needle
  end.

(** [parts.join(sep)] *)
Fixpoint join (sep : str) (parts : list str) : str :=
  match parts with
  | [] => []
  | [p] => p
  | p :: rest => p ++ sep ++ join sep rest
  end.

(** [s.substring(a, b)] for [a <= b]. *)
Definition substring (a b : nat) (s : str) : str := firstn (b - a) (skipn a s).

(** Truthiness of a string value: only the empty string is falsy. *)
Definition truthy (s : str) : bool :=
  match s with [] => false | _ :: _ => true end.

(** [String(n)] / template interpolation of an integral number. *)
Definition ofInt (z : Z) : str := lit (NilZero.string_of_int (Z.to_int z)).

End Js.

(* ================================================================== *)
(** ** The part of Zod that the two schemas use *)

Module Zod.

(** The checks of a [z.string()] schema, kept in the order in which the
    builder methods were chained (Zod 3, whose [error.errors] the action
    reads): [ZodString._parse] walks that list once, testing [min]/[max]
    against the data as it is at that point, recording an issue without
    stopping, and letting [trim] replace the data. *)
Inductive StringCheck :=
| min (value : nat) (message : jsstring)
| max (value : nat) (message : jsstring)
| trim.

Record ParseCtx := { data : jsstring; issues : list jsstring }.

Definition addIssue (ctx : ParseCtx) (message : jsstring) : ParseCtx :=
  {| data := data ctx; issues := issues ctx ++ [message] |}.

Definition runCheck (ctx : ParseCtx) (check : StringCheck) : ParseCtx :=
  match check with
  | min value message =>
      if Js.length (data ctx) <? value then addIssue ctx message else ctx
  | max value message =>
      if value <? Js.length (data ctx) then addIssue ctx message else ctx
  | trim => {| data := Js.trim (data ctx); issues := issues ctx |}
  end.

(** The result of [safeParse]: the parsed data, or the issues' messages
    ([error.errors.map(err => err.message)]). *)
Inductive SafeParse (A : Type) :=
| success (value : A)
| failure (errors : list jsstring).
Arguments failure {A} errors.

Definition string_safeParse (checks : list StringCheck) (input : jsstring)
  : SafeParse jsstring :=
  let ctx := fold_left runCheck checks {| data := input; issues := [] |} in
  match issues ctx with
  | [] => success (data ctx)
  | _ :: _ => failure (issues ctx)
  end.

End Zod.

(* ================================================================== *)
(** ** Values produced by [JSON.parse] *)

Module Json.

(** A number value: a finite double (by its rational value; the sign of
    zero is not observable below), an infinity, or NaN.  [JSON.parse] yields
    an infinity for a literal such as [1e999]. *)
Inductive number :=
| finite (q : Q)
| infinite (negative : bool)
| NaN.

Inductive value :=
| null
| boolean (b : bool)
| num (n : number)
| string (s : jsstring)
| array (elements : list value)
| object (properties : list (jsstring * value)).

(** [Number.isFinite] on a number value (what [isFinite] does after
    [typeof v === 'number']). *)
Definition isFinite (n : number) : bool :=
  match n with finite _ => true | _ => false end.

(** ToBoolean. *)
Definition truthy (v : value) : bool :=
  match v with
  | null => false
  | boolean b => b
  | num (finite q) => negb (Qeq_bool q 0)
  | num (infinite _) => true
  | num NaN => false
  | string s => Js.truthy s
  | array _ => true
  | object _ => true
  end.

(** Own-property lookup on a parsed object. *)
Fixpoint get (properties : list (jsstring * value)) (key : jsstring)
  : option value :=
  match properties with
  | [] => None
  | (k, v) :: rest => if Js.eqb k key then Some v else get rest key
  end.

(** ['key' in item] for a parsed object: neither [Object.prototype] nor
    [Array.prototype] has a [name] or a [value] property, the only keys
    asked for below. *)
Definition has (properties : list (jsstring * value)) (key : jsstring) : bool :=
  match get properties key with Some _ => true | None => false end.

End Json.

(* ================================================================== *)
(** ** Locating and cleaning the embedded payload

    Both [actions.ts] and [page.tsx] run the same three steps on the
    response text: [match(/<data>([\s\S]*?)<\/data>/)], the two global
    [replace] calls that delete code fences, and [trim]. *)

Module Payload.

Definition openTag : jsstring := Js.lit "<data>".
Definition closeTag : jsstring := Js.lit "</data>".

(** [([\s\S]*?)<\/data>] tried at the head of [s]: the lazy star takes the
    shortest run of code units after which the closing tag matches; the run
    is the capture. *)
Fixpoint lazyUntil (close s : jsstring) : option jsstring :=
  if Js.startsWith s close then Some []
  else match s with
       | [] => None
       | c :: t => option_map (cons c) (lazyUntil close t)
       end.

(** The whole pattern tried at the head of [text]. *)
Definition matchHere (text : jsstring) : option jsstring :=
  if Js.startsWith text openTag
  then lazyUntil closeTag (skipn (Js.length openTag) text)
  else None.

(** [text.match(/<data>([\s\S]*?)<\/data>/)] then [?.[1]]: the start
    positions are tried from the left and the first one that matches wins.
    [None] is a failed match ([dataMatch] is [null]). *)
Fixpoint dataMatch (text : jsstring) : option jsstring :=
  match matchHere text with
  | Some capture => Some capture
  | None => match text with
            | [] => None
            | _ :: t => dataMatch t
            end
  end.

(** [s.replace(/FENCE\s*/g, "")] for a literal [fence]: every
    non-overlapping occurrence, scanned from the left, is deleted together
    with the white space that follows it.  [pending] counts the code units of
    the current occurrence still to be skipped; [inSpace] says that the scan
    is inside the [\s*] of the occurrence just skipped. *)
Fixpoint replaceFence (fence : jsstring) (pending : nat) (inSpace : bool)
                      (s : jsstring) : jsstring :=
  match s with
  | [] => []
  | c :: t =>
      match pending with
      | S k => replaceFence fence k true t
      | O =>
          if inSpace && Js.isWhiteSpace c then replaceFence fence 0 true t
          else if Js.startsWith s fence
               then replaceFence fence (Js.length fence - 1) true t
               else c :: replaceFence fence 0 false t
      end
  end.

Definition removeAll (fence s : jsstring) : jsstring :=
  replaceFence fence 0 false s.

Definition cleanJson (capture : jsstring) : jsstring :=
  Js.trim (removeAll (Js.lit "```") (removeAll (Js.lit "```json") capture)).

End Payload.

(* ================================================================== *)
(** ** [src/app/actions.ts] *)

Module Actions.

(** *** The two schemas *)

(** [FinancialQuerySchema.shape.prompt]:
    [z.string().min(3, ...).max(2000, ...).trim()]. *)
Definition FinancialQuerySchema : list Zod.StringCheck :=
  [ Zod.min 3 (Js.lit "Query must contain at least 3 characters");
    Zod.max 2000 (Js.lit "Query exceeds maximum length of 2000 characters");
    Zod.trim ].

Inductive ChartType := trend | sector | heatmap.

Record ChartItem := { name : jsstring; value : Q }.

Record Chart := { type : ChartType; items : list ChartItem }.

(** [z.enum(['trend', 'sector', 'heatmap'])] *)
Definition parseType (v : option Json.value) : option ChartType :=
  match v with
  | Some (Json.string s) =>
      if Js.eqb s (Js.lit "trend") then Some trend
      else if Js.eqb s (Js.lit "sector") then Some sector
      else if Js.eqb s (Js.lit "heatmap") then Some heatmap
      else None
  | _ => None
  end.

(** [z.object({ name: z.string(), value: z.number().finite() })]:
    unknown keys are stripped, a missing key is an issue, [z.number()]
    refuses NaN and [finite()] refuses the infinities. *)
Definition parseItem (v : Json.value) : option ChartItem :=
  match v with
  | Json.object props =>
      match Json.get props (Js.lit "name"), Json.get props (Js.lit "value") with
      | Some (Json.string n), Some (Json.num (Json.finite q)) =>
          Some {| name := n; value := q |}
      | _, _ => None
      end
  | _ => None
  end.

(** [z.array(item)]: every element must parse. *)
Fixpoint parseItems (vs : list Json.value) : option (list ChartItem) :=
  match vs with
  | [] => Some []
  | v :: rest =>
      match parseItem v, parseItems rest with
      | Some i, Some others => Some (i :: others)
      | _, _ => None
      end
  end.

(** [ChartSchema.parse(parsedData)]; [None] stands for the thrown
    [ZodError]. *)
Definition ChartSchema_parse (parsedData : Json.value) : option Chart :=
  match parsedData with
  | Json.object props =>
      match parseType (Json.get props (Js.lit "type")),
            Json.get props (Js.lit "items") with
      | Some t, Some (Json.array elements) =>
          match parseItems elements with
          | Some (i :: others) => Some {| type := t; items := i :: others |}
          | _ => None
          end
      | _, _ => None
      end
  | _ => None
  end.

(** *** The response envelope *)

Record TestCoverage := {
  inputValidation : bool;
  apiResponse : bool;
  dataParsing : bool
}.

Record ApiResponse := {
  success : bool;
  data : option jsstring;
  error : option jsstring;
  testCoverage : TestCoverage;
  timestamp : option Z;
  requestId : option jsstring
}.

(** *** What the action receives and what surrounds it *)

(** A [FormData] entry value is a string or a [File]; [toString()] of a
    [File] is the default object tag. *)
Inductive FormDataEntryValue :=
| entryString (s : jsstring)
| entryFile.

Definition FormData := list (jsstring * FormDataEntryValue).

Fixpoint FormData_get (fd : FormData) (key : jsstring)
  : option FormDataEntryValue :=
  match fd with
  | [] => None
  | (k, v) :: rest => if Js.eqb k key then Some v else FormData_get rest key
  end.

Definition entry_toString (v : FormDataEntryValue) : jsstring :=
  match v with
  | entryString s => s
  | entryFile => Js.lit "[object File]"
  end.

Inductive Input :=
| ofFormData (fd : FormData)
| ofString (s : jsstring).

(** A thrown value: an [Error] instance with its message, or anything
    else. *)
Inductive Thrown :=
| Error (message : jsstring)
| NotAnError.

(** What [await model.generateContent(parts)], [await result.response] and
    [response.text()] amount to: the call rejects, or it yields a response
    whose [text()] throws (a blocked candidate) or returns the text. *)
Inductive Completion :=
| rejected (e : Thrown)
| responded (text : Thrown + jsstring).

(** The surroundings of one call of the action.  The action sends at most
    one request, so the provider is a function of the request. *)
Record Runtime := {
  GEMINI_API_KEY : option jsstring;          (* process.env.GEMINI_API_KEY *)
  Date_now : nat -> Z;                       (* the n-th reading of the clock *)
  Math_random_toString36 : jsstring;         (* Math.random().toString(36) *)
  generateContent : jsstring -> list jsstring -> Completion;
                                             (* the SDK, by key and parts *)
  JSON_parse : jsstring -> jsstring + Json.value
                                             (* SyntaxError message, or value *)
}.

(** Why the inner [try] block was left. *)
Inductive ParseError :=
| SyntaxError (message : jsstring)
| ZodError.

(** What the action does to the outside, in order: the three console
    calls with their formatted first argument, and the request to the
    provider.  Of the object logged by the outer handler the message and the
    duration are kept (the engine's stack text is not); the inner handler
    logs the error it caught. *)
Inductive Event :=
| console_error (text : jsstring) (detail : option (jsstring * Z))
| console_warn (text : jsstring) (cause : option ParseError)
| console_info (text : jsstring)
| outbound (parts : list jsstring).

(** The number of clock readings taken so far, and the events so far. *)
Record World := { reads : nat; trace : list Event }.

(** *** A small monad for the action's effects

    The action reads the clock, writes to the console, calls the provider
    and may leave a block by [throw]; a computation maps the world before
    it to its outcome and the world after it. *)

Inductive Outcome (A : Type) :=
| normal (a : A)
| abrupt (e : Thrown).
Arguments abrupt {A} e.

Definition M (A : Type) : Type := World -> Outcome A * World.

Definition ret {A} (a : A) : M A := fun w => (normal a, w).

Definition bind {A B} (m : M A) (k : A -> M B) : M B :=
  fun w =>
    match m w with
    | (normal a, w') => k a w'
    | (abrupt e, w') => (abrupt e, w')
    end.

Definition throw {A} (e : Thrown) : M A := fun w => (abrupt e, w).

Definition tryCatch {A} (body : M A) (handler : Thrown -> M A) : M A :=
  fun w =>
    match body w with
    | (normal a, w') => (normal a, w')
    | (abrupt e, w') => handler e w'
    end.

Definition emit (ev : Event) : M unit :=
  fun w => (normal tt, {| reads := reads w; trace := trace w ++ [ev] |}).

Notation "x <- m ;; k" := (bind m (fun x => k))
  (at level 61, m at next level, right associativity).
Notation "m ;;; k" := (bind m (fun _ => k))
  (at level 61, right associativity).

Section Action.

Variable rt : Runtime.

Definition now : M Z :=
  fun w => (normal (Date_now rt (reads w)),
            {| reads := S (reads w); trace := trace w |}).

Definition generateRequestId : M jsstring :=
  t <- now ;;
  ret (Js.lit "req_" ++ Js.ofInt t ++ Js.lit "_"
       ++ Js.substring 2 11 (Math_random_toString36 rt)).

(** The template literal of the source, its double quotes written as
    apostrophes (the text has no apostrophe of its own). *)
Definition qaSystemPrompt : jsstring := Js.quoted (Js.lit
"You are AI FinAgent QA Validator, a specialized financial analysis system.

Role: Validate API responses, analyze financial data, and generate structured reports.

Output Format Requirements:
1. Comprehensive Markdown Analysis
2. QA Result Table with Pass/Fail Status
3. Structured JSON data in <data>JSON_HERE</data> tags

JSON Schema (STRICT):
{
  'type': 'trend' | 'sector' | 'heatmap',
  'items': [
    {
      'name': 'string (required)',
      'value': number (required, finite)
    }
  ]
}

Quality Standards:
- Accuracy: All financial calculations must be precise
- Clarity: Use professional financial terminology
- Completeness: Address all aspects of the user query
- Compliance: Follow FINRA and SEC reporting standards").

Definition tag (requestId : jsstring) : jsstring :=
  Js.lit "[" ++ requestId ++ Js.lit "] ".

Definition coverage (iv ar dp : bool) : TestCoverage :=
  {| inputValidation := iv; apiResponse := ar; dataParsing := dp |}.

Definition failed (message : jsstring) (c : TestCoverage)
                  (ts : Z) (requestId : jsstring) : ApiResponse :=
  {| success := false; data := None; error := Some message;
     testCoverage := c; timestamp := Some ts; requestId := Some requestId |}.

(** [formData instanceof FormData ? formData.get("prompt")?.toString() ?? "" : formData] *)
Definition rawPrompt (formData : Input) : jsstring :=
  match formData with
  | ofFormData fd =>
      match FormData_get fd (Js.lit "prompt") with
      | Some v => entry_toString v
      | None => []
      end
  | ofString s => s
  end.

(** The parts sent to the provider. *)
Definition requestParts (prompt : jsstring) : list jsstring :=
  [qaSystemPrompt; Js.lit "User Query: " ++ prompt].

(** [generateContent], [result.response] and [response.text()]. *)
Definition callModel (apiKey prompt : jsstring) : M jsstring :=
  emit (outbound (requestParts prompt)) ;;;
  match generateContent rt apiKey (requestParts prompt) with
  | rejected e => throw e
  | responded (inl e) => throw e
  | responded (inr responseText) => ret responseText
  end.

(** The body of the inner [try]: clean, [JSON.parse], [ChartSchema.parse]. *)
Definition parseChart (capture : jsstring) : ParseError + Chart :=
  match JSON_parse rt (Payload.cleanJson capture) with
  | inl message => inl (SyntaxError message)
  | inr parsedData =>
      match ChartSchema_parse parsedData with
      | Some chart => inr chart
      | None => inl ZodError
      end
  end.

(** The value of [chartDataValid] after the extraction block. *)
Definition extractChart (requestId responseText : jsstring) : M bool :=
  match Payload.dataMatch responseText with
  | Some capture =>
      if Js.truthy capture then
        match parseChart capture with
        | inr _ => ret true
        | inl parseError =>
            emit (console_warn
                    (tag requestId ++ Js.lit "Chart JSON validation failed:")
                    (Some parseError)) ;;;
            ret false
        end
      else ret false
  | None => ret false
  end.

Definition analyzeFinancialDataAction (formData : Input) : M ApiResponse :=
  requestId <- generateRequestId ;;
  timestamp <- now ;;
  match GEMINI_API_KEY rt with
  | None | Some [] =>                                   (* if (!apiKey) *)
      emit (console_error
              (tag requestId
               ++ Js.lit "Missing GEMINI_API_KEY environment variable")
              None) ;;;
      ret (failed
             (Js.lit "AI service configuration error. Please contact system administrator.")
             (coverage false false false) timestamp requestId)
  | Some apiKey =>
      match Zod.string_safeParse FinancialQuerySchema (rawPrompt formData) with
      | Zod.failure errors =>                           (* !validation.success *)
          let errorMessage := Js.join (Js.lit "; ") errors in
          emit (console_warn
                  (tag requestId ++ Js.lit "Input validation failed: "
                   ++ errorMessage) None) ;;;
          ret (failed (Js.lit "Invalid input: " ++ errorMessage)
                      (coverage true false false) timestamp requestId)
      | Zod.success prompt =>
          tryCatch
            (responseText <- callModel apiKey prompt ;;
             if negb (Js.truthy responseText)
                || (Js.length (Js.trim responseText) =? 0)
             then throw (Error (Js.lit "Empty response received from AI service"))
             else
               chartDataValid <- extractChart requestId responseText ;;
               finished <- now ;;
               emit (console_info
                       (tag requestId
                        ++ Js.lit "Analysis completed successfully in "
                        ++ Js.ofInt (finished - timestamp)%Z ++ Js.lit "ms")) ;;;
               ret {| success := true;
                      data := Some responseText;
                      error := None;
                      testCoverage := coverage true true chartDataValid;
                      timestamp := Some timestamp;
                      requestId := Some requestId |})
            (fun error =>
               let errorMessage :=
                 match error with
                 | Error message => message
                 | NotAnError => Js.lit "Unknown error occurred during analysis"
                 end in
               caught <- now ;;
               emit (console_error
                       (tag requestId ++ Js.lit "Fatal error:")
                       (Some (errorMessage, (caught - timestamp)%Z))) ;;;
               ret (failed
                      (Js.lit "Analysis service temporarily unavailable. Please try again.")
                      (coverage true false false) timestamp requestId))
      end
  end.

(** [healthCheck] *)
Definition healthCheck : M (jsstring * Z) :=
  t <- now ;;
  ret (match GEMINI_API_KEY rt with
       | None | Some [] => Js.lit "degraded"
       | Some _ => Js.lit "operational"
       end, t).

End Action.

End Actions.

(* ================================================================== *)
(** ** [src/app/page.tsx] *)

Module Page.

(** What [validateChartData] returns at run time.  The source annotates it
    as [ChartData], but [data.type as ...] and [as ChartDataItem[]] are
    compile-time casts: the members are whatever [JSON.parse] produced. *)
Record ChartData := { type : Json.value; items : list Json.value }.

Record HistoryItem := {
  id : jsstring;
  query : jsstring;
  response : jsstring;
  timestamp : Z;
  data : option ChartData;
  requestId : option jsstring
}.

Definition MAX_HISTORY_ITEMS : nat := 50.

(** The interface [ChartData] of the source, as a test on a runtime value:
    [type] is one of the three literals and every item has a string [name]
    and a finite number [value]. *)
Definition isChartDataItem (item : Json.value) : bool :=
  match item with
  | Json.object props =>
      match Json.get props (Js.lit "name"), Json.get props (Js.lit "value") with
      | Some (Json.string _), Some (Json.num (Json.finite _)) => true
      | _, _ => false
      end
  | _ => false
  end.

Definition isChartType (t : Json.value) : bool :=
  match t with
  | Json.string s =>
      Js.eqb s (Js.lit "trend") || Js.eqb s (Js.lit "sector")
      || Js.eqb s (Js.lit "heatmap")
  | _ => false
  end.

Definition isChartData (c : ChartData) : bool :=
  isChartType (type c) && forallb isChartDataItem (items c).

(** The callback given to [data.items.filter]. *)
Definition validItem (item : Json.value) : bool :=
  match item with
  | Json.object props =>
      Json.has props (Js.lit "name")
      && Json.has props (Js.lit "value")
      && match Json.get props (Js.lit "value") with
         | Some (Json.num n) => Json.isFinite n
         | _ => false
         end
  | Json.array _ => false        (* an object, but ['name' in item] fails *)
  | _ => false                   (* falsy, or not of type object *)
  end.

(** [items?.length]; [None] is [undefined]. *)
Definition lengthOf (items : Json.value) : option Json.value :=
  match items with
  | Json.array elements =>
      Some (Json.num (Json.finite (inject_Z (Z.of_nat (List.length elements)))))
  | Json.string s =>
      Some (Json.num (Json.finite (inject_Z (Z.of_nat (Js.length s)))))
  | Json.object props => Json.get props (Js.lit "length")
  | _ => None
  end.

Definition truthyOpt (v : option Json.value) : bool :=
  match v with Some x => Json.truthy x | None => false end.

(** [validateChartData] from [JSON.parse]'s value on: the guard on
    [data?.items?.length] and [data.type], the filter, the emptiness test.
    [None] is the [null] result; a [TypeError] raised by [data.items.filter]
    on a value that is not an array is caught and also gives [null]. *)
Definition chartOfParsed (data : Json.value) : option ChartData :=
  match data with
  | Json.object props =>
      match Json.get props (Js.lit "items") with
      | Some dataItems =>
          if negb (truthyOpt (lengthOf dataItems))
             || negb (truthyOpt (Json.get props (Js.lit "type")))
          then None
          else
            match dataItems, Json.get props (Js.lit "type") with
            | Json.array elements, Some dataType =>
                match filter validItem elements with
                | [] => None
                | validItems => Some {| type := dataType; items := validItems |}
                end
            | _, _ => None
            end
      | None => None
      end
  | _ => None
  end.

(** The updater that [handleSearch] hands to [setHistory] after a
    successful analysis:
    [prev => [newItem, ...prev.slice(0, MAX_HISTORY_ITEMS - 1)]].
    [setStoredValue] applies it to the history held in memory. *)
Definition prepend (newItem : HistoryItem) (prev : list HistoryItem)
  : list HistoryItem :=
  newItem :: firstn (MAX_HISTORY_ITEMS - 1) prev.

(** The history after the items of [appended] went through the updater one
    after the other, [appended] being in the order of the calls. *)
Definition afterAppends (start appended : list HistoryItem) : list HistoryItem :=
  fold_left (fun prev newItem => prepend newItem prev) appended start.

Section Browser.

(** The engine's [JSON.parse] (a [SyntaxError] message, or the value) and
    [String.prototype.toLowerCase]. *)
Variable JSON_parse : jsstring -> jsstring + Json.value.
Variable toLowerCase : jsstring -> jsstring.

Definition validateChartData (text : jsstring) : option ChartData :=
  match Payload.dataMatch text with
  | Some capture =>
      if Js.truthy capture then
        match JSON_parse (Payload.cleanJson capture) with
        | inr data => chartOfParsed data
        | inl _ => None
        end
      else None
  | None => None
  end.

(** The predicate of [filteredHistory]. *)
Definition matchesSearch (debouncedSearch : jsstring) (item : HistoryItem) : bool :=
  Js.includes (toLowerCase (query item)) (toLowerCase debouncedSearch).

Definition filteredHistory (history : list HistoryItem)
                           (debouncedSearch : jsstring) : list HistoryItem :=
  filter (matchesSearch debouncedSearch) history.

End Browser.

End Page.

(* ================================================================== *)
(** ** [MarkdownRenderer]: the text shown for a response

    [content.replace(/<data>[\s\S]*?<\/data>/g, "").trim()]: every match of
    the block pattern, found from the left without overlap, is deleted.
    [pending] counts the code units of the current match still to be
    skipped. *)

Module Markdown.

Fixpoint stripBlocks (pending : nat) (s : jsstring) : jsstring :=
  match s with
  | [] => []
  | c :: t =>
      match pending with
      | S k => stripBlocks k t
      | O =>
          match Payload.matchHere s with
          | Some capture =>
              stripBlocks (Js.length Payload.openTag + Js.length capture
                           + Js.length Payload.closeTag - 1) t
          | None => c :: stripBlocks 0 t
          end
      end
  end.

Definition displayContent (content : jsstring) : jsstring :=
  Js.trim (stripBlocks 0 content).

End Markdown.

(* ================================================================== *)
(** ** [useLocalStorage] and the handlers of the dashboard *)

Module Dashboard.

(** [window.localStorage] as the hook meets it: whether there is a window,
    the entries, and whether the store refuses writes (quota exceeded,
    storage disabled). *)
Record Browser := {
  hasWindow : bool;
  entries : list (jsstring * jsstring);
  writesFail : bool
}.

Fixpoint getItem (es : list (jsstring * jsstring)) (key : jsstring)
  : option jsstring :=
  match es with
  | [] => None
  | (k, v) :: rest => if Js.eqb k key then Some v else getItem rest key
  end.

Fixpoint setItem (es : list (jsstring * jsstring)) (key value : jsstring)
  : list (jsstring * jsstring) :=
  match es with
  | [] => [(key, value)]
  | (k, v) :: rest =>
      if Js.eqb k key then (key, value) :: rest
      else (k, v) :: setItem rest key value
  end.

Section UseLocalStorage.

(** The type of the stored value, and the engine's [JSON.stringify] and
    [JSON.parse] at that type (a [SyntaxError] message, or the value, which
    the hook casts to [T] unchecked). *)
Variable T : Type.
Variable JSON_stringify : T -> jsstring.
Variable JSON_parse : jsstring -> jsstring + T.

(** What a caller hands to the setter.  The hook declares [value: T], but
    [handleSearch] passes a function, which React's [setStoredValue] takes
    as an updater. *)
Inductive SetStateAction :=
| plain (value : T)
| updater (f : T -> T).

(** [setStoredValue(value)] *)
Definition applyAction (a : SetStateAction) (prev : T) : T :=
  match a with
  | plain value => value
  | updater f => f prev
  end.

(** The second argument of [setItem]: [JSON.stringify(value)], which is
    [undefined] for a function, converted to a string by [setItem]. *)
Definition storedText (a : SetStateAction) : jsstring :=
  match a with
  | plain value => JSON_stringify value
  | updater _ => Js.lit "undefined"
  end.

Record Hook := {
  storedValue : T;
  browser : Browser;
  console : list jsstring
}.

(** [useState(initialValue)] in a browser. *)
Definition mount (initialValue : T) (b : Browser) : Hook :=
  {| storedValue := initialValue; browser := b; console := [] |}.

(** The effect that runs once after mounting. *)
Definition load (key : jsstring) (h : Hook) : Hook :=
  if negb (hasWindow (browser h)) then h
  else
    match getItem (entries (browser h)) key with
    | Some item =>
        if Js.truthy item then
          match JSON_parse item with
          | inr value =>
              {| storedValue := value; browser := browser h; console := console h |}
          | inl _ =>
              {| storedValue := storedValue h; browser := browser h;
                 console := console h
                   ++ [Js.lit "Error loading " ++ key ++ Js.lit " from localStorage:"] |}
          end
        else h
    | None => h
    end.

(** [setValue] *)
Definition setValue (key : jsstring) (a : SetStateAction) (h : Hook) : Hook :=
  let next := applyAction a (storedValue h) in
  if hasWindow (browser h) then
    if writesFail (browser h) then
      {| storedValue := next; browser := browser h;
         console := console h
           ++ [Js.lit "Error saving " ++ key ++ Js.lit " to localStorage:"] |}
    else
      {| storedValue := next;
         browser := {| hasWindow := true;
                       entries := setItem (entries (browser h)) key (storedText a);
                       writesFail := false |};
         console := console h |}
  else {| storedValue := next; browser := browser h; console := console h |}.

End UseLocalStorage.

Arguments plain {T} value.
Arguments updater {T} f.

Definition STORAGE_KEY : jsstring := Js.lit "finagent_qa_history".

(** The state of [FinAgentQADashboard] that the handlers read and write.
    [mounted] is [mountedRef.current] at the time the handler looks at it;
    [requests] lists the queries handed to the server action and [log] the
    messages given to [console.error] by [handleSearch]. *)
Record State := {
  query : jsstring;
  loading : bool;
  currentAnalysis : option Page.HistoryItem;
  error : option jsstring;
  history : Hook (list Page.HistoryItem);
  mounted : bool;
  requests : list jsstring;
  log : list jsstring
}.

(** What a handler needs from outside: the server action as the page sees
    it (the awaited call rejects, or resolves to an envelope), the two
    clock readings and the random text that make the new item, the two JSON
    functions, and the answer to the [confirm] dialog. *)
Record Env := {
  callAction : jsstring -> Actions.Thrown + Actions.ApiResponse;
  idClock : Z;
  idRandom : jsstring;
  stampClock : Z;
  JSON_parse : jsstring -> jsstring + Json.value;
  JSON_stringify : list Page.HistoryItem -> jsstring;
  confirmed : bool
}.

(** [(customQuery || query).trim()] *)
Definition activeQueryOf (customQuery : option jsstring) (st : State) : jsstring :=
  Js.trim (match customQuery with
           | Some (c :: q) => c :: q
           | _ => query st
           end).

Definition newItemOf (env : Env) (activeQuery responseText : jsstring)
                     (result : Actions.ApiResponse) : Page.HistoryItem :=
  {| Page.id := Js.lit "qa-" ++ Js.ofInt (idClock env) ++ Js.lit "-"
                ++ Js.substring 2 9 (idRandom env);
     Page.query := activeQuery;
     Page.response := responseText;
     Page.timestamp := stampClock env;
     Page.data := Page.validateChartData (JSON_parse env) responseText;
     Page.requestId := Actions.requestId result |}.

Definition setHistory (env : Env) (a : SetStateAction (list Page.HistoryItem))
                      (st : State) : State :=
  {| query := query st; loading := loading st;
     currentAnalysis := currentAnalysis st; error := error st;
     history := setValue (JSON_stringify env) STORAGE_KEY a (history st);
     mounted := mounted st; requests := requests st; log := log st |}.

(** The [catch] block of [handleSearch]. *)
Definition fail (message : jsstring) (st : State) : State :=
  {| query := query st; loading := loading st;
     currentAnalysis := currentAnalysis st; error := Some message;
     history := history st; mounted := mounted st; requests := requests st;
     log := log st ++ [message] |}.

(** The [finally] block. *)
Definition settle (st : State) : State :=
  if mounted st then
    {| query := query st; loading := false;
       currentAnalysis := currentAnalysis st; error := error st;
       history := history st; mounted := mounted st; requests := requests st;
       log := log st |}
  else st.

Definition handleSearch (env : Env) (customQuery : option jsstring) (st : State)
  : State :=
  let activeQuery := activeQueryOf customQuery st in
  if negb (Js.truthy activeQuery) || loading st then st
  else
    let started :=
      {| query := query st; loading := true;
         currentAnalysis := currentAnalysis st; error := None;
         history := history st; mounted := mounted st;
         requests := requests st ++ [activeQuery]; log := log st |} in
    settle
      match callAction env activeQuery with
      | inl (Actions.Error message) => fail message started
      | inl Actions.NotAnError => fail (Js.lit "Analysis request failed") started
      | inr result =>
          if negb (Actions.success result) then
            fail (match Actions.error result with
                  | Some (c :: m) => c :: m
                  | _ => Js.lit "Analysis failed"
                  end) started
          else
            match Actions.data result with
            | Some (c :: d) =>
                let newItem := newItemOf env activeQuery (c :: d) result in
                if mounted started then
                  let stored := setHistory env (updater (Page.prepend newItem)) started in
                  {| query := []; loading := loading stored;
                     currentAnalysis := Some newItem; error := error stored;
                     history := history stored; mounted := mounted stored;
                     requests := requests stored; log := log stored |}
                else started
            | _ => started
            end
      end.

Definition clearHistory (env : Env) (st : State) : State :=
  if negb (mounted st) then st
  else if confirmed env then
    let cleared := setHistory env (plain []) st in
    {| query := query cleared; loading := loading cleared;
       currentAnalysis := None; error := error cleared;
       history := history cleared; mounted := mounted cleared;
       requests := requests cleared; log := log cleared |}
  else st.

End Dashboard.

(* ================================================================== *)
(** ** The visual-editing bridge: [postMessageDedup] *)

Module VisualEdits.

Section PostMessageDedup.

(** The messages, the engine's [JSON.stringify] on them (it throws, or it
    returns [undefined] or a text), and whether there is a window. *)
Variable Data : Type.
Variable JSON_stringify : Data -> unit + option jsstring.
Variable hasWindow : bool.

(** [_orchidsLastMsg] (a text, or [undefined] once a message had no JSON
    text) and the messages posted to the parent window so far. *)
Record State := { lastMsg : option jsstring; posted : list Data }.

Definition initial : State := {| lastMsg := Some []; posted := [] |}.

(** [key === _orchidsLastMsg] *)
Definition sameKey (key last : option jsstring) : bool :=
  match key, last with
  | Some a, Some b => Js.eqb a b
  | None, None => true
  | _, _ => false
  end.

Definition post (data : Data) (st : State) : State :=
  if hasWindow
  then {| lastMsg := lastMsg st; posted := posted st ++ [data] |}
  else st.

Definition postMessageDedup (data : Data) (st : State) : State :=
  match JSON_stringify data with
  | inr key =>
      if sameKey key (lastMsg st) then st
      else post data {| lastMsg := key; posted := posted st |}
  | inl _ => post data st
  end.

(** A run of calls, in order. *)
Definition run (messages : list Data) (st : State) : State :=
  fold_left (fun s data => postMessageDedup data s) messages st.


End PostMessageDedup.

End VisualEdits.

(* ================================================================== *)
(** ** [QaErrorReporter]: the list of captured errors *)

Module ErrorReporter.

Inductive Level := error | warning | info | test_fail | api_error.

Record ErrorData := {
  id : jsstring;
  message : jsstring;
  stack : option jsstring;
  timestamp : Z;
  level : Level;
  endpoint : option jsstring
}.

(** What the two listeners receive, with the identifier and the clock
    reading that the handler draws: an [ErrorEvent] (its message and
    [event.error?.stack]), or a rejection whose reason is an [Error] or
    some other value (given by its [String(reason)]). *)
Inductive Reason :=
| reasonError (message : jsstring) (stack : option jsstring)
| reasonOther (asString : jsstring).

Inductive WindowEvent :=
| onError (uuid : jsstring) (now : Z) (message : jsstring) (stack : option jsstring)
| onRejection (uuid : jsstring) (now : Z) (reason : Reason).

Section Handlers.

Variable toLowerCase : jsstring -> jsstring.

Definition orElse (s fallback : jsstring) : jsstring :=
  match s with [] => fallback | _ :: _ => s end.

Definition errorDataOf (ev : WindowEvent) : ErrorData :=
  match ev with
  | onError uuid now msg stk =>
      {| id := uuid;
         message := orElse msg (Js.lit "Unknown Runtime Error");
         stack := Some (match stk with
                        | Some (c :: s) => c :: s
                        | _ => Js.lit "No stack trace provided"
                        end);
         timestamp := now;
         level := if Js.includes (toLowerCase msg) (Js.lit "test")
                  then test_fail else error;
         endpoint := None |}
  | onRejection uuid now reason =>
      {| id := uuid;
         message := match reason with
                    | reasonError msg _ => msg
                    | reasonOther text => text
                    end;
         stack := match reason with
                  | reasonError _ stk => stk
                  | reasonOther _ => Some []
                  end;
         timestamp := now;
         level := api_error;
         endpoint := Some (Js.lit "Async Rejection") |}
  end.

(** [setErrors(prev => [errorData, ...prev.slice(0, 19)])], in both
    handlers. *)
Definition capture (ev : WindowEvent) (prev : list ErrorData) : list ErrorData :=
  errorDataOf ev :: firstn 19 prev.

Definition afterEvents (events : list WindowEvent) (start : list ErrorData)
  : list ErrorData :=
  fold_left (fun prev ev => capture ev prev) events start.

End Handlers.

End ErrorReporter.

(* ================================================================== *)
(** ** [Textarea]: the row count of the autosizing effect *)

Module Textarea.

(** [Math.min(Math.max(Math.floor(scrollHeight / 24), minRows), maxRows)]
    for a [scrollHeight] and row bounds that are integers. *)
Definition newRows (scrollHeight minRows maxRows : Z) : Z :=
  Z.min (Z.max (scrollHeight / 24) minRows) maxRows.

End Textarea.

(* ================================================================== *)
(** ** [AvatarFallback]: [getInitials] *)

Module Avatar.

(** [s.split(" ")]: the pieces between single spaces; the empty string
    gives one empty piece. *)
Fixpoint split (s : jsstring) : list jsstring :=
  match s with
  | [] => [[]]
  | c :: t =>
      if N.eqb c 32 then [] :: split t
      else match split t with
           | piece :: pieces => (c :: piece) :: pieces
           | [] => [[c]]
           end
  end.

(** [piece[0]] inside a template literal: the code unit, or the text
    [undefined] when the piece is empty. *)
Definition firstUnit (piece : jsstring) : jsstring :=
  match piece with
  | c :: _ => [c]
  | [] => Js.lit "undefined"
  end.

Section GetInitials.

Variable toUpperCase : jsstring -> jsstring.

(** [None] is a missing [aria-label]. *)
Definition getInitials (name : option jsstring) : jsstring :=
  match name with
  | None | Some [] => Js.lit "QA"
  | Some name =>
      let names := split (Js.trim name) in
      if 1 <? List.length names
      then toUpperCase (firstUnit (hd [] names) ++ firstUnit (last names []))
      else toUpperCase (firstn 2 name)
  end.

End GetInitials.

End Avatar.

(* ================================================================== *)
(** * Properties *)

(** ** Vocabulary for the statements *)

(** The credential as the guard [if (!apiKey)] sees it: an unset variable
    and an empty one are both falsy. *)
Definition credential (rt : Actions.Runtime) : option jsstring :=
  match Actions.GEMINI_API_KEY rt with
  | Some (c :: k) => Some (c :: k)
  | _ => None
  end.

(** The identifier and the time stamp that a call started in world [w]
    puts into its envelope. *)
Definition idOf (rt : Actions.Runtime) (w : Actions.World) : jsstring :=
  Js.lit "req_" ++ Js.ofInt (Actions.Date_now rt (Actions.reads w)) ++ Js.lit "_"
  ++ Js.substring 2 11 (Actions.Math_random_toString36 rt).

Definition stampOf (rt : Actions.Runtime) (w : Actions.World) : Z :=
  Actions.Date_now rt (S (Actions.reads w)).

(** The provider calls recorded in a trace. *)
Definition outboundCalls (tr : list Actions.Event) : list (list jsstring) :=
  flat_map (fun ev => match ev with
                      | Actions.outbound parts => [parts]
                      | _ => []
                      end) tr.

(** A response text that the guard after [response.text()] refuses. *)
Definition blank (responseText : jsstring) : bool :=
  negb (Js.truthy responseText) || (Js.length (Js.trim responseText) =? 0).

(** How the provider call ends for the action: with the thrown value that
    reaches the outer [catch], or with an accepted response text. *)
Definition completionOf (rt : Actions.Runtime) (apiKey prompt : jsstring)
  : Actions.Thrown + jsstring :=
  match Actions.generateContent rt apiKey (Actions.requestParts prompt) with
  | Actions.rejected e => inl e
  | Actions.responded (inl e) => inl e
  | Actions.responded (inr responseText) =>
      if blank responseText
      then inl (Actions.Error (Js.lit "Empty response received from AI service"))
      else inr responseText
  end.

Definition causeText (e : Actions.Thrown) : jsstring :=
  match e with
  | Actions.Error message => message
  | Actions.NotAnError => Js.lit "Unknown error occurred during analysis"
  end.

(** What the extraction block decides for a response text, and what it
    writes to the console while doing so. *)
Definition chartValid (rt : Actions.Runtime) (responseText : jsstring) : bool :=
  match Payload.dataMatch responseText with
  | Some capture =>
      Js.truthy capture &&
      match Actions.parseChart rt capture with
      | inr _ => true
      | inl _ => false
      end
  | None => false
  end.

Definition chartWarning (rt : Actions.Runtime) (requestId responseText : jsstring)
  : list Actions.Event :=
  match Payload.dataMatch responseText with
  | Some (c :: capture) =>
      match Actions.parseChart rt (c :: capture) with
      | inr _ => []
      | inl parseError =>
          [Actions.console_warn
             (Actions.tag requestId ++ Js.lit "Chart JSON validation failed:")
             (Some parseError)]
      end
  | _ => []
  end.

(** The two messages of [FinancialQuerySchema]. *)
Definition tooShort : jsstring := Js.lit "Query must contain at least 3 characters".
Definition tooLong : jsstring :=
  Js.lit "Query exceeds maximum length of 2000 characters".

(** The three fixed error texts of the envelope. *)
Definition configurationError : jsstring :=
  Js.lit "AI service configuration error. Please contact system administrator.".
Definition serviceUnavailable : jsstring :=
  Js.lit "Analysis service temporarily unavailable. Please try again.".
Definition invalidInput (errors : list jsstring) : jsstring :=
  Js.lit "Invalid input: " ++ Js.join (Js.lit "; ") errors.

(** The envelope of a finished call; [None] if the call itself threw. *)
Definition envelope (run : Actions.Outcome Actions.ApiResponse * Actions.World)
  : option Actions.ApiResponse :=
  match fst run with
  | Actions.normal r => Some r
  | Actions.abrupt _ => None
  end.

(** *** A concrete runtime for examples

    A server with a credential, a clock that advances by one millisecond per
    reading, a provider that answers every request with [completion], and a
    [JSON.parse] that knows the few texts the examples use. *)
Definition sampleJson : Json.value :=
  Json.object
    [ (Js.lit "type", Json.string (Js.lit "trend"));
      (Js.lit "items",
       Json.array
         [ Json.object [ (Js.lit "name", Json.string (Js.lit "Q1"));
                         (Js.lit "value", Json.num (Json.finite (inject_Z 7))) ] ]) ].

Definition sampleText : jsstring :=
  Js.quoted (Js.lit "{'type':'trend','items':[{'name':'Q1','value':7}]}").

Definition sampleParse (text : jsstring) : jsstring + Json.value :=
  if Js.eqb text sampleText then inr sampleJson
  else inl (Js.lit "Unexpected token in JSON").

Definition sampleRuntime (completion : Actions.Completion) : Actions.Runtime :=
  {| Actions.GEMINI_API_KEY := Some (Js.lit "test-key");
     Actions.Date_now := fun n => (1700000000000 + Z.of_nat n)%Z;
     Actions.Math_random_toString36 := Js.lit "0.4fzyo82mvyr";
     Actions.generateContent := fun _ _ => completion;
     Actions.JSON_parse := sampleParse |}.

Definition noKey (rt : Actions.Runtime) : Actions.Runtime :=
  {| Actions.GEMINI_API_KEY := None;
     Actions.Date_now := Actions.Date_now rt;
     Actions.Math_random_toString36 := Actions.Math_random_toString36 rt;
     Actions.generateContent := Actions.generateContent rt;
     Actions.JSON_parse := Actions.JSON_parse rt |}.

Definition world0 : Actions.World := {| Actions.reads := 0; Actions.trace := [] |}.

(** The ways in which the provider call of step 4 can fail, with the value
    that reaches the outer [catch]: the request is rejected (network, quota),
    [response.text()] throws (a blocked candidate), or the text is empty or
    all white space and the action throws its own error. *)
Definition upstreamFailure (rt : Actions.Runtime) (apiKey prompt : jsstring)
                           (e : Actions.Thrown) : Prop :=
  Actions.generateContent rt apiKey (Actions.requestParts prompt) = Actions.rejected e
  \/ Actions.generateContent rt apiKey (Actions.requestParts prompt)
     = Actions.responded (inl e)
  \/ exists responseText,
       Actions.generateContent rt apiKey (Actions.requestParts prompt)
       = Actions.responded (inr responseText)
       /\ forallb Js.isWhiteSpace responseText = true
       /\ e = Actions.Error (Js.lit "Empty response received from AI service").

(** The ways in which the embedded payload of a response text can be of no
    use: no delimited block (or an empty one), a block that [JSON.parse]
    refuses, a block whose value [ChartSchema] refuses. *)
Definition payloadUnusable (rt : Actions.Runtime) (responseText : jsstring) : Prop :=
  Payload.dataMatch responseText = None
  \/ Payload.dataMatch responseText = Some []
  \/ exists capture,
       Payload.dataMatch responseText = Some capture
       /\ ((exists message,
              Actions.JSON_parse rt (Payload.cleanJson capture) = inl message)
           \/ (exists parsedData,
                 Actions.JSON_parse rt (Payload.cleanJson capture) = inr parsedData
                 /\ Actions.ChartSchema_parse parsedData = None)).

(** *** Vocabulary for the history store *)

(** [sub] is [full] with some elements left out, the others in their
    order. *)
Inductive subsequence {A : Type} : list A -> list A -> Prop :=
| subsequence_nil : subsequence [] []
| subsequence_drop x sub full : subsequence sub full -> subsequence sub (x :: full)
| subsequence_keep x sub full :
    subsequence sub full -> subsequence (x :: sub) (x :: full).

(** [toLowerCase] on Basic Latin: the letters A to Z move to a to z and no
    other code unit below 128 has a lower-case mapping. *)
Definition asciiLower (c : N) : N :=
  if ((65 <=? c) && (c <=? 90))%N then (c + 32)%N else c.

Definition basicLatin (s : jsstring) : bool := forallb (fun c => (c <? 128)%N) s.

Definition lowerBasicLatin (s : jsstring) : jsstring := map asciiLower s.

(** A history item for examples. *)
Definition sampleItem (n : nat) (q : jsstring) : Page.HistoryItem :=
  {| Page.id := Js.lit "qa-" ++ Js.ofInt (Z.of_nat n);
     Page.query := q;
     Page.response := Js.lit "Hold.";
     Page.timestamp := (1700000000000 + Z.of_nat n)%Z;
     Page.data := None;
     Page.requestId := None |}.

Definition sixtyItems : list Page.HistoryItem :=
  map (fun n => sampleItem n (Js.lit "query")) (seq 1 60).

Definition sampleHistory : list Page.HistoryItem :=
  [ sampleItem 2 (Js.lit "AAPL earnings"); sampleItem 1 (Js.lit "Test NVDA") ].

(** *** Vocabulary for chart payloads *)

Definition isSome {A : Type} (o : option A) : bool :=
  match o with Some _ => true | None => false end.

(** A parsed payload that has the declared shape through and through: an
    object whose [type] is one of the three literals and whose [items] are a
    non-empty array of objects with a string [name] and a finite number
    [value]. *)
Definition strictPayload (data : Json.value) : bool :=
  match data with
  | Json.object props =>
      match Json.get props (Js.lit "type"), Json.get props (Js.lit "items") with
      | Some t, Some (Json.array (e :: es)) =>
          Page.isChartType t && forallb Page.isChartDataItem (e :: es)
      | _, _ => false
      end
  | _ => false
  end.

Definition goodItem : Json.value :=
  Json.object [ (Js.lit "name", Json.string (Js.lit "Q1"));
                (Js.lit "value", Json.num (Json.finite (inject_Z 7))) ].

Definition badItem : Json.value :=
  Json.object [ (Js.lit "name", Json.string (Js.lit "Q2"));
                (Js.lit "value", Json.string (Js.lit "n/a")) ].

(** [{"type":"trend","items":[{"name":"Q1","value":7},{"name":"Q2","value":"n/a"}]}] *)
Definition mixedPayload : Json.value :=
  Json.object [ (Js.lit "type", Json.string (Js.lit "trend"));
                (Js.lit "items", Json.array [goodItem; badItem]) ].

(** [{"type":"pie","items":[{"name":"Q1","value":7}]}] *)
Definition piePayload : Json.value :=
  Json.object [ (Js.lit "type", Json.string (Js.lit "pie"));
                (Js.lit "items", Json.array [goodItem]) ].

(** *** Vocabulary for the further properties *)

(** A string that [trim] leaves alone: empty, or with a first and a last
    code unit that are not white space. *)
Definition isTrimmed (s : jsstring) : bool :=
  match s with
  | [] => true
  | c :: _ => negb (Js.isWhiteSpace c) && negb (Js.isWhiteSpace (last s c))
  end.

(** The length test of the schema on a prompt as passed. *)
Definition lengthAccepted (raw : jsstring) : bool :=
  (3 <=? Js.length raw) && (Js.length raw <=? 2000).

(** The four texts that the [error] member of an envelope can hold. *)
Definition knownErrors : list jsstring :=
  [ configurationError; serviceUnavailable;
    invalidInput [tooShort]; invalidInput [tooLong] ].

(** The formatted first argument of a console call. *)
Definition consoleText (ev : Actions.Event) : option jsstring :=
  match ev with
  | Actions.console_error text _ => Some text
  | Actions.console_warn text _ => Some text
  | Actions.console_info text => Some text
  | Actions.outbound _ => None
  end.

(** A form without a [prompt] field, and one whose [prompt] is a file. *)
Definition formWithoutPrompt : Actions.FormData :=
  [ (Js.lit "query", Actions.entryString (Js.lit "NVDA outlook")) ].

Definition formWithFile : Actions.FormData :=
  [ (Js.lit "prompt", Actions.entryFile);
    (Js.lit "prompt", Actions.entryString (Js.lit "NVDA outlook")) ].

(** The code fence, and a backtick. *)
Definition fence : jsstring := Js.lit "```".
Definition backtick : N := 96%N.

(** The server action as the page calls it: one run of
    [analyzeFinancialDataAction] on the query, in server world [w]. *)
Definition serverAction (rt : Actions.Runtime) (w : Actions.World)
                        (activeQuery : jsstring)
  : Actions.Thrown + Actions.ApiResponse :=
  match fst (Actions.analyzeFinancialDataAction rt (Actions.ofString activeQuery) w) with
  | Actions.normal r => inr r
  | Actions.abrupt e => inl e
  end.

(** A browser whose storage works, a hook over it, and a page for
    examples. *)
Definition sampleBrowser : Dashboard.Browser :=
  {| Dashboard.hasWindow := true;
     Dashboard.entries := [(Js.lit "theme", Js.lit "dark")];
     Dashboard.writesFail := false |}.

(** A stand-in for [JSON.stringify]/[JSON.parse] on histories that is exact
    on the two texts the examples need. *)
Definition sampleStringify (h : list Page.HistoryItem) : jsstring :=
  match h with
  | [] => Js.lit "[]"
  | _ :: _ => Js.lit "[...]"
  end.

Definition sampleParseHistory (text : jsstring) : jsstring + list Page.HistoryItem :=
  if Js.eqb text (Js.lit "[]") then inr []
  else inl (Js.lit "Unexpected token in JSON").

Definition sampleEnv (completion : Actions.Completion) : Dashboard.Env :=
  {| Dashboard.callAction := serverAction (sampleRuntime completion) world0;
     Dashboard.idClock := 1700000000100%Z;
     Dashboard.idRandom := Js.lit "0.k3v9x1b7q2";
     Dashboard.stampClock := 1700000000101%Z;
     Dashboard.JSON_parse := sampleParse;
     Dashboard.JSON_stringify := sampleStringify;
     Dashboard.confirmed := true |}.

Definition samplePage (typed : jsstring) : Dashboard.State :=
  {| Dashboard.query := typed;
     Dashboard.loading := false;
     Dashboard.currentAnalysis := None;
     Dashboard.error := None;
     Dashboard.history := Dashboard.mount sampleHistory sampleBrowser;
     Dashboard.mounted := true;
     Dashboard.requests := [];
     Dashboard.log := [] |}.

(** Messages for examples: a message is its own JSON text. *)
Definition textStringify (data : jsstring) : unit + option jsstring :=
  inr (Some data).

Definition sampleEvents : list ErrorReporter.WindowEvent :=
  map (fun n => ErrorReporter.onError
                  (Js.lit "id-" ++ Js.ofInt (Z.of_nat n))
                  (1700000000000 + Z.of_nat n)%Z
                  (Js.lit "Unit test failed") None)
      (seq 1 25).

(** [toUpperCase] on Basic Latin, for examples. *)
Definition asciiUpper (c : N) : N :=
  if ((97 <=? c) && (c <=? 122))%N then (c - 32)%N else c.

Definition upperBasicLatin (s : jsstring) : jsstring := map asciiUpper s.

(** ** The four ways out of [analyzeFinancialDataAction] *)

Ltac run_action :=
  cbv beta iota zeta
      delta [Actions.bind Actions.now Actions.emit Actions.ret Actions.throw
             Actions.tryCatch Actions.generateRequestId];
  cbn [Actions.reads Actions.trace].

Section Paths.

Import Actions.

Variable rt : Runtime.
Variable formData : Input.
Variable w : World.

Let rid := idOf rt w.
Let ts := stampOf rt w.
Let w2 := {| reads := S (S (reads w)); trace := trace w |}.

Lemma path_missing_key :
  credential rt = None ->
  analyzeFinancialDataAction rt formData w =
  (normal (failed configurationError (coverage false false false) ts rid),
   {| reads := reads w2;
      trace := trace w ++
        [console_error
           (tag rid ++ Js.lit "Missing GEMINI_API_KEY environment variable")
           None] |}).
Proof.
  unfold credential, analyzeFinancialDataAction.
  intros Hkey.
  destruct (GEMINI_API_KEY rt) as [[|c k]|]; try discriminate; reflexivity.
Qed.

Lemma path_invalid_input (apiKey : jsstring) (errors : list jsstring) :
  credential rt = Some apiKey ->
  Zod.string_safeParse FinancialQuerySchema (rawPrompt formData)
    = Zod.failure errors ->
  analyzeFinancialDataAction rt formData w =
  (normal (failed (invalidInput errors) (coverage true false false) ts rid),
   {| reads := reads w2;
      trace := trace w ++
        [console_warn
           (tag rid ++ Js.lit "Input validation failed: "
            ++ Js.join (Js.lit "; ") errors) None] |}).
Proof.
  unfold credential, analyzeFinancialDataAction.
  intros Hkey Hval.
  destruct (GEMINI_API_KEY rt) as [[|c k]|]; try discriminate.
  run_action. rewrite Hval. reflexivity.
Qed.

Lemma run_callModel (apiKey prompt : jsstring) (v : World) :
  callModel rt apiKey prompt v =
  (match generateContent rt apiKey (requestParts prompt) with
   | rejected e => abrupt e
   | responded (inl e) => abrupt e
   | responded (inr responseText) => normal responseText
   end,
   {| reads := reads v; trace := trace v ++ [outbound (requestParts prompt)] |}).
Proof.
  unfold callModel. run_action.
  destruct (generateContent rt apiKey (requestParts prompt)) as [e|[e|t]];
    reflexivity.
Qed.

Lemma run_extractChart (requestId responseText : jsstring) (v : World) :
  extractChart rt requestId responseText v =
  (normal (chartValid rt responseText),
   {| reads := reads v;
      trace := trace v ++ chartWarning rt requestId responseText |}).
Proof.
  unfold extractChart, chartValid, chartWarning.
  destruct v as [n tr].
  destruct (Payload.dataMatch responseText) as [[|c capture]|];
    cbn [Js.truthy andb reads trace];
    try (unfold ret; rewrite app_nil_r; reflexivity).
  destruct (parseChart rt (c :: capture)) as [parseError|chart];
    [reflexivity | unfold ret; rewrite app_nil_r; reflexivity].
Qed.

Lemma path_call_failed (apiKey prompt : jsstring) (e : Thrown) :
  credential rt = Some apiKey ->
  Zod.string_safeParse FinancialQuerySchema (rawPrompt formData)
    = Zod.success prompt ->
  completionOf rt apiKey prompt = inl e ->
  analyzeFinancialDataAction rt formData w =
  (normal (failed serviceUnavailable (coverage true false false) ts rid),
   {| reads := S (reads w2);
      trace := trace w ++
        [outbound (requestParts prompt);
         console_error (tag rid ++ Js.lit "Fatal error:")
           (Some (causeText e, (Date_now rt (reads w2) - ts)%Z))] |}).
Proof.
  unfold credential, analyzeFinancialDataAction, completionOf, blank.
  intros Hkey Hval Hcall.
  destruct (GEMINI_API_KEY rt) as [[|c k]|]; try discriminate.
  injection Hkey as <-.
  run_action. rewrite Hval, run_callModel. cbn [reads trace].
  destruct (generateContent rt (c :: k) (requestParts prompt)) as [x|[x|t]].
  - injection Hcall as <-. cbn [reads trace].
    rewrite <- (app_assoc (trace w)). reflexivity.
  - injection Hcall as <-. cbn [reads trace].
    rewrite <- (app_assoc (trace w)). reflexivity.
  - destruct (negb (Js.truthy t) || (Js.length (Js.trim t) =? 0));
      [|discriminate].
    injection Hcall as <-. cbn [reads trace].
    rewrite <- (app_assoc (trace w)). reflexivity.
Qed.

Lemma path_completed (apiKey prompt responseText : jsstring) :
  credential rt = Some apiKey ->
  Zod.string_safeParse FinancialQuerySchema (rawPrompt formData)
    = Zod.success prompt ->
  completionOf rt apiKey prompt = inr responseText ->
  analyzeFinancialDataAction rt formData w =
  (normal {| success := true;
             data := Some responseText;
             error := None;
             testCoverage := coverage true true (chartValid rt responseText);
             timestamp := Some ts;
             requestId := Some rid |},
   {| reads := S (reads w2);
      trace := trace w ++
        [outbound (requestParts prompt)] ++
        chartWarning rt rid responseText ++
        [console_info
           (tag rid ++ Js.lit "Analysis completed successfully in "
            ++ Js.ofInt (Date_now rt (reads w2) - ts)%Z ++ Js.lit "ms")] |}).
Proof.
  unfold credential, analyzeFinancialDataAction, completionOf, blank.
  intros Hkey Hval Hcall.
  destruct (GEMINI_API_KEY rt) as [[|c k]|]; try discriminate.
  injection Hkey as <-.
  run_action. rewrite Hval, run_callModel. cbn [reads trace].
  destruct (generateContent rt (c :: k) (requestParts prompt)) as [x|[x|t]];
    try discriminate.
  destruct (negb (Js.truthy t) || (Js.length (Js.trim t) =? 0));
    [discriminate|].
  injection Hcall as <-.
  rewrite run_extractChart. cbn [reads trace].
  rewrite <- !(app_assoc (trace w)). reflexivity.
Qed.

End Paths.

(** ** What [FinancialQuerySchema] decides *)

(** The two length checks see the prompt as it was passed; [trim] runs after
    them and only shapes the parsed value. *)
Lemma safeParse_FinancialQuerySchema (raw : jsstring) :
  Zod.string_safeParse Actions.FinancialQuerySchema raw =
  if Js.length raw <? 3 then Zod.failure [tooShort]
  else if 2000 <? Js.length raw then Zod.failure [tooLong]
  else Zod.success (Js.trim raw).
Proof.
  unfold Zod.string_safeParse, Actions.FinancialQuerySchema.
  cbn [fold_left Zod.runCheck Zod.data Zod.issues].
  destruct (Js.length raw <? 3) eqn:Hmin;
    cbn [fold_left Zod.runCheck Zod.addIssue Zod.data Zod.issues app];
    destruct (2000 <? Js.length raw) eqn:Hmax;
    cbn [fold_left Zod.runCheck Zod.addIssue Zod.data Zod.issues app];
    try reflexivity.
  apply Nat.ltb_lt in Hmin, Hmax. lia.
Qed.

Lemma safeParse_failure_inv (raw : jsstring) (errors : list jsstring) :
  Zod.string_safeParse Actions.FinancialQuerySchema raw = Zod.failure errors ->
  (Js.length raw < 3 /\ errors = [tooShort])
  \/ (2000 < Js.length raw /\ errors = [tooLong]).
Proof.
  rewrite safeParse_FinancialQuerySchema.
  destruct (Js.length raw <? 3) eqn:Hmin.
  - intros [= <-]. left. apply Nat.ltb_lt in Hmin. auto.
  - destruct (2000 <? Js.length raw) eqn:Hmax; [|discriminate].
    intros [= <-]. right. apply Nat.ltb_lt in Hmax. auto.
Qed.

Lemma safeParse_success_inv (raw prompt : jsstring) :
  Zod.string_safeParse Actions.FinancialQuerySchema raw = Zod.success prompt ->
  3 <= Js.length raw <= 2000 /\ prompt = Js.trim raw.
Proof.
  rewrite safeParse_FinancialQuerySchema.
  destruct (Js.length raw <? 3) eqn:Hmin; [discriminate|].
  destruct (2000 <? Js.length raw) eqn:Hmax; [discriminate|].
  intros [= <-]. apply Nat.ltb_ge in Hmin, Hmax. auto.
Qed.

Lemma outboundCalls_app (tr tr' : list Actions.Event) :
  outboundCalls (tr ++ tr') = outboundCalls tr ++ outboundCalls tr'.
Proof. unfold outboundCalls. apply flat_map_app. Qed.

Lemma outboundCalls_chartWarning (rt : Actions.Runtime) (rid text : jsstring) :
  outboundCalls (chartWarning rt rid text) = [].
Proof.
  unfold chartWarning.
  destruct (Payload.dataMatch text) as [[|c capture]|]; try reflexivity.
  destruct (Actions.parseChart rt (c :: capture)); reflexivity.
Qed.

(** ** The claims about [analyzeFinancialDataAction] *)

(** C7.  Without a credential in the environment (the variable unset, or
    set to the empty string, which the guard treats alike) the action
    answers every input with [success: false], the configuration-error
    message and the three coverage flags false; the only thing it does is
    write one line to the console, so no request leaves for the provider. *)
Theorem C7_missing_credential_fails_fast
    (rt : Actions.Runtime) (formData : Actions.Input) (w : Actions.World) :
  credential rt = None ->
  exists r w',
    Actions.analyzeFinancialDataAction rt formData w = (Actions.normal r, w')
    /\ Actions.success r = false
    /\ Actions.data r = None
    /\ Actions.error r = Some configurationError
    /\ Actions.testCoverage r = Actions.coverage false false false
    /\ outboundCalls (Actions.trace w') = outboundCalls (Actions.trace w).
Proof.
  intros Hkey. rewrite (@path_missing_key rt formData w Hkey).
  do 2 eexists. split; [reflexivity|].
  cbn [Actions.failed Actions.success Actions.data Actions.error
       Actions.testCoverage Actions.trace].
  repeat split.
  rewrite outboundCalls_app. cbn. apply app_nil_r.
Qed.

Lemma C7_missing_credential_witness :
  credential (noKey (sampleRuntime (Actions.rejected Actions.NotAnError))) = None
  /\ exists r w',
    Actions.analyzeFinancialDataAction
      (noKey (sampleRuntime (Actions.rejected Actions.NotAnError)))
      (Actions.ofString (Js.lit "NVDA outlook")) world0 = (Actions.normal r, w')
    /\ Actions.success r = false
    /\ Actions.data r = None
    /\ Actions.error r = Some configurationError
    /\ Actions.testCoverage r = Actions.coverage false false false
    /\ outboundCalls (Actions.trace w') = outboundCalls (Actions.trace world0).
Proof.
  split; [reflexivity|].
  apply (@C7_missing_credential_fails_fast
           (noKey (sampleRuntime (Actions.rejected Actions.NotAnError)))
           (Actions.ofString (Js.lit "NVDA outlook")) world0).
  reflexivity.
Defined.

(** C1, as the specification states it, fails in both directions.  A prompt
    of five code units whose trimmed length is one passes validation and is
    sent to the provider (as ["a"]); a prompt of 2001 code units whose
    trimmed length is three is refused as too long. *)
Lemma C1_counterexample :
  (Js.length (Js.trim (Js.lit "  a  ")) = 1
   /\ option_map Actions.success
        (envelope (Actions.analyzeFinancialDataAction
                     (sampleRuntime (Actions.responded (inr (Js.lit "Hold."))))
                     (Actions.ofString (Js.lit "  a  ")) world0)) = Some true
   /\ outboundCalls
        (Actions.trace
           (snd (Actions.analyzeFinancialDataAction
                   (sampleRuntime (Actions.responded (inr (Js.lit "Hold."))))
                   (Actions.ofString (Js.lit "  a  ")) world0)))
      = [Actions.requestParts (Js.lit "a")])
  /\
  (Js.length (Js.trim (Js.lit "abc" ++ repeat 32%N 1998)) = 3
   /\ option_map Actions.error
        (envelope (Actions.analyzeFinancialDataAction
                     (sampleRuntime (Actions.responded (inr (Js.lit "Hold."))))
                     (Actions.ofString (Js.lit "abc" ++ repeat 32%N 1998)) world0))
      = Some (Some (invalidInput [tooLong]))).
Proof. vm_compute. repeat split. Qed.

(** C1, amended.  With the credential present, the length that decides is
    the length of the prompt as it was passed, before trimming: below 3 or
    above 2000 the action returns [success: false] with the message of the
    violated bound and sends nothing; from 3 to 2000 validation passes and
    exactly one request, carrying the trimmed prompt, goes to the
    provider. *)
Theorem C1_length_checked_before_trim
    (rt : Actions.Runtime) (formData : Actions.Input) (w : Actions.World)
    (apiKey : jsstring) :
  credential rt = Some apiKey ->
  exists r w',
    Actions.analyzeFinancialDataAction rt formData w = (Actions.normal r, w')
    /\ (Js.length (Actions.rawPrompt formData) < 3 ->
        Actions.success r = false
        /\ Actions.error r = Some (invalidInput [tooShort])
        /\ outboundCalls (Actions.trace w') = outboundCalls (Actions.trace w))
    /\ (2000 < Js.length (Actions.rawPrompt formData) ->
        Actions.success r = false
        /\ Actions.error r = Some (invalidInput [tooLong])
        /\ outboundCalls (Actions.trace w') = outboundCalls (Actions.trace w))
    /\ (3 <= Js.length (Actions.rawPrompt formData) <= 2000 ->
        Actions.inputValidation (Actions.testCoverage r) = true
        /\ Actions.error r <> Some (invalidInput [tooShort])
        /\ Actions.error r <> Some (invalidInput [tooLong])
        /\ outboundCalls (Actions.trace w')
           = outboundCalls (Actions.trace w)
             ++ [Actions.requestParts (Js.trim (Actions.rawPrompt formData))]).
Proof.
  intros Hkey.
  pose proof (safeParse_FinancialQuerySchema (Actions.rawPrompt formData)) as Hval.
  destruct (Js.length (Actions.rawPrompt formData) <? 3) eqn:Hmin;
    [|destruct (2000 <? Js.length (Actions.rawPrompt formData)) eqn:Hmax].
  - rewrite (@path_invalid_input rt formData w apiKey _ Hkey Hval).
    apply Nat.ltb_lt in Hmin.
    do 2 eexists. split; [reflexivity|].
    cbn [Actions.failed Actions.success Actions.error Actions.trace].
    rewrite outboundCalls_app, app_nil_r.
    repeat split; intros; try reflexivity; lia.
  - rewrite (@path_invalid_input rt formData w apiKey _ Hkey Hval).
    apply Nat.ltb_lt in Hmax.
    do 2 eexists. split; [reflexivity|].
    cbn [Actions.failed Actions.success Actions.error Actions.trace].
    rewrite outboundCalls_app, app_nil_r.
    repeat split; intros; try reflexivity; lia.
  - apply Nat.ltb_ge in Hmin, Hmax.
    destruct (completionOf rt apiKey (Js.trim (Actions.rawPrompt formData)))
      as [e|responseText] eqn:Hcall.
    + rewrite (@path_call_failed rt formData w apiKey _ e Hkey Hval Hcall).
      do 2 eexists. split; [reflexivity|].
      cbn [Actions.failed Actions.error Actions.testCoverage Actions.coverage
           Actions.inputValidation Actions.trace].
      rewrite outboundCalls_app.
      repeat split; intros; try lia; try reflexivity; discriminate.
    + rewrite (@path_completed rt formData w apiKey _ _ Hkey Hval Hcall).
      do 2 eexists. split; [reflexivity|].
      cbn [Actions.error Actions.testCoverage Actions.coverage
           Actions.inputValidation Actions.trace].
      rewrite !outboundCalls_app, outboundCalls_chartWarning.
      repeat split; intros; try lia; try reflexivity; discriminate.
Qed.

Lemma C1_length_checked_before_trim_witness :
  credential (sampleRuntime (Actions.responded (inr (Js.lit "Hold."))))
    = Some (Js.lit "test-key")
  /\ Js.length (Actions.rawPrompt (Actions.ofString (Js.lit "ab"))) < 3
  /\ exists r w',
       Actions.analyzeFinancialDataAction
         (sampleRuntime (Actions.responded (inr (Js.lit "Hold."))))
         (Actions.ofString (Js.lit "ab")) world0 = (Actions.normal r, w')
       /\ Actions.success r = false
       /\ Actions.error r = Some (invalidInput [tooShort]).
Proof.
  split; [reflexivity|].
  split; [cbn; lia|].
  destruct (@C1_length_checked_before_trim
              (sampleRuntime (Actions.responded (inr (Js.lit "Hold."))))
              (Actions.ofString (Js.lit "ab")) world0 (Js.lit "test-key")
              eq_refl)
    as (r & w' & Hrun & Hshort & _).
  exists r, w'. split; [exact Hrun|].
  destruct Hshort as (Hs & He & _); [cbn; lia|].
  split; assumption.
Defined.

(** C2, as stated, fails on its first flag: after a failed validation the
    envelope carries [inputValidation: true]. *)
Lemma C2_counterexample :
  Zod.string_safeParse Actions.FinancialQuerySchema
    (Actions.rawPrompt (Actions.ofString (Js.lit "ab")))
    = Zod.failure [tooShort]
  /\ option_map Actions.testCoverage
       (envelope (Actions.analyzeFinancialDataAction
                    (sampleRuntime (Actions.responded (inr (Js.lit "Hold."))))
                    (Actions.ofString (Js.lit "ab")) world0))
     = Some (Actions.coverage true false false).
Proof. vm_compute. split; reflexivity. Qed.

(** C2, amended.  Whenever input validation fails, the action returns
    [success: false], no data, the error ["Invalid input: "] followed by the
    messages of the violated constraints joined with ["; "], and the
    coverage flags [inputValidation: true], [apiResponse: false],
    [dataParsing: false].  The violated constraint is the lower bound or the
    upper bound on the length, never both. *)
Theorem C2_validation_failure_envelope
    (rt : Actions.Runtime) (formData : Actions.Input) (w : Actions.World)
    (apiKey : jsstring) (errors : list jsstring) :
  credential rt = Some apiKey ->
  Zod.string_safeParse Actions.FinancialQuerySchema (Actions.rawPrompt formData)
    = Zod.failure errors ->
  exists r w',
    Actions.analyzeFinancialDataAction rt formData w = (Actions.normal r, w')
    /\ Actions.success r = false
    /\ Actions.data r = None
    /\ Actions.error r = Some (Js.lit "Invalid input: " ++ Js.join (Js.lit "; ") errors)
    /\ Actions.testCoverage r = Actions.coverage true false false
    /\ (errors = [tooShort] \/ errors = [tooLong])
    /\ outboundCalls (Actions.trace w') = outboundCalls (Actions.trace w).
Proof.
  intros Hkey Hval.
  rewrite (@path_invalid_input rt formData w apiKey errors Hkey Hval).
  do 2 eexists. split; [reflexivity|].
  cbn [Actions.failed Actions.success Actions.data Actions.error
       Actions.testCoverage Actions.trace].
  rewrite outboundCalls_app, app_nil_r.
  repeat split.
  destruct (safeParse_failure_inv _ Hval) as [[_ ->]|[_ ->]]; auto.
Qed.

Lemma C2_validation_failure_envelope_witness :
  exists r w',
    Actions.analyzeFinancialDataAction
      (sampleRuntime (Actions.responded (inr (Js.lit "Hold."))))
      (Actions.ofString (Js.lit "ab")) world0 = (Actions.normal r, w')
    /\ Actions.success r = false
    /\ Actions.data r = None
    /\ Actions.error r
       = Some (Js.lit "Invalid input: " ++ Js.join (Js.lit "; ") [tooShort])
    /\ Actions.testCoverage r = Actions.coverage true false false
    /\ ([tooShort] = [tooShort] \/ [tooShort] = [tooLong])
    /\ outboundCalls (Actions.trace w') = outboundCalls (Actions.trace world0).
Proof.
  apply (@C2_validation_failure_envelope
           (sampleRuntime (Actions.responded (inr (Js.lit "Hold."))))
           (Actions.ofString (Js.lit "ab")) world0 (Js.lit "test-key")
           [tooShort]);
    reflexivity.
Defined.

(** ** White space and the empty-response guard *)

Lemma trimStart_nil_iff (s : jsstring) :
  Js.trimStart s = [] <-> forallb Js.isWhiteSpace s = true.
Proof.
  induction s as [|c s IH]; cbn [Js.trimStart forallb].
  - tauto.
  - destruct (Js.isWhiteSpace c); cbn [andb]; [exact IH|].
    split; discriminate.
Qed.

Lemma trimStart_all_space (s : jsstring) :
  forallb Js.isWhiteSpace (Js.trimStart s) = true -> Js.trimStart s = [].
Proof.
  induction s as [|c s IH]; cbn [Js.trimStart]; [reflexivity|].
  destruct (Js.isWhiteSpace c) eqn:Hc; [exact IH|].
  cbn [forallb]. rewrite Hc. discriminate.
Qed.

Lemma forallb_rev {A} (p : A -> bool) (l : list A) :
  forallb p (rev l) = forallb p l.
Proof.
  induction l as [|x l IH]; [reflexivity|].
  cbn [rev forallb]. rewrite forallb_app, IH. cbn [forallb].
  rewrite andb_true_r. apply andb_comm.
Qed.

Lemma trim_nil_iff (s : jsstring) :
  Js.trim s = [] <-> forallb Js.isWhiteSpace s = true.
Proof.
  unfold Js.trim, Js.trimEnd. split.
  - intros H. apply (f_equal (@rev N)) in H. rewrite rev_involutive in H.
    cbn [rev] in H. apply trimStart_nil_iff in H.
    rewrite forallb_rev in H. apply trimStart_all_space in H.
    apply trimStart_nil_iff, H.
  - intros H. apply trimStart_nil_iff in H. rewrite H. reflexivity.
Qed.

(** The guard [!responseText || responseText.trim().length === 0] holds
    exactly for the empty text and the texts made of white space only. *)
Lemma blank_spec (responseText : jsstring) :
  blank responseText = forallb Js.isWhiteSpace responseText.
Proof.
  unfold blank.
  destruct (forallb Js.isWhiteSpace responseText) eqn:Hws.
  - apply trim_nil_iff in Hws. rewrite Hws. apply orb_true_r.
  - destruct responseText as [|c s]; [discriminate|]. cbn [Js.truthy negb orb].
    destruct (Js.trim (c :: s)) as [|x t] eqn:Htrim; [|reflexivity].
    apply trim_nil_iff in Htrim. congruence.
Qed.

Lemma completionOf_failure (rt : Actions.Runtime) (apiKey prompt : jsstring)
                           (e : Actions.Thrown) :
  upstreamFailure rt apiKey prompt e -> completionOf rt apiKey prompt = inl e.
Proof.
  unfold upstreamFailure, completionOf.
  intros [-> | [-> | (t & -> & Hws & ->)]]; try reflexivity.
  rewrite blank_spec, Hws. reflexivity.
Qed.

Lemma completionOf_text (rt : Actions.Runtime) (apiKey prompt text : jsstring) :
  Actions.generateContent rt apiKey (Actions.requestParts prompt)
    = Actions.responded (inr text) ->
  forallb Js.isWhiteSpace text = false ->
  completionOf rt apiKey prompt = inr text.
Proof.
  unfold completionOf. intros -> Hws. rewrite blank_spec, Hws. reflexivity.
Qed.

Lemma chartValid_unusable (rt : Actions.Runtime) (text : jsstring) :
  payloadUnusable rt text -> chartValid rt text = false.
Proof.
  unfold payloadUnusable, chartValid, Actions.parseChart.
  intros [-> | [-> | (capture & -> & [(m & ->) | (v & -> & ->)])]];
    try reflexivity; apply andb_false_r.
Qed.

(** C5.  For an input that passed validation, every failure of the provider
    call (a rejected request, a response whose text cannot be read, an empty
    or white-space-only text) ends in the same envelope: [success: false],
    the fixed service-unavailable message, and the flags
    [inputValidation: true], [apiResponse: false], [dataParsing: false].
    The cause appears in the console line written by the handler and nowhere
    in the envelope. *)
Theorem C5_upstream_failure_is_generic
    (rt : Actions.Runtime) (formData : Actions.Input) (w : Actions.World)
    (apiKey prompt : jsstring) (e : Actions.Thrown) :
  credential rt = Some apiKey ->
  Zod.string_safeParse Actions.FinancialQuerySchema (Actions.rawPrompt formData)
    = Zod.success prompt ->
  upstreamFailure rt apiKey prompt e ->
  exists r w' duration,
    Actions.analyzeFinancialDataAction rt formData w = (Actions.normal r, w')
    /\ r = Actions.failed serviceUnavailable (Actions.coverage true false false)
                          (stampOf rt w) (idOf rt w)
    /\ Actions.success r = false
    /\ Actions.error r = Some serviceUnavailable
    /\ Actions.testCoverage r = Actions.coverage true false false
    /\ In (Actions.console_error
             (Actions.tag (idOf rt w) ++ Js.lit "Fatal error:")
             (Some (causeText e, duration)))
          (Actions.trace w').
Proof.
  intros Hkey Hval Hfail.
  apply completionOf_failure in Hfail.
  rewrite (@path_call_failed rt formData w apiKey prompt e Hkey Hval Hfail).
  do 3 eexists. split; [reflexivity|].
  cbn [Actions.failed Actions.success Actions.error Actions.testCoverage
       Actions.trace].
  repeat split.
  apply in_or_app. right. right. left. reflexivity.
Qed.

Lemma C5_upstream_failure_is_generic_witness :
  exists r w' duration,
    Actions.analyzeFinancialDataAction
      (sampleRuntime (Actions.responded (inr (Js.lit "  "))))
      (Actions.ofString (Js.lit "NVDA outlook")) world0 = (Actions.normal r, w')
    /\ r = Actions.failed serviceUnavailable (Actions.coverage true false false)
             (stampOf (sampleRuntime (Actions.responded (inr (Js.lit "  ")))) world0)
             (idOf (sampleRuntime (Actions.responded (inr (Js.lit "  ")))) world0)
    /\ Actions.success r = false
    /\ Actions.error r = Some serviceUnavailable
    /\ Actions.testCoverage r = Actions.coverage true false false
    /\ In (Actions.console_error
             (Actions.tag
                (idOf (sampleRuntime (Actions.responded (inr (Js.lit "  ")))) world0)
              ++ Js.lit "Fatal error:")
             (Some (causeText
                      (Actions.Error (Js.lit "Empty response received from AI service")),
                    duration)))
          (Actions.trace w').
Proof.
  apply (@C5_upstream_failure_is_generic
           (sampleRuntime (Actions.responded (inr (Js.lit "  "))))
           (Actions.ofString (Js.lit "NVDA outlook")) world0
           (Js.lit "test-key") (Js.lit "NVDA outlook")
           (Actions.Error (Js.lit "Empty response received from AI service"))).
  - reflexivity.
  - reflexivity.
  - right. right. exists (Js.lit "  "). repeat split.
Defined.

(** C6.  When the provider answers with a text that is neither empty nor
    all white space, and the embedded payload is absent, refused by
    [JSON.parse] or refused by [ChartSchema], the action still returns
    [success: true] with [dataParsing: false] (the other two flags true), and
    [data] is the response text as received, delimited block included. *)
Theorem C6_payload_failure_is_not_fatal
    (rt : Actions.Runtime) (formData : Actions.Input) (w : Actions.World)
    (apiKey prompt responseText : jsstring) :
  credential rt = Some apiKey ->
  Zod.string_safeParse Actions.FinancialQuerySchema (Actions.rawPrompt formData)
    = Zod.success prompt ->
  Actions.generateContent rt apiKey (Actions.requestParts prompt)
    = Actions.responded (inr responseText) ->
  forallb Js.isWhiteSpace responseText = false ->
  payloadUnusable rt responseText ->
  exists r w',
    Actions.analyzeFinancialDataAction rt formData w = (Actions.normal r, w')
    /\ Actions.success r = true
    /\ Actions.data r = Some responseText
    /\ Actions.error r = None
    /\ Actions.testCoverage r = Actions.coverage true true false.
Proof.
  intros Hkey Hval Hgen Hws Hbad.
  pose proof (completionOf_text _ _ _ Hgen Hws) as Hcall.
  rewrite (@path_completed rt formData w apiKey prompt responseText Hkey Hval Hcall).
  rewrite (chartValid_unusable Hbad).
  do 2 eexists. split; [reflexivity|].
  repeat split.
Qed.

Lemma C6_payload_failure_is_not_fatal_witness :
  exists r w',
    Actions.analyzeFinancialDataAction
      (sampleRuntime
         (Actions.responded (inr (Js.lit "Flat quarter. <data>{not json}</data>"))))
      (Actions.ofString (Js.lit "NVDA outlook")) world0 = (Actions.normal r, w')
    /\ Actions.success r = true
    /\ Actions.data r = Some (Js.lit "Flat quarter. <data>{not json}</data>")
    /\ Actions.error r = None
    /\ Actions.testCoverage r = Actions.coverage true true false.
Proof.
  apply (@C6_payload_failure_is_not_fatal
           (sampleRuntime
              (Actions.responded (inr (Js.lit "Flat quarter. <data>{not json}</data>"))))
           (Actions.ofString (Js.lit "NVDA outlook")) world0
           (Js.lit "test-key") (Js.lit "NVDA outlook")
           (Js.lit "Flat quarter. <data>{not json}</data>")).
  - reflexivity.
  - reflexivity.
  - reflexivity.
  - reflexivity.
  - right. right. exists (Js.lit "{not json}"). split; [reflexivity|].
    left. eexists. reflexivity.
Defined.

(** C9.  Every call returns an envelope, and on each of the four paths
    (missing credential, failed validation, failed provider call, success)
    the flags are ordered: [dataParsing] implies [apiResponse], [apiResponse]
    implies [inputValidation], and [apiResponse] equals [success]. *)
Theorem C9_coverage_flags_are_ordered
    (rt : Actions.Runtime) (formData : Actions.Input) (w : Actions.World) :
  exists r w',
    Actions.analyzeFinancialDataAction rt formData w = (Actions.normal r, w')
    /\ implb (Actions.dataParsing (Actions.testCoverage r))
             (Actions.apiResponse (Actions.testCoverage r)) = true
    /\ implb (Actions.apiResponse (Actions.testCoverage r))
             (Actions.inputValidation (Actions.testCoverage r)) = true
    /\ Actions.apiResponse (Actions.testCoverage r) = Actions.success r.
Proof.
  destruct (credential rt) as [apiKey|] eqn:Hkey.
  - destruct (Zod.string_safeParse Actions.FinancialQuerySchema
                (Actions.rawPrompt formData)) as [prompt|errors] eqn:Hval.
    + destruct (completionOf rt apiKey prompt) as [e|responseText] eqn:Hcall.
      * rewrite (@path_call_failed rt formData w apiKey prompt e Hkey Hval Hcall).
        do 2 eexists. split; [reflexivity|]. repeat split.
      * rewrite (@path_completed rt formData w apiKey prompt responseText
                   Hkey Hval Hcall).
        do 2 eexists. split; [reflexivity|].
        cbn [Actions.testCoverage Actions.coverage Actions.dataParsing
             Actions.apiResponse Actions.inputValidation Actions.success].
        repeat split. apply orb_true_r.
    + rewrite (@path_invalid_input rt formData w apiKey errors Hkey Hval).
      do 2 eexists. split; [reflexivity|]. repeat split.
  - rewrite (@path_missing_key rt formData w Hkey).
    do 2 eexists. split; [reflexivity|]. repeat split.
Qed.

(** ** The history store *)

Lemma firstn_app_cons_firstn {A} (m k : nat) (l : list A) (x : A) (s : list A) :
  m <= k ->
  firstn (S m) (l ++ x :: firstn k s) = firstn (S m) (l ++ x :: s).
Proof.
  revert m. induction l as [|a l IH]; intros m Hm.
  - cbn [app firstn]. f_equal.
    rewrite firstn_firstn. f_equal. lia.
  - cbn [app firstn]. f_equal.
    destruct m as [|m]; [reflexivity|]. apply IH. lia.
Qed.

Lemma prepend_length (x : Page.HistoryItem) (prev : list Page.HistoryItem) :
  List.length (Page.prepend x prev) <= Page.MAX_HISTORY_ITEMS.
Proof.
  unfold Page.prepend, Page.MAX_HISTORY_ITEMS. cbn [List.length].
  rewrite length_firstn. lia.
Qed.

(** The store after a run of appends: the appended items, newest first,
    in front of what was there, cut at the cap. *)
Lemma afterAppends_firstn (appended start : list Page.HistoryItem) :
  List.length start <= Page.MAX_HISTORY_ITEMS ->
  Page.afterAppends start appended
  = firstn Page.MAX_HISTORY_ITEMS (rev appended ++ start).
Proof.
  unfold Page.afterAppends.
  revert start. induction appended as [|x xs IH]; intros start Hlen.
  - cbn [fold_left rev app]. symmetry. apply firstn_all2. exact Hlen.
  - cbn [fold_left rev]. rewrite IH by apply prepend_length.
    unfold Page.prepend. rewrite <- app_assoc. cbn [app].
    unfold Page.MAX_HISTORY_ITEMS.
    replace (50 - 1) with 49 by reflexivity.
    apply (firstn_app_cons_firstn (m := 49) (k := 49)). lia.
Qed.

(** C4.  Starting from the empty store, after any sequence of appends the
    store holds the most recently appended items, newest first: it is the
    reversed sequence cut after 50, so it never holds more than 50, the
    items lost are the oldest ones, and after 60 appends it holds exactly
    the last 50 appended. *)
Theorem C4_history_is_capped_newest_first (appended : list Page.HistoryItem) :
  Page.afterAppends [] appended = firstn 50 (rev appended)
  /\ Page.afterAppends [] appended
     = rev (skipn (List.length appended - 50) appended)
  /\ List.length (Page.afterAppends [] appended) = Nat.min (List.length appended) 50
  /\ List.length (Page.afterAppends [] appended) <= 50
  /\ appended = firstn (List.length appended - 50) appended
                ++ rev (Page.afterAppends [] appended)
  /\ (List.length appended = 60 ->
      List.length (Page.afterAppends [] appended) = 50
      /\ Page.afterAppends [] appended = rev (skipn 10 appended)).
Proof.
  assert (H : Page.afterAppends [] appended = firstn 50 (rev appended)).
  { rewrite afterAppends_firstn by (cbn; lia). rewrite app_nil_r. reflexivity. }
  assert (H' : Page.afterAppends [] appended
               = rev (skipn (List.length appended - 50) appended)).
  { rewrite H. apply firstn_rev. }
  split; [exact H|]. split; [exact H'|].
  assert (Hlen : List.length (Page.afterAppends [] appended)
                 = Nat.min (List.length appended) 50).
  { rewrite H, length_firstn, length_rev. lia. }
  split; [exact Hlen|]. split; [lia|]. split.
  - rewrite H', rev_involutive. symmetry. apply firstn_skipn.
  - intros H60. split; [lia|]. rewrite H', H60. reflexivity.
Qed.

Lemma C4_history_sixty_appends_witness :
  List.length sixtyItems = 60
  /\ List.length (Page.afterAppends [] sixtyItems) = 50
  /\ Page.afterAppends [] sixtyItems = rev (skipn 10 sixtyItems).
Proof.
  split; [reflexivity|].
  apply (proj2 (proj2 (proj2 (proj2 (proj2
           (C4_history_is_capped_newest_first sixtyItems)))))).
  reflexivity.
Defined.

(** ** Searching the history *)

Lemma eqb_eq (a b : jsstring) : Js.eqb a b = true <-> a = b.
Proof.
  revert b. induction a as [|x a IH]; intros [|y b]; cbn [Js.eqb];
    try (split; [discriminate|discriminate]); [tauto|].
  rewrite andb_true_iff, N.eqb_eq, IH. split.
  - intros [-> ->]. reflexivity.
  - intros [= -> ->]. auto.
Qed.

Lemma startsWith_spec (s p : jsstring) :
  Js.startsWith s p = true <-> exists post, s = p ++ post.
Proof.
  revert s. induction p as [|x p IH]; intros s; cbn [Js.startsWith].
  - split; [intros _; exists s; reflexivity | reflexivity].
  - destruct s as [|y s].
    + split; [discriminate | intros [post H]; discriminate].
    + rewrite andb_true_iff, N.eqb_eq, IH. split.
      * intros [-> [post ->]]. exists post. reflexivity.
      * intros [post [= -> ->]]. split; [reflexivity | exists post; reflexivity].
Qed.

Lemma startsWith_app (p post : jsstring) : Js.startsWith (p ++ post) p = true.
Proof. apply startsWith_spec. exists post. reflexivity. Qed.

(** [includes] is containment as a contiguous run. *)
Lemma includes_spec (s needle : jsstring) :
  Js.includes s needle = true <-> exists pre post, s = pre ++ needle ++ post.
Proof.
  induction s as [|c s IH]; cbn [Js.includes].
  - rewrite orb_false_r, startsWith_spec. split.
    + intros [post H]. exists [], post. exact H.
    + intros [[|a pre] [post H]]; [exists post; exact H | discriminate].
  - rewrite orb_true_iff, startsWith_spec, IH. split.
    + intros [[post H] | (pre & post & H)].
      * exists [], post. exact H.
      * exists (c :: pre), post. rewrite H. reflexivity.
    + intros [[|a pre] [post H]].
      * left. exists post. exact H.
      * right. injection H as -> ->. exists pre, post. reflexivity.
Qed.

Lemma includes_empty (s : jsstring) : Js.includes s [] = true.
Proof. destruct s; reflexivity. Qed.

Lemma filter_subsequence {A} (p : A -> bool) (l : list A) :
  subsequence (filter p l) l.
Proof.
  induction l as [|x l IH]; cbn [filter]; [constructor|].
  destruct (p x); constructor; exact IH.
Qed.

(** C8.  For a [toLowerCase] that acts on Basic Latin as ECMAScript's does,
    and every history: the empty search returns the history itself; a search
    returns a subsequence of the history (its order kept), made of exactly
    the items whose lower-cased query contains the lower-cased search text;
    search texts, or queries, that differ only in case are not told apart;
    and an item whose query is ["Test NVDA"] is returned for ["nvda"].  The
    result is a value computed from the history, which is an argument and
    is not changed. *)
Theorem C8_search_filters_case_insensitively
    (toLowerCase : jsstring -> jsstring) (history : list Page.HistoryItem) :
  (forall s, basicLatin s = true -> toLowerCase s = lowerBasicLatin s) ->
  Page.filteredHistory toLowerCase history [] = history
  /\ (forall search,
        subsequence (Page.filteredHistory toLowerCase history search) history)
  /\ (forall search item,
        In item (Page.filteredHistory toLowerCase history search)
        <-> In item history
            /\ exists pre post,
                 toLowerCase (Page.query item) = pre ++ toLowerCase search ++ post)
  /\ (forall search search',
        toLowerCase search = toLowerCase search' ->
        Page.filteredHistory toLowerCase history search
        = Page.filteredHistory toLowerCase history search')
  /\ (forall search item item',
        toLowerCase (Page.query item) = toLowerCase (Page.query item') ->
        Page.matchesSearch toLowerCase search item
        = Page.matchesSearch toLowerCase search item')
  /\ (forall item,
        Page.query item = Js.lit "Test NVDA" ->
        In item history ->
        In item (Page.filteredHistory toLowerCase history (Js.lit "nvda"))).
Proof.
  intros Hlower. unfold Page.filteredHistory. repeat split.
  - induction history as [|x l IH]; cbn [filter]; [reflexivity|].
    unfold Page.matchesSearch at 1.
    rewrite (Hlower []) by reflexivity. cbn [lowerBasicLatin map].
    rewrite includes_empty. f_equal. exact IH.
  - intros search. apply filter_subsequence.
  - apply filter_In in H. tauto.
  - apply filter_In in H. destruct H as [_ H].
    apply includes_spec. exact H.
  - intros [Hin Hsub]. apply filter_In. split; [exact Hin|].
    apply includes_spec. exact Hsub.
  - intros search search' Heq. apply filter_ext. intros item.
    unfold Page.matchesSearch. rewrite Heq. reflexivity.
  - intros search item item' Heq. unfold Page.matchesSearch.
    rewrite Heq. reflexivity.
  - intros item Hq Hin. apply filter_In. split; [exact Hin|].
    unfold Page.matchesSearch. rewrite Hq.
    rewrite !Hlower by reflexivity. reflexivity.
Qed.

Lemma C8_search_witness :
  (forall s, basicLatin s = true -> lowerBasicLatin s = lowerBasicLatin s)
  /\ Page.filteredHistory lowerBasicLatin sampleHistory [] = sampleHistory
  /\ In (sampleItem 1 (Js.lit "Test NVDA"))
        (Page.filteredHistory lowerBasicLatin sampleHistory (Js.lit "nvda")).
Proof.
  split; [reflexivity|].
  destruct (@C8_search_filters_case_insensitively lowerBasicLatin sampleHistory
              (fun s _ => eq_refl))
    as (Hall & _ & _ & _ & _ & Hnvda).
  split; [exact Hall|].
  apply Hnvda; [reflexivity | right; left; reflexivity].
Defined.

(** ** Chart payloads: the schema of the action and the filter of the page *)

Lemma parseType_isChartType (t : Json.value) :
  isSome (Actions.parseType (Some t)) = Page.isChartType t.
Proof.
  destruct t; try reflexivity.
  cbn [Actions.parseType Page.isChartType].
  destruct (Js.eqb s (Js.lit "trend")); [reflexivity|].
  destruct (Js.eqb s (Js.lit "sector")); [reflexivity|].
  destruct (Js.eqb s (Js.lit "heatmap")); reflexivity.
Qed.

Lemma parseItem_isChartDataItem (v : Json.value) :
  isSome (Actions.parseItem v) = Page.isChartDataItem v.
Proof.
  destruct v as [| | | | |props]; try reflexivity.
  cbn [Actions.parseItem Page.isChartDataItem].
  destruct (Json.get props (Js.lit "name")) as [[| | | | |]|]; try reflexivity;
    destruct (Json.get props (Js.lit "value")) as [[| |[| |]| | |]|];
    reflexivity.
Qed.

Lemma parseItems_forallb (vs : list Json.value) :
  isSome (Actions.parseItems vs) = forallb Page.isChartDataItem vs.
Proof.
  induction vs as [|v vs IH]; [reflexivity|].
  cbn [Actions.parseItems forallb].
  rewrite <- parseItem_isChartDataItem, <- IH.
  destruct (Actions.parseItem v); [|reflexivity].
  destruct (Actions.parseItems vs); reflexivity.
Qed.

Lemma parseItems_length (vs : list Json.value) (parsed : list Actions.ChartItem) :
  Actions.parseItems vs = Some parsed -> List.length parsed = List.length vs.
Proof.
  revert parsed. induction vs as [|v vs IH]; intros parsed; cbn [Actions.parseItems].
  - intros [= <-]. reflexivity.
  - destruct (Actions.parseItem v); [|discriminate].
    destruct (Actions.parseItems vs) as [rest|]; [|discriminate].
    intros [= <-]. cbn [List.length]. f_equal. apply IH. reflexivity.
Qed.

(** [ChartSchema] accepts exactly the payloads of the declared shape. *)
Lemma ChartSchema_parse_strict (data : Json.value) :
  isSome (Actions.ChartSchema_parse data) = strictPayload data.
Proof.
  destruct data as [| | | | |props]; try reflexivity.
  cbn [Actions.ChartSchema_parse strictPayload].
  destruct (Json.get props (Js.lit "type")) as [t|]; [|reflexivity].
  rewrite <- parseType_isChartType.
  destruct (Actions.parseType (Some t)) as [ty|];
    [|cbn [isSome andb];
      destruct (Json.get props (Js.lit "items")) as [[| | | |[|e es]|]|];
      reflexivity].
  destruct (Json.get props (Js.lit "items")) as [[| | | |elements|]|];
    try reflexivity.
  pose proof (parseItems_forallb elements) as Hall.
  pose proof (@parseItems_length elements) as Hlen.
  destruct (Actions.parseItems elements) as [[|i others]|].
  - specialize (Hlen [] eq_refl). destruct elements; [reflexivity|discriminate].
  - specialize (Hlen _ eq_refl). destruct elements as [|e es]; [discriminate|].
    cbn [isSome andb] in *. exact Hall.
  - destruct elements as [|e es]; [reflexivity|].
    cbn [isSome andb] in *. exact Hall.
Qed.

Lemma isChartDataItem_validItem (item : Json.value) :
  Page.isChartDataItem item = true -> Page.validItem item = true.
Proof.
  destruct item as [| | | | |props]; try discriminate.
  cbn [Page.isChartDataItem Page.validItem]. unfold Json.has.
  destruct (Json.get props (Js.lit "name")) as [[| | | | |]|]; try discriminate.
  destruct (Json.get props (Js.lit "value")) as [[| |[| |]| | |]|];
    try discriminate.
  reflexivity.
Qed.

Lemma isChartType_truthy (t : Json.value) :
  Page.isChartType t = true -> Json.truthy t = true.
Proof.
  destruct t as [| | |s| |]; try discriminate.
  destruct s; [discriminate | reflexivity].
Qed.

Lemma filter_all {A} (p : A -> bool) (l : list A) :
  forallb p l = true -> filter p l = l.
Proof.
  induction l as [|x l IH]; [reflexivity|].
  cbn [forallb filter]. intros H. apply andb_true_iff in H. destruct H as [Hx Hl].
  rewrite Hx, IH by exact Hl. reflexivity.
Qed.

Lemma forallb_filter {A} (p : A -> bool) (l : list A) :
  forallb p (filter p l) = true.
Proof.
  apply forallb_forall. intros x H. apply filter_In in H. tauto.
Qed.

(** What the page does with a parsed object that has an array under [items]
    and a truthy [type]. *)
Lemma chartOfParsed_array (props : list (jsstring * Json.value))
                          (t : Json.value) (elements : list Json.value) :
  Json.get props (Js.lit "type") = Some t ->
  Json.truthy t = true ->
  Json.get props (Js.lit "items") = Some (Json.array elements) ->
  Page.chartOfParsed (Json.object props)
  = match filter Page.validItem elements with
    | [] => None
    | kept => Some {| Page.type := t; Page.items := kept |}
    end.
Proof.
  intros Ht Htruthy Hitems. unfold Page.chartOfParsed.
  rewrite Hitems, Ht. cbn [Page.truthyOpt Page.lengthOf]. rewrite Htruthy.
  destruct elements as [|e es]; [reflexivity|].
  reflexivity.
Qed.

Lemma chartOfParsed_inv (data : Json.value) (c : Page.ChartData) :
  Page.chartOfParsed data = Some c ->
  exists props elements,
    data = Json.object props
    /\ Json.get props (Js.lit "type") = Some (Page.type c)
    /\ Json.truthy (Page.type c) = true
    /\ Json.get props (Js.lit "items") = Some (Json.array elements)
    /\ Page.items c = filter Page.validItem elements
    /\ Page.items c <> [].
Proof.
  destruct data as [| | | | |props]; try discriminate.
  unfold Page.chartOfParsed.
  destruct (Json.get props (Js.lit "items")) as [dataItems|] eqn:Hitems;
    [|discriminate].
  destruct (negb (Page.truthyOpt (Page.lengthOf dataItems))
            || negb (Page.truthyOpt (Json.get props (Js.lit "type")))) eqn:Hguard;
    [discriminate|].
  apply orb_false_iff in Hguard. destruct Hguard as [_ Htype].
  apply negb_false_iff in Htype.
  destruct dataItems as [| | | |elements|]; try discriminate.
  destruct (Json.get props (Js.lit "type")) as [t|] eqn:Ht; [|discriminate].
  destruct (filter Page.validItem elements) as [|k kept] eqn:Hkept;
    [discriminate|].
  intros [= <-]. exists props, elements. cbn [Page.type Page.items].
  repeat split; try assumption; try reflexivity.
  - symmetry. exact Hkept.
  - discriminate.
Qed.

(** C3, as stated, describes neither routine.  On a payload with one good
    and one bad item the schema of the Query Service rejects the payload as a
    whole, while the page keeps the good item; and the page returns a payload
    whose [type] is none of the three literals. *)
Lemma C3_counterexample :
  (Actions.ChartSchema_parse mixedPayload = None
   /\ Page.chartOfParsed mixedPayload
      = Some {| Page.type := Json.string (Js.lit "trend");
                Page.items := [goodItem] |})
  /\ (Page.chartOfParsed piePayload
      = Some {| Page.type := Json.string (Js.lit "pie");
                Page.items := [goodItem] |}
      /\ Page.isChartData {| Page.type := Json.string (Js.lit "pie");
                              Page.items := [goodItem] |} = false).
Proof. vm_compute. repeat split. Qed.

(** C3, amended.  The two routines differ.  The Query Service accepts a
    parsed payload exactly when it is an object whose [type] is one of
    [trend], [sector], [heatmap] and whose [items] are a non-empty array in
    which every element has a string [name] and a finite number [value]; a
    single other element rejects the payload as a whole.  The page returns a
    payload only for an object with a truthy [type] and an array under
    [items]; what it returns holds, in their order, exactly the elements that
    are objects with a [name], and a [value] that is a finite number, the
    others are dropped, and if none is left the payload is absent.  A payload
    that the Query Service accepts is returned whole by the page. *)
Theorem C3_chart_payload_acceptance :
  (forall data,
      isSome (Actions.ChartSchema_parse data) = strictPayload data)
  /\ (forall data c,
        Page.chartOfParsed data = Some c ->
        exists props elements,
          data = Json.object props
          /\ Json.get props (Js.lit "type") = Some (Page.type c)
          /\ Json.truthy (Page.type c) = true
          /\ Json.get props (Js.lit "items") = Some (Json.array elements)
          /\ Page.items c = filter Page.validItem elements
          /\ Page.items c <> []
          /\ forallb Page.validItem (Page.items c) = true)
  /\ (forall props t elements,
        Json.get props (Js.lit "type") = Some t ->
        Page.isChartType t = true ->
        Json.get props (Js.lit "items") = Some (Json.array elements) ->
        Page.chartOfParsed (Json.object props)
        = match filter Page.validItem elements with
          | [] => None
          | kept => Some {| Page.type := t; Page.items := kept |}
          end)
  /\ (forall data,
        strictPayload data = true ->
        exists props t elements,
          data = Json.object props
          /\ Json.get props (Js.lit "type") = Some t
          /\ Json.get props (Js.lit "items") = Some (Json.array elements)
          /\ Page.chartOfParsed data
             = Some {| Page.type := t; Page.items := elements |}).
Proof.
  split; [exact ChartSchema_parse_strict|]. split; [|split].
  - intros data c H.
    destruct (chartOfParsed_inv _ H)
      as (props & elements & -> & Ht & Htr & Hitems & Hkept & Hne).
    exists props, elements. repeat split; try assumption.
    rewrite Hkept. apply forallb_filter.
  - intros props t elements Ht Hty Hitems.
    apply chartOfParsed_array; try assumption.
    apply isChartType_truthy, Hty.
  - intros data Hstrict.
    destruct data as [| | | | |props]; try discriminate.
    cbn [strictPayload] in Hstrict.
    destruct (Json.get props (Js.lit "type")) as [t|] eqn:Ht; [|discriminate].
    destruct (Json.get props (Js.lit "items")) as [[| | | |[|e es]|]|] eqn:Hitems;
      try discriminate.
    apply andb_true_iff in Hstrict. destruct Hstrict as [Hty Hall].
    exists props, t, (e :: es). repeat split; try assumption.
    rewrite (chartOfParsed_array _ Ht (isChartType_truthy _ Hty) Hitems).
    rewrite filter_all; [reflexivity|].
    apply forallb_forall. intros x Hx.
    apply isChartDataItem_validItem.
    apply (proj1 (forallb_forall _ _) Hall x Hx).
Qed.

(** ** The first delimited block *)

Lemma startsWith_straddle (s t p : jsstring) (c : N) :
  s <> [] ->
  Js.startsWith (s ++ c :: t) p = true ->
  Js.startsWith s p = true \/ In c (tl p).
Proof.
  revert p. induction s as [|a s IH]; intros p Hne H; [congruence|].
  destruct p as [|b p]; [left; reflexivity|].
  cbn [app Js.startsWith] in H |- *.
  apply andb_true_iff in H. destruct H as [Hab H]. rewrite Hab. cbn [andb tl].
  destruct s as [|a' s].
  - destruct p as [|b' p]; [left; reflexivity|].
    cbn [app Js.startsWith] in H. apply andb_true_iff in H.
    destruct H as [Hc _]. apply N.eqb_eq in Hc. right. left. exact Hc.
  - destruct (IH p ltac:(discriminate) H) as [Hs | Hin]; [left; exact Hs|].
    right. destruct p as [|b' p]; [contradiction|]. right. exact Hin.
Qed.

Lemma dataMatch_unfold (text : jsstring) :
  Payload.dataMatch text
  = match Payload.matchHere text with
    | Some capture => Some capture
    | None => match text with
              | [] => None
              | _ :: t => Payload.dataMatch t
              end
    end.
Proof. destruct text; reflexivity. Qed.

Lemma includes_cons_false (c : N) (s needle : jsstring) :
  Js.includes (c :: s) needle = false ->
  Js.startsWith (c :: s) needle = false /\ Js.includes s needle = false.
Proof. cbn [Js.includes]. apply orb_false_iff. Qed.

(** Text in front of the first opening tag is passed over. *)
Lemma dataMatch_skips_prefix (pre tail : jsstring) :
  Js.includes pre Payload.openTag = false ->
  Payload.dataMatch (pre ++ Payload.openTag ++ tail)
  = Payload.dataMatch (Payload.openTag ++ tail).
Proof.
  induction pre as [|a s IH]; intros Hpre; [reflexivity|].
  apply includes_cons_false in Hpre. destruct Hpre as [Hhere Hrest].
  rewrite dataMatch_unfold.
  replace (Payload.matchHere ((a :: s) ++ Payload.openTag ++ tail)) with (@None jsstring).
  - cbn [app]. apply IH, Hrest.
  - unfold Payload.matchHere.
    destruct (Js.startsWith ((a :: s) ++ Payload.openTag ++ tail) Payload.openTag)
      eqn:Hstart; [|reflexivity].
    change (Payload.openTag ++ tail) with (60%N :: Js.lit "data>" ++ tail) in Hstart.
    apply startsWith_straddle in Hstart; [|discriminate].
    destruct Hstart as [Hstart | Hin]; [congruence|].
    vm_compute in Hin. repeat (destruct Hin as [Hin | Hin]; [discriminate|]).
    contradiction.
Qed.

(** The lazy star stops at the first closing tag. *)
Lemma lazyUntil_first_close (body rest : jsstring) :
  Js.includes body Payload.closeTag = false ->
  Payload.lazyUntil Payload.closeTag (body ++ Payload.closeTag ++ rest) = Some body.
Proof.
  induction body as [|c b IH]; intros Hbody.
  - cbn [app]. destruct (Payload.closeTag ++ rest) eqn:Htext;
      cbn [Payload.lazyUntil]; rewrite <- Htext, startsWith_app; reflexivity.
  - apply includes_cons_false in Hbody. destruct Hbody as [Hhere Hrest].
    cbn [app Payload.lazyUntil].
    destruct (Js.startsWith (c :: b ++ Payload.closeTag ++ rest) Payload.closeTag)
      eqn:Hstart.
    + change (c :: b ++ Payload.closeTag ++ rest)
        with ((c :: b) ++ 60%N :: Js.lit "/data>" ++ rest) in Hstart.
      apply startsWith_straddle in Hstart; [|discriminate].
      destruct Hstart as [Hstart | Hin]; [congruence|].
      vm_compute in Hin. repeat (destruct Hin as [Hin | Hin]; [discriminate|]).
      contradiction.
    + rewrite IH by exact Hrest. reflexivity.
Qed.

Lemma dataMatch_first_block (pre body rest : jsstring) :
  Js.includes pre Payload.openTag = false ->
  Js.includes body Payload.closeTag = false ->
  Payload.dataMatch (pre ++ Payload.openTag ++ body ++ Payload.closeTag ++ rest)
  = Some body.
Proof.
  intros Hpre Hbody. rewrite dataMatch_skips_prefix by exact Hpre.
  rewrite dataMatch_unfold. unfold Payload.matchHere.
  rewrite startsWith_app.
  change (skipn (Js.length Payload.openTag)
            (Payload.openTag ++ body ++ Payload.closeTag ++ rest))
    with (body ++ Payload.closeTag ++ rest).
  rewrite lazyUntil_first_close by exact Hbody. reflexivity.
Qed.

Lemma startsWith_extend (s t p : jsstring) :
  Js.startsWith s p = true -> Js.startsWith (s ++ t) p = true.
Proof.
  intros H. apply startsWith_spec in H. destruct H as [post ->].
  rewrite <- app_assoc. apply startsWith_app.
Qed.

Lemma lazyUntil_finds (close front back : jsstring) :
  Payload.lazyUntil close (front ++ close ++ back) <> None.
Proof.
  induction front as [|c f IH].
  - cbn [app]. destruct (close ++ back) eqn:Htext;
      cbn [Payload.lazyUntil]; rewrite <- Htext, startsWith_app; discriminate.
  - cbn [app Payload.lazyUntil].
    destruct (Js.startsWith (c :: f ++ close ++ back) close); [discriminate|].
    destruct (Payload.lazyUntil close (f ++ close ++ back)); [discriminate|].
    contradiction.
Qed.

Lemma lazyUntil_inv (s capture : jsstring) :
  Payload.lazyUntil Payload.closeTag s = Some capture ->
  exists rest,
    s = capture ++ Payload.closeTag ++ rest
    /\ Js.includes capture Payload.closeTag = false.
Proof.
  revert capture. induction s as [|c s IH]; intros capture.
  - cbn. discriminate.
  - cbn [Payload.lazyUntil].
    destruct (Js.startsWith (c :: s) Payload.closeTag) eqn:Hstart.
    + intros [= <-]. apply startsWith_spec in Hstart. destruct Hstart as [rest H].
      exists rest. split; [exact H | reflexivity].
    + destruct (Payload.lazyUntil Payload.closeTag s) as [inner|]; [|discriminate].
      intros [= <-]. destruct (IH inner eq_refl) as (rest & -> & Hinner).
      exists rest. split; [reflexivity|].
      cbn [Js.includes]. rewrite Hinner, orb_false_r.
      destruct (Js.startsWith (c :: inner) Payload.closeTag) eqn:Hc; [|reflexivity].
      apply (startsWith_extend _ (Payload.closeTag ++ rest)) in Hc.
      cbn [app] in Hc. congruence.
Qed.

(** Whatever the match captures is the body of the first block: no opening
    tag stands before it and no closing tag inside it. *)
Lemma dataMatch_inv (text capture : jsstring) :
  Payload.dataMatch text = Some capture ->
  exists pre rest,
    text = pre ++ Payload.openTag ++ capture ++ Payload.closeTag ++ rest
    /\ Js.includes pre Payload.openTag = false
    /\ Js.includes capture Payload.closeTag = false.
Proof.
  revert capture. induction text as [|c t IH]; intros capture.
  - cbn. discriminate.
  - rewrite dataMatch_unfold. unfold Payload.matchHere.
    destruct (Js.startsWith (c :: t) Payload.openTag) eqn:Hstart.
    + apply startsWith_spec in Hstart. destruct Hstart as [tail Htail].
      assert (Hskip : skipn (Js.length Payload.openTag) (c :: t) = tail)
        by (rewrite Htail; reflexivity).
      rewrite Hskip.
      destruct (Payload.lazyUntil Payload.closeTag tail) as [found|] eqn:Hlazy.
      * intros [= <-]. destruct (lazyUntil_inv _ Hlazy) as (rest & -> & Hbody).
        exists [], rest. repeat split; [exact Htail | exact Hbody].
      * intros H. destruct (IH _ H) as (pre & rest & Heq & _ & _).
        exfalso.
        change (Payload.openTag ++ tail) with (60%N :: Js.lit "data>" ++ tail) in Htail.
        injection Htail as _ Htail. rewrite Heq in Htail.
        rewrite 2!app_assoc in Htail. symmetry in Htail.
        apply (app_eq_app [100; 97; 116; 97; 62]%N tail) in Htail.
        destruct Htail as [l [[Hlen _] | [_ ->]]].
        -- apply (f_equal (@List.length N)) in Hlen.
           rewrite !length_app in Hlen. cbn in Hlen. lia.
        -- exact (lazyUntil_finds _ _ _ Hlazy).
    + destruct (Payload.dataMatch t) as [found|] eqn:Hrest; [|discriminate].
      intros [= <-]. destruct (IH _ eq_refl) as (pre & rest & -> & Hpre & Hbody).
      exists (c :: pre), rest. repeat split; [|exact Hbody].
      cbn [Js.includes]. rewrite Hpre, orb_false_r.
      destruct (Js.startsWith (c :: pre) Payload.openTag) eqn:Hc; [|reflexivity].
      apply (startsWith_extend _
               (Payload.openTag ++ found ++ Payload.closeTag ++ rest)) in Hc.
      cbn [app] in Hc. cbn [app] in Hstart. congruence.
Qed.

(** C10.  In a text whose first opening tag is followed by [body] and then
    by the first closing tag, the match captures [body], whatever stands
    after that closing tag: further blocks in [rest] change neither what the
    Query Service decides (value and console line) nor what
    [validateChartData] returns. *)
Theorem C10_only_the_first_block_counts
    (rt : Actions.Runtime) (JSON_parse : jsstring -> jsstring + Json.value)
    (requestId : jsstring) (w : Actions.World)
    (pre body rest rest' : jsstring) :
  Js.includes pre Payload.openTag = false ->
  Js.includes body Payload.closeTag = false ->
  Payload.dataMatch (pre ++ Payload.openTag ++ body ++ Payload.closeTag ++ rest)
  = Some body
  /\ Actions.extractChart rt requestId
       (pre ++ Payload.openTag ++ body ++ Payload.closeTag ++ rest) w
     = Actions.extractChart rt requestId
         (pre ++ Payload.openTag ++ body ++ Payload.closeTag ++ rest') w
  /\ Page.validateChartData JSON_parse
       (pre ++ Payload.openTag ++ body ++ Payload.closeTag ++ rest)
     = Page.validateChartData JSON_parse
         (pre ++ Payload.openTag ++ body ++ Payload.closeTag ++ rest').
Proof.
  intros Hpre Hbody.
  pose proof (dataMatch_first_block pre body rest Hpre Hbody) as H.
  pose proof (dataMatch_first_block pre body rest' Hpre Hbody) as H'.
  split; [exact H|].
  unfold Actions.extractChart, Page.validateChartData.
  rewrite H, H'. split; reflexivity.
Qed.

Lemma C10_only_the_first_block_witness :
  Payload.dataMatch
    (Js.lit "Summary. " ++ Payload.openTag ++ sampleText ++ Payload.closeTag
     ++ Js.lit " <data>{not json}</data>")
  = Some sampleText
  /\ Actions.extractChart (sampleRuntime (Actions.rejected Actions.NotAnError))
       (Js.lit "req_1") 
       (Js.lit "Summary. " ++ Payload.openTag ++ sampleText ++ Payload.closeTag
        ++ Js.lit " <data>{not json}</data>") world0
     = Actions.extractChart (sampleRuntime (Actions.rejected Actions.NotAnError))
         (Js.lit "req_1") 
         (Js.lit "Summary. " ++ Payload.openTag ++ sampleText ++ Payload.closeTag
          ++ []) world0
  /\ Page.validateChartData sampleParse
       (Js.lit "Summary. " ++ Payload.openTag ++ sampleText ++ Payload.closeTag
        ++ Js.lit " <data>{not json}</data>")
     = Page.validateChartData sampleParse
         (Js.lit "Summary. " ++ Payload.openTag ++ sampleText ++ Payload.closeTag
          ++ []).
Proof.
  apply (@C10_only_the_first_block_counts
           (sampleRuntime (Actions.rejected Actions.NotAnError)) sampleParse
           (Js.lit "req_1") world0
           (Js.lit "Summary. ") sampleText (Js.lit " <data>{not json}</data>") []);
    reflexivity.
Defined.

(** ** The embedding on concrete inputs *)

Example schema_accepts_padded_short_prompt :
  Zod.string_safeParse Actions.FinancialQuerySchema (Js.lit "  a  ")
  = Zod.success (Js.lit "a").
Proof. reflexivity. Qed.

Example schema_refuses_two_code_units :
  Zod.string_safeParse Actions.FinancialQuerySchema (Js.lit "ab")
  = Zod.failure [tooShort].
Proof. reflexivity. Qed.

Example match_takes_the_first_block :
  Payload.dataMatch (Js.lit "a<data>x</data> b<data>y</data>") = Some (Js.lit "x").
Proof. reflexivity. Qed.

Example match_is_lazy :
  Payload.dataMatch (Js.lit "<data>x<data>y</data>z</data>")
  = Some (Js.lit "x<data>y").
Proof. reflexivity. Qed.

Example match_needs_a_closing_tag :
  Payload.dataMatch (Js.lit "</data> <data>x") = None.
Proof. reflexivity. Qed.

Example fences_are_removed :
  Payload.cleanJson (Js.lit " ```json  {1}  ```  ") = Js.lit "{1}".
Proof. reflexivity. Qed.

Example page_reads_a_fenced_block :
  Page.validateChartData sampleParse
    (Js.lit "Up. <data>```json " ++ sampleText ++ Js.lit " ```</data>")
  = Some {| Page.type := Json.string (Js.lit "trend"); Page.items := [goodItem] |}.
Proof. vm_compute. reflexivity. Qed.

Example page_drops_a_payload_without_valid_items :
  Page.chartOfParsed
    (Json.object [ (Js.lit "type", Json.string (Js.lit "trend"));
                   (Js.lit "items", Json.array [badItem; Json.null]) ])
  = None.
Proof. reflexivity. Qed.

Example page_refuses_an_infinite_value :
  Page.validItem
    (Json.object [ (Js.lit "name", Json.string (Js.lit "Q1"));
                   (Js.lit "value", Json.num (Json.infinite false)) ])
  = false.
Proof. reflexivity. Qed.

Example action_succeeds_with_a_chart :
  option_map Actions.testCoverage
    (envelope (Actions.analyzeFinancialDataAction
                 (sampleRuntime
                    (Actions.responded
                       (inr (Js.lit "Up. <data>" ++ sampleText ++ Js.lit "</data>"))))
                 (Actions.ofFormData
                    [(Js.lit "prompt", Actions.entryString (Js.lit "NVDA outlook"))])
                 world0))
  = Some (Actions.coverage true true true).
Proof. vm_compute. reflexivity. Qed.

Example search_ignores_case :
  Page.filteredHistory lowerBasicLatin sampleHistory (Js.lit "NvDa")
  = [sampleItem 1 (Js.lit "Test NVDA")].
Proof. vm_compute. reflexivity. Qed.

(* ================================================================== *)
(** * Further properties of [analyzeFinancialDataAction] *)

(** ** Trimming *)

Lemma trimStart_app_solid (l m : jsstring) (c : N) :
  Js.isWhiteSpace c = false ->
  Js.trimStart (l ++ c :: m) = Js.trimStart l ++ c :: m.
Proof.
  intros Hc. induction l as [|a l IH]; cbn [app Js.trimStart].
  - rewrite Hc. reflexivity.
  - destruct (Js.isWhiteSpace a); [exact IH | reflexivity].
Qed.

Lemma trimStart_solid (c : N) (s : jsstring) :
  Js.isWhiteSpace c = false -> Js.trimStart (c :: s) = c :: s.
Proof. intros Hc. cbn [Js.trimStart]. rewrite Hc. reflexivity. Qed.

Lemma trimStart_cases (s : jsstring) :
  Js.trimStart s = []
  \/ exists c t, Js.trimStart s = c :: t /\ Js.isWhiteSpace c = false.
Proof.
  induction s as [|a s IH]; cbn [Js.trimStart]; [left; reflexivity|].
  destruct (Js.isWhiteSpace a) eqn:Ha; [exact IH|].
  right. exists a, s. split; [reflexivity | exact Ha].
Qed.

Lemma trimStart_idempotent (s : jsstring) :
  Js.trimStart (Js.trimStart s) = Js.trimStart s.
Proof.
  destruct (trimStart_cases s) as [-> | (c & t & -> & Hc)]; [reflexivity|].
  apply trimStart_solid, Hc.
Qed.

Lemma trimEnd_solid_head (c : N) (s : jsstring) :
  Js.isWhiteSpace c = false -> Js.trimEnd (c :: s) = c :: Js.trimEnd s.
Proof.
  intros Hc. unfold Js.trimEnd. cbn [rev].
  rewrite trimStart_app_solid by exact Hc.
  rewrite rev_app_distr. reflexivity.
Qed.

Lemma trimEnd_idempotent (s : jsstring) :
  Js.trimEnd (Js.trimEnd s) = Js.trimEnd s.
Proof.
  unfold Js.trimEnd. rewrite rev_involutive, trimStart_idempotent. reflexivity.
Qed.

Lemma trimStart_length (s : jsstring) :
  List.length (Js.trimStart s) <= List.length s.
Proof.
  induction s as [|a s IH]; cbn [Js.trimStart List.length]; [lia|].
  destruct (Js.isWhiteSpace a); cbn [List.length]; lia.
Qed.

Lemma trim_length (s : jsstring) : Js.length (Js.trim s) <= Js.length s.
Proof.
  unfold Js.length, Js.trim, Js.trimEnd.
  rewrite length_rev.
  etransitivity; [apply trimStart_length|].
  rewrite length_rev. apply trimStart_length.
Qed.

Lemma trim_idempotent (s : jsstring) : Js.trim (Js.trim s) = Js.trim s.
Proof.
  unfold Js.trim.
  destruct (trimStart_cases s) as [-> | (c & t & -> & Hc)]; [reflexivity|].
  rewrite trimEnd_solid_head by exact Hc.
  rewrite trimStart_solid by exact Hc.
  rewrite trimEnd_solid_head by exact Hc.
  rewrite trimEnd_idempotent. reflexivity.
Qed.

(** ** Case analysis over the exits *)

Ltac action_paths rt formData w :=
  let Hkey := fresh "Hkey" in
  let Hval := fresh "Hval" in
  let Hcall := fresh "Hcall" in
  let apiKey := fresh "apiKey" in
  let prompt := fresh "prompt" in
  let errors := fresh "errors" in
  let e := fresh "e" in
  let responseText := fresh "responseText" in
  destruct (credential rt) as [apiKey|] eqn:Hkey;
  [ destruct (Zod.string_safeParse Actions.FinancialQuerySchema
                (Actions.rawPrompt formData)) as [prompt|errors] eqn:Hval;
    [ destruct (completionOf rt apiKey prompt) as [e|responseText] eqn:Hcall;
      [ rewrite (@path_call_failed rt formData w apiKey prompt e Hkey Hval Hcall)
      | rewrite (@path_completed rt formData w apiKey prompt responseText
                   Hkey Hval Hcall) ]
    | rewrite (@path_invalid_input rt formData w apiKey errors Hkey Hval) ]
  | rewrite (@path_missing_key rt formData w Hkey) ].

Lemma lengthAccepted_success (raw prompt : jsstring) :
  Zod.string_safeParse Actions.FinancialQuerySchema raw = Zod.success prompt ->
  lengthAccepted raw = true.
Proof.
  intros H. apply safeParse_success_inv in H. destruct H as [[Hlo Hhi] _].
  unfold lengthAccepted. apply andb_true_iff.
  split; apply Nat.leb_le; assumption.
Qed.

Lemma lengthAccepted_failure (raw : jsstring) (errors : list jsstring) :
  Zod.string_safeParse Actions.FinancialQuerySchema raw = Zod.failure errors ->
  lengthAccepted raw = false.
Proof.
  intros H. unfold lengthAccepted. apply andb_false_iff.
  destruct (safeParse_failure_inv _ H) as [[Hlen _]|[Hlen _]];
    [left | right]; apply Nat.leb_gt; exact Hlen.
Qed.

Lemma completionOf_inr_inv (rt : Actions.Runtime) (apiKey prompt text : jsstring) :
  completionOf rt apiKey prompt = inr text ->
  Actions.generateContent rt apiKey (Actions.requestParts prompt)
    = Actions.responded (inr text)
  /\ forallb Js.isWhiteSpace text = false.
Proof.
  unfold completionOf.
  destruct (Actions.generateContent rt apiKey (Actions.requestParts prompt))
    as [x|[x|t]]; try discriminate.
  destruct (blank t) eqn:Hblank; [discriminate|].
  intros [= <-]. rewrite <- blank_spec. split; [reflexivity | exact Hblank].
Qed.

Lemma outbound_after_action
    (rt : Actions.Runtime) (formData : Actions.Input) (w : Actions.World) :
  outboundCalls
    (Actions.trace (snd (Actions.analyzeFinancialDataAction rt formData w)))
  = outboundCalls (Actions.trace w)
    ++ (if isSome (credential rt) && lengthAccepted (Actions.rawPrompt formData)
        then [Actions.requestParts (Js.trim (Actions.rawPrompt formData))]
        else []).
Proof.
  action_paths rt formData w; cbn [snd Actions.trace isSome andb];
    rewrite ?outboundCalls_app, ?outboundCalls_chartWarning;
    try rewrite (lengthAccepted_success _ Hval);
    try rewrite (lengthAccepted_failure _ Hval);
    try (apply safeParse_success_inv in Hval; destruct Hval as [_ ->]);
    cbn [outboundCalls flat_map app]; rewrite ?app_nil_r; reflexivity.
Qed.

(** X1.  A call sends at most one request to the provider, and sends it
    exactly when the credential is present and the prompt, as passed, has
    from 3 to 2000 code units; the request then carries the trimmed prompt.
    No path sends a second request. *)
Theorem X1_at_most_one_request
    (rt : Actions.Runtime) (formData : Actions.Input) (w : Actions.World) :
  outboundCalls
    (Actions.trace (snd (Actions.analyzeFinancialDataAction rt formData w)))
  = outboundCalls (Actions.trace w)
    ++ (if isSome (credential rt) && lengthAccepted (Actions.rawPrompt formData)
        then [Actions.requestParts (Js.trim (Actions.rawPrompt formData))]
        else []).
Proof. apply outbound_after_action. Qed.

(** X2.  In every envelope exactly one of [data] and [error] is present,
    [data] when [success] is true and [error] when it is false; and a [data]
    that is present is never empty or made of white space only. *)
Theorem X2_data_xor_error
    (rt : Actions.Runtime) (formData : Actions.Input) (w : Actions.World) :
  exists r w',
    Actions.analyzeFinancialDataAction rt formData w = (Actions.normal r, w')
    /\ isSome (Actions.data r) = Actions.success r
    /\ isSome (Actions.error r) = negb (Actions.success r)
    /\ (forall text, Actions.data r = Some text ->
                     forallb Js.isWhiteSpace text = false).
Proof.
  action_paths rt formData w; do 2 eexists; (split; [reflexivity|]);
    cbn [Actions.failed Actions.data Actions.error Actions.success isSome negb];
    repeat split; try discriminate.
  intros text [= <-]. apply (completionOf_inr_inv _ _ _ Hcall).
Qed.

(** X3.  The [error] of an envelope is always one of four fixed texts (the
    configuration error, the service-unavailable message, and the two
    length messages behind ["Invalid input: "]): nothing that the provider
    threw, and nothing of the prompt, ever appears in it. *)
Theorem X3_error_texts_are_fixed
    (rt : Actions.Runtime) (formData : Actions.Input) (w : Actions.World) :
  exists r w',
    Actions.analyzeFinancialDataAction rt formData w = (Actions.normal r, w')
    /\ forall message, Actions.error r = Some message -> In message knownErrors.
Proof.
  action_paths rt formData w; do 2 eexists; (split; [reflexivity|]);
    cbn [Actions.failed Actions.error]; intros message [= <-];
    unfold knownErrors; cbn [In]; auto.
  destruct (safeParse_failure_inv _ Hval) as [[_ ->]|[_ ->]]; auto.
Qed.

Lemma chartWarning_tagged (rt : Actions.Runtime) (rid text : jsstring)
                          (ev : Actions.Event) (line : jsstring) :
  In ev (chartWarning rt rid text) ->
  consoleText ev = Some line ->
  Js.startsWith line (Actions.tag rid) = true.
Proof.
  unfold chartWarning.
  destruct (Payload.dataMatch text) as [[|c capture]|]; try contradiction.
  destruct (Actions.parseChart rt (c :: capture)); [|contradiction].
  intros [<- | []]. intros [= <-]. apply startsWith_app.
Qed.

(** X4.  Every envelope carries the time stamp and the request identifier
    of its call, and every console line that the call writes (there is at
    least one) begins with that identifier in square brackets, so a log line
    can always be matched to the envelope it belongs to. *)
Theorem X4_console_lines_carry_the_request_id
    (rt : Actions.Runtime) (formData : Actions.Input) (w : Actions.World) :
  exists r w' added,
    Actions.analyzeFinancialDataAction rt formData w = (Actions.normal r, w')
    /\ Actions.requestId r = Some (idOf rt w)
    /\ Actions.timestamp r = Some (stampOf rt w)
    /\ Actions.trace w' = Actions.trace w ++ added
    /\ (exists ev line, In ev added /\ consoleText ev = Some line)
    /\ (forall ev line,
          In ev added -> consoleText ev = Some line ->
          Js.startsWith line (Js.lit "[" ++ idOf rt w ++ Js.lit "] ") = true).
Proof.
  change (Js.lit "[" ++ idOf rt w ++ Js.lit "] ") with (Actions.tag (idOf rt w)).
  action_paths rt formData w; do 3 eexists; (split; [reflexivity|]);
    cbn [Actions.failed Actions.requestId Actions.timestamp Actions.trace];
    (split; [reflexivity|]); (split; [reflexivity|]); (split; [reflexivity|]).
  - split.
    + do 2 eexists. split; [right; left; reflexivity | reflexivity].
    + intros ev line [<- | [<- | []]]; [discriminate|].
      intros [= <-]. apply startsWith_app.
  - split.
    + do 2 eexists.
      split; [apply in_or_app; right; apply in_or_app; right; left; reflexivity
             | reflexivity].
    + intros ev line Hin Hline.
      apply in_app_or in Hin. destruct Hin as [[<- | []] | Hin]; [discriminate|].
      apply in_app_or in Hin. destruct Hin as [Hin | [<- | []]].
      * eapply chartWarning_tagged; eassumption.
      * injection Hline as <-. apply startsWith_app.
  - split.
    + do 2 eexists. split; [left; reflexivity | reflexivity].
    + intros ev line [<- | []]. intros [= <-]. apply startsWith_app.
  - split.
    + do 2 eexists. split; [left; reflexivity | reflexivity].
    + intros ev line [<- | []]. intros [= <-]. apply startsWith_app.
Qed.

(** X5.  Whatever reaches the provider is the fixed system prompt followed
    by ["User Query: "] and a prompt that is trimmed and at most 2000 code
    units long. *)
Theorem X5_forwarded_prompt_is_trimmed_and_bounded
    (rt : Actions.Runtime) (formData : Actions.Input) (w : Actions.World)
    (parts : list jsstring) :
  In parts
     (outboundCalls
        (Actions.trace (snd (Actions.analyzeFinancialDataAction rt formData w)))) ->
  In parts (outboundCalls (Actions.trace w))
  \/ exists prompt,
       parts = [Actions.qaSystemPrompt; Js.lit "User Query: " ++ prompt]
       /\ Js.trim prompt = prompt
       /\ Js.length prompt <= 2000.
Proof.
  rewrite outbound_after_action. intros Hin.
  apply in_app_or in Hin. destruct Hin as [Hin | Hin]; [left; exact Hin|].
  right.
  destruct (isSome (credential rt) && lengthAccepted (Actions.rawPrompt formData))
    eqn:Hsent; [|contradiction].
  destruct Hin as [<- | []].
  exists (Js.trim (Actions.rawPrompt formData)).
  split; [reflexivity|]. split; [apply trim_idempotent|].
  apply andb_true_iff in Hsent. destruct Hsent as [_ Hlen].
  unfold lengthAccepted in Hlen. apply andb_true_iff in Hlen.
  destruct Hlen as [_ Hhi]. apply Nat.leb_le in Hhi.
  pose proof (trim_length (Actions.rawPrompt formData)). lia.
Qed.

Lemma X5_forwarded_prompt_witness :
  In (Actions.requestParts (Js.lit "NVDA outlook"))
     (outboundCalls
        (Actions.trace
           (snd (Actions.analyzeFinancialDataAction
                   (sampleRuntime (Actions.responded (inr (Js.lit "Hold."))))
                   (Actions.ofString (Js.lit "  NVDA outlook ")) world0))))
  /\ (In (Actions.requestParts (Js.lit "NVDA outlook"))
         (outboundCalls (Actions.trace world0))
      \/ exists prompt,
           Actions.requestParts (Js.lit "NVDA outlook")
           = [Actions.qaSystemPrompt; Js.lit "User Query: " ++ prompt]
           /\ Js.trim prompt = prompt
           /\ Js.length prompt <= 2000).
Proof.
  assert (Hin : In (Actions.requestParts (Js.lit "NVDA outlook"))
     (outboundCalls
        (Actions.trace
           (snd (Actions.analyzeFinancialDataAction
                   (sampleRuntime (Actions.responded (inr (Js.lit "Hold."))))
                   (Actions.ofString (Js.lit "  NVDA outlook ")) world0))))).
  { left. reflexivity. }
  split; [exact Hin|].
  exact (@X5_forwarded_prompt_is_trimmed_and_bounded _ _ _ _ Hin).
Defined.

(** X6.  A form that has no [prompt] field is treated as the empty prompt:
    with the credential present the action answers with the too-short
    message and sends nothing. *)
Theorem X6_form_without_prompt_is_too_short
    (rt : Actions.Runtime) (fd : Actions.FormData) (w : Actions.World)
    (apiKey : jsstring) :
  credential rt = Some apiKey ->
  Actions.FormData_get fd (Js.lit "prompt") = None ->
  exists r w',
    Actions.analyzeFinancialDataAction rt (Actions.ofFormData fd) w
    = (Actions.normal r, w')
    /\ Actions.success r = false
    /\ Actions.error r
       = Some (Js.lit "Invalid input: Query must contain at least 3 characters")
    /\ outboundCalls (Actions.trace w') = outboundCalls (Actions.trace w).
Proof.
  intros Hkey Hget.
  assert (Hval : Zod.string_safeParse Actions.FinancialQuerySchema
                   (Actions.rawPrompt (Actions.ofFormData fd))
                 = Zod.failure [tooShort]).
  { cbn [Actions.rawPrompt]. rewrite Hget. reflexivity. }
  rewrite (@path_invalid_input rt (Actions.ofFormData fd) w apiKey _ Hkey Hval).
  do 2 eexists. split; [reflexivity|].
  cbn [Actions.failed Actions.success Actions.error Actions.trace].
  rewrite outboundCalls_app, app_nil_r. repeat split.
Qed.

Lemma X6_form_without_prompt_witness :
  exists r w',
    Actions.analyzeFinancialDataAction
      (sampleRuntime (Actions.responded (inr (Js.lit "Hold."))))
      (Actions.ofFormData formWithoutPrompt) world0
    = (Actions.normal r, w')
    /\ Actions.success r = false
    /\ Actions.error r
       = Some (Js.lit "Invalid input: Query must contain at least 3 characters")
    /\ outboundCalls (Actions.trace w') = outboundCalls (Actions.trace world0).
Proof.
  apply (@X6_form_without_prompt_is_too_short
           (sampleRuntime (Actions.responded (inr (Js.lit "Hold."))))
           formWithoutPrompt world0 (Js.lit "test-key"));
    reflexivity.
Defined.

(** X7.  When the first [prompt] entry of a form is a file, the action takes
    the text [[object File]] for the prompt: validation passes and that text
    is what goes to the provider, whatever later entries say. *)
Theorem X7_file_entry_is_sent_as_object_tag
    (rt : Actions.Runtime) (fd : Actions.FormData) (w : Actions.World)
    (apiKey : jsstring) :
  credential rt = Some apiKey ->
  Actions.FormData_get fd (Js.lit "prompt") = Some Actions.entryFile ->
  outboundCalls
    (Actions.trace
       (snd (Actions.analyzeFinancialDataAction rt (Actions.ofFormData fd) w)))
  = outboundCalls (Actions.trace w)
    ++ [[Actions.qaSystemPrompt; Js.lit "User Query: [object File]"]].
Proof.
  intros Hkey Hget. rewrite outbound_after_action, Hkey.
  cbn [Actions.rawPrompt]. rewrite Hget. reflexivity.
Qed.

Lemma X7_file_entry_witness :
  outboundCalls
    (Actions.trace
       (snd (Actions.analyzeFinancialDataAction
               (sampleRuntime (Actions.responded (inr (Js.lit "Hold."))))
               (Actions.ofFormData formWithFile) world0)))
  = outboundCalls (Actions.trace world0)
    ++ [[Actions.qaSystemPrompt; Js.lit "User Query: [object File]"]].
Proof.
  apply (@X7_file_entry_is_sent_as_object_tag
           (sampleRuntime (Actions.responded (inr (Js.lit "Hold."))))
           formWithFile world0 (Js.lit "test-key"));
    reflexivity.
Defined.

(** X8.  [healthCheck] reads the clock once and touches nothing else (no
    console line, no request).  Its status is ["operational"] or
    ["degraded"], and it is ["degraded"] exactly when
    [analyzeFinancialDataAction] would answer every input with the
    configuration error. *)
Theorem X8_healthCheck_agrees_with_the_action
    (rt : Actions.Runtime) (w : Actions.World) :
  exists status,
    Actions.healthCheck rt w
    = (Actions.normal (status, Actions.Date_now rt (Actions.reads w)),
       {| Actions.reads := S (Actions.reads w); Actions.trace := Actions.trace w |})
    /\ (status = Js.lit "operational" \/ status = Js.lit "degraded")
    /\ (status = Js.lit "degraded"
        <-> forall formData v,
              option_map Actions.error
                (envelope (Actions.analyzeFinancialDataAction rt formData v))
              = Some (Some configurationError)).
Proof.
  unfold Actions.healthCheck. run_action.
  destruct (credential rt) as [apiKey|] eqn:Hkey.
  - exists (Js.lit "operational"). split; [|split; [left; reflexivity|]].
    + unfold credential in Hkey.
      destruct (Actions.GEMINI_API_KEY rt) as [[|c k]|]; try discriminate.
      reflexivity.
    + split; [discriminate|]. intros Hall. exfalso.
      specialize (Hall (Actions.ofString []) w). revert Hall.
      assert (Hval : Zod.string_safeParse Actions.FinancialQuerySchema
                       (Actions.rawPrompt (Actions.ofString []))
                     = Zod.failure [tooShort]) by reflexivity.
      rewrite (@path_invalid_input rt (Actions.ofString []) w apiKey _ Hkey Hval).
      discriminate.
  - exists (Js.lit "degraded"). split; [|split; [right; reflexivity|]].
    + unfold credential in Hkey.
      destruct (Actions.GEMINI_API_KEY rt) as [[|c k]|]; try discriminate;
        reflexivity.
    + split; [|reflexivity]. intros _ formData v.
      rewrite (@path_missing_key rt formData v Hkey). reflexivity.
Qed.

Lemma strictPayload_chartOfParsed (data : Json.value) :
  strictPayload data = true ->
  exists c,
    Page.chartOfParsed data = Some c /\ Page.isChartData c = true.
Proof.
  intros Hstrict.
  destruct data as [| | | | |props]; try discriminate.
  cbn [strictPayload] in Hstrict.
  destruct (Json.get props (Js.lit "type")) as [t|] eqn:Ht; [|discriminate].
  destruct (Json.get props (Js.lit "items")) as [[| | | |[|e es]|]|] eqn:Hitems;
    try discriminate.
  apply andb_true_iff in Hstrict. destruct Hstrict as [Hty Hall].
  exists {| Page.type := t; Page.items := e :: es |}. split.
  - rewrite (chartOfParsed_array _ Ht (isChartType_truthy _ Hty) Hitems).
    rewrite filter_all; [reflexivity|].
    apply forallb_forall. intros x Hx.
    apply isChartDataItem_validItem.
    apply (proj1 (forallb_forall _ _) Hall x Hx).
  - unfold Page.isChartData. cbn [Page.type Page.items].
    rewrite Hty. exact Hall.
Qed.

(** X9.  The flag and the page agree in one direction: whenever an envelope
    reports [dataParsing: true], [validateChartData] (with the same
    [JSON.parse]) finds a chart in the envelope's [data], and that chart has
    the declared shape: an enumerated [type] and items that all have a
    string [name] and a finite number [value]. *)
Theorem X9_dataParsing_promises_a_chart
    (rt : Actions.Runtime) (formData : Actions.Input) (w : Actions.World) :
  exists r w',
    Actions.analyzeFinancialDataAction rt formData w = (Actions.normal r, w')
    /\ (Actions.dataParsing (Actions.testCoverage r) = true ->
        exists text c,
          Actions.data r = Some text
          /\ Page.validateChartData (Actions.JSON_parse rt) text = Some c
          /\ Page.isChartData c = true).
Proof.
  action_paths rt formData w; do 2 eexists; (split; [reflexivity|]);
    cbn [Actions.failed Actions.testCoverage Actions.coverage
         Actions.dataParsing Actions.data];
    try discriminate.
  intros Hvalid. exists responseText.
  unfold chartValid in Hvalid. unfold Page.validateChartData.
  destruct (Payload.dataMatch responseText) as [capture|]; [|discriminate].
  apply andb_true_iff in Hvalid. destruct Hvalid as [Htruthy Hparse].
  rewrite Htruthy. unfold Actions.parseChart in Hparse.
  destruct (Actions.JSON_parse rt (Payload.cleanJson capture)) as [m|parsed];
    [discriminate|].
  destruct (Actions.ChartSchema_parse parsed) as [chart|] eqn:Hschema;
    [|discriminate].
  assert (Hstrict : strictPayload parsed = true).
  { rewrite <- ChartSchema_parse_strict, Hschema. reflexivity. }
  destruct (strictPayload_chartOfParsed _ Hstrict) as (c & Hc & Hshape).
  exists c. repeat split; assumption.
Qed.

Lemma X9_dataParsing_witness :
  exists text c,
    Actions.data
      {| Actions.success := true;
         Actions.data := Some (Js.lit "Up. <data>" ++ sampleText ++ Js.lit "</data>");
         Actions.error := None;
         Actions.testCoverage := Actions.coverage true true true;
         Actions.timestamp := Some 1700000000001%Z;
         Actions.requestId := Some (Js.lit "req_1700000000000_4fzyo82mv") |}
    = Some text
    /\ Page.validateChartData sampleParse text = Some c
    /\ Page.isChartData c = true.
Proof.
  destruct (@X9_dataParsing_promises_a_chart
              (sampleRuntime
                 (Actions.responded
                    (inr (Js.lit "Up. <data>" ++ sampleText ++ Js.lit "</data>"))))
              (Actions.ofString (Js.lit "NVDA outlook")) world0)
    as (r & w' & Hrun & Hchart).
  vm_compute in Hrun. injection Hrun as <- _.
  destruct (Hchart eq_refl) as (text & c & Hdata & Hc & Hshape).
  exists text, c. repeat split; assumption.
Defined.

(* ================================================================== *)
(** * Further properties of the payload helpers *)

(** X10.  The capture of [/<data>([\s\S]*?)<\/data>/] is the body of the
    first block and nothing else: a text yields [capture] exactly when it
    reads as some text without an opening tag, the opening tag, [capture]
    without a closing tag in it, the closing tag, and anything after. *)
Theorem X10_match_is_the_first_block (text capture : jsstring) :
  Payload.dataMatch text = Some capture
  <-> exists pre rest,
        text = pre ++ Payload.openTag ++ capture ++ Payload.closeTag ++ rest
        /\ Js.includes pre Payload.openTag = false
        /\ Js.includes capture Payload.closeTag = false.
Proof.
  split.
  - apply dataMatch_inv.
  - intros (pre & rest & -> & Hpre & Hbody).
    apply dataMatch_first_block; assumption.
Qed.

Lemma dataMatch_finds (pre mid rest : jsstring) :
  Payload.dataMatch (pre ++ Payload.openTag ++ mid ++ Payload.closeTag ++ rest)
  <> None.
Proof.
  induction pre as [|c pre IH]; rewrite dataMatch_unfold.
  - unfold Payload.matchHere. cbn [app]. rewrite startsWith_app.
    change (skipn (Js.length Payload.openTag)
              (Payload.openTag ++ mid ++ Payload.closeTag ++ rest))
      with (mid ++ Payload.closeTag ++ rest).
    pose proof (lazyUntil_finds Payload.closeTag mid rest) as H.
    destruct (Payload.lazyUntil Payload.closeTag (mid ++ Payload.closeTag ++ rest));
      [discriminate | contradiction].
  - destruct (Payload.matchHere
                ((c :: pre) ++ Payload.openTag ++ mid ++ Payload.closeTag ++ rest));
      [discriminate | exact IH].
Qed.

(** X11.  The match fails exactly on the texts in which no opening tag is
    followed, anywhere later, by a closing tag; a closing tag that comes
    first, or an opening tag that is never closed, gives no payload. *)
Theorem X11_no_match_without_a_closed_block (text : jsstring) :
  Payload.dataMatch text = None
  <-> forall pre mid rest,
        text <> pre ++ Payload.openTag ++ mid ++ Payload.closeTag ++ rest.
Proof.
  split.
  - intros Hnone pre mid rest ->. exact (dataMatch_finds _ _ _ Hnone).
  - intros Hno. destruct (Payload.dataMatch text) as [capture|] eqn:Hmatch;
      [|reflexivity].
    destruct (dataMatch_inv _ Hmatch) as (pre & rest & Heq & _).
    exfalso. exact (Hno _ _ _ Heq).
Qed.

(** ** Cleaning the capture *)

Lemma startsWith_app_pattern (s p q : jsstring) :
  Js.startsWith s (p ++ q) = true -> Js.startsWith s p = true.
Proof.
  intros H. apply startsWith_spec in H. destruct H as [post ->].
  rewrite <- app_assoc. apply startsWith_app.
Qed.

Lemma includes_app_pattern (s p q : jsstring) :
  Js.includes s p = false -> Js.includes s (p ++ q) = false.
Proof.
  intros H. destruct (Js.includes s (p ++ q)) eqn:Hpq; [|reflexivity].
  apply includes_spec in Hpq. destruct Hpq as (pre & post & ->).
  rewrite <- H. symmetry. apply includes_spec.
  exists pre, (q ++ post). rewrite <- app_assoc. reflexivity.
Qed.

Lemma removeAll_absent (f s : jsstring) :
  Js.includes s f = false -> Payload.removeAll f s = s.
Proof.
  unfold Payload.removeAll.
  induction s as [|c t IH]; intros H; [reflexivity|].
  apply includes_cons_false in H. destruct H as [Hhere Hrest].
  cbn [Payload.replaceFence andb]. rewrite Hhere, IH by exact Hrest.
  reflexivity.
Qed.

(** X12.  A capture that holds no code fence is only trimmed by the
    cleaning step: the two [replace] calls leave it as it is. *)
Theorem X12_clean_without_fence_is_trim (capture : jsstring) :
  Js.includes capture (Js.lit "```") = false ->
  Payload.cleanJson capture = Js.trim capture.
Proof.
  intros H. unfold Payload.cleanJson.
  rewrite (removeAll_absent (Js.lit "```json") capture).
  - rewrite removeAll_absent by exact H. reflexivity.
  - apply (includes_app_pattern capture (Js.lit "```") (Js.lit "json")), H.
Qed.

Lemma X12_clean_without_fence_witness :
  Js.includes (Js.lit "  {`a`: 1} ") (Js.lit "```") = false
  /\ Payload.cleanJson (Js.lit "  {`a`: 1} ") = Js.trim (Js.lit "  {`a`: 1} ").
Proof.
  split; [reflexivity|].
  apply (X12_clean_without_fence_is_trim (Js.lit "  {`a`: 1} ")). reflexivity.
Defined.

Lemma fenceless_head (t : jsstring) :
  Js.startsWith (Payload.replaceFence fence 0 false t) [backtick] = true ->
  Js.startsWith t [backtick] = true.
Proof.
  destruct t as [|c t]; [discriminate|].
  cbn [Payload.replaceFence andb].
  destruct (Js.startsWith (c :: t) fence) eqn:Hmatch.
  - intros _. apply (startsWith_app_pattern (c :: t) [backtick] [backtick; backtick]).
    exact Hmatch.
  - intros H. exact H.
Qed.

Lemma fenceless_two (t : jsstring) :
  Js.startsWith (Payload.replaceFence fence 0 false t) [backtick; backtick] = true ->
  Js.startsWith t [backtick; backtick] = true.
Proof.
  destruct t as [|c t]; [discriminate|].
  cbn [Payload.replaceFence andb].
  destruct (Js.startsWith (c :: t) fence) eqn:Hmatch.
  - intros _. apply (startsWith_app_pattern (c :: t) [backtick; backtick] [backtick]).
    exact Hmatch.
  - intros H.
    assert (Hsplit : N.eqb backtick c = true
                     /\ Js.startsWith (Payload.replaceFence fence 0 false t)
                          [backtick] = true).
    { apply andb_true_iff. exact H. }
    destruct Hsplit as [Hc Hhead].
    apply fenceless_head in Hhead.
    change (N.eqb backtick c && Js.startsWith t [backtick] = true).
    rewrite Hc, Hhead. reflexivity.
Qed.

Lemma replaceFence_leaves_no_fence (s : jsstring) (pending : nat) (inSpace : bool) :
  Js.includes (Payload.replaceFence fence pending inSpace s) fence = false.
Proof.
  revert pending inSpace. induction s as [|c t IH]; intros pending inSpace.
  - reflexivity.
  - cbn [Payload.replaceFence]. destruct pending as [|k]; [|apply IH].
    destruct (inSpace && Js.isWhiteSpace c); [apply IH|].
    destruct (Js.startsWith (c :: t) fence) eqn:Hmatch; [apply IH|].
    cbn [Js.includes]. rewrite IH, orb_false_r.
    destruct (Js.startsWith (c :: Payload.replaceFence fence 0 false t) fence)
      eqn:Hout; [|reflexivity].
    assert (Hsplit : N.eqb backtick c = true
                     /\ Js.startsWith (Payload.replaceFence fence 0 false t)
                          [backtick; backtick] = true).
    { apply andb_true_iff. exact Hout. }
    destruct Hsplit as [Hc Htwo].
    apply fenceless_two in Htwo.
    assert (Hboth : Js.startsWith (c :: t) fence = true).
    { change (N.eqb backtick c && Js.startsWith t [backtick; backtick] = true).
      rewrite Hc, Htwo. reflexivity. }
    congruence.
Qed.

Lemma trimStart_suffix (s : jsstring) : exists pre, s = pre ++ Js.trimStart s.
Proof.
  induction s as [|c t [pre IH]]; [exists []; reflexivity|].
  cbn [Js.trimStart]. destruct (Js.isWhiteSpace c).
  - exists (c :: pre). cbn [app]. f_equal. exact IH.
  - exists []. reflexivity.
Qed.

Lemma trim_infix (s : jsstring) : exists pre post, s = pre ++ Js.trim s ++ post.
Proof.
  unfold Js.trim, Js.trimEnd.
  destruct (trimStart_suffix s) as [pre Hpre].
  destruct (trimStart_suffix (rev (Js.trimStart s))) as [post Hpost].
  exists pre, (rev post).
  rewrite <- rev_app_distr, <- Hpost, rev_involutive. exact Hpre.
Qed.

Lemma includes_trim (s f : jsstring) :
  Js.includes s f = false -> Js.includes (Js.trim s) f = false.
Proof.
  intros H. destruct (Js.includes (Js.trim s) f) eqn:Ht; [|reflexivity].
  apply includes_spec in Ht. destruct Ht as (a & b & Hab).
  destruct (trim_infix s) as (pre & post & Hs).
  rewrite <- H. symmetry. apply includes_spec.
  exists (pre ++ a), (b ++ post). rewrite Hs at 1. rewrite Hab.
  rewrite <- !app_assoc. reflexivity.
Qed.

(** X13.  Whatever the capture, the cleaned text holds no code fence (three
    backticks in a row) and is trimmed: cutting fences out never brings the
    backticks around them together into a new fence. *)
Theorem X13_cleaned_text_has_no_fence (capture : jsstring) :
  Js.includes (Payload.cleanJson capture) (Js.lit "```") = false
  /\ Js.trim (Payload.cleanJson capture) = Payload.cleanJson capture.
Proof.
  unfold Payload.cleanJson. split.
  - apply includes_trim. apply replaceFence_leaves_no_fence.
  - apply trim_idempotent.
Qed.

(* ================================================================== *)
(** * Properties of [MarkdownRenderer]'s display text *)

Lemma matchHere_before_open (a : N) (s tail : jsstring) :
  Js.includes (a :: s) Payload.openTag = false ->
  Payload.matchHere ((a :: s) ++ Payload.openTag ++ tail) = None.
Proof.
  intros Hpre. apply includes_cons_false in Hpre. destruct Hpre as [Hhere _].
  unfold Payload.matchHere.
  destruct (Js.startsWith ((a :: s) ++ Payload.openTag ++ tail) Payload.openTag)
    eqn:Hstart; [|reflexivity].
  change (Payload.openTag ++ tail) with (60%N :: Js.lit "data>" ++ tail) in Hstart.
  apply startsWith_straddle in Hstart; [|discriminate].
  destruct Hstart as [Hstart | Hin]; [congruence|].
  vm_compute in Hin. repeat (destruct Hin as [Hin | Hin]; [discriminate|]).
  contradiction.
Qed.

Lemma stripBlocks_skip (skipped rest : jsstring) :
  Markdown.stripBlocks (List.length skipped) (skipped ++ rest)
  = Markdown.stripBlocks 0 rest.
Proof.
  induction skipped as [|c x IH]; [reflexivity|].
  cbn [List.length app Markdown.stripBlocks]. exact IH.
Qed.

Lemma stripBlocks_prefix (pre tail : jsstring) :
  Js.includes pre Payload.openTag = false ->
  Markdown.stripBlocks 0 (pre ++ Payload.openTag ++ tail)
  = pre ++ Markdown.stripBlocks 0 (Payload.openTag ++ tail).
Proof.
  induction pre as [|a s IH]; intros Hpre; [reflexivity|].
  pose proof (matchHere_before_open a s tail Hpre) as Hnone.
  apply includes_cons_false in Hpre. destruct Hpre as [_ Hrest].
  cbn [app Markdown.stripBlocks] in Hnone |- *. rewrite Hnone.
  f_equal. apply IH, Hrest.
Qed.

Lemma stripBlocks_block (body rest : jsstring) :
  Js.includes body Payload.closeTag = false ->
  Markdown.stripBlocks 0 (Payload.openTag ++ body ++ Payload.closeTag ++ rest)
  = Markdown.stripBlocks 0 rest.
Proof.
  intros Hbody.
  assert (Hmatch : Payload.matchHere
                     (Payload.openTag ++ body ++ Payload.closeTag ++ rest)
                   = Some body).
  { unfold Payload.matchHere. rewrite startsWith_app.
    change (skipn (Js.length Payload.openTag)
              (Payload.openTag ++ body ++ Payload.closeTag ++ rest))
      with (body ++ Payload.closeTag ++ rest).
    apply lazyUntil_first_close, Hbody. }
  change (Payload.openTag ++ body ++ Payload.closeTag ++ rest)
    with (60%N :: Js.lit "data>" ++ body ++ Payload.closeTag ++ rest) in Hmatch |- *.
  cbn [Markdown.stripBlocks]. rewrite Hmatch.
  replace (Js.lit "data>" ++ body ++ Payload.closeTag ++ rest)
    with ((Js.lit "data>" ++ body ++ Payload.closeTag) ++ rest)
    by (rewrite <- !app_assoc; reflexivity).
  replace (Js.length Payload.openTag + Js.length body
           + Js.length Payload.closeTag - 1)
    with (List.length (Js.lit "data>" ++ body ++ Payload.closeTag)).
  - apply stripBlocks_skip.
  - unfold Js.length. rewrite !length_app. cbn. lia.
Qed.

Lemma stripBlocks_nothing (content : jsstring) :
  Payload.dataMatch content = None -> Markdown.stripBlocks 0 content = content.
Proof.
  induction content as [|c t IH]; [reflexivity|].
  rewrite dataMatch_unfold.
  destruct (Payload.matchHere (c :: t)) eqn:Hhere; [discriminate|].
  intros Hrest. cbn [Markdown.stripBlocks]. rewrite Hhere.
  f_equal. apply IH, Hrest.
Qed.

(** X14.  For a response with one block (no opening tag before it, no
    closing tag inside it, no further block after it) the text shown is the
    text before and after the block, joined and trimmed, and the block
    itself is what the chart is read from. *)
Theorem X14_display_cuts_the_block_out (pre body rest : jsstring) :
  Js.includes pre Payload.openTag = false ->
  Js.includes body Payload.closeTag = false ->
  Payload.dataMatch rest = None ->
  Markdown.displayContent
    (pre ++ Payload.openTag ++ body ++ Payload.closeTag ++ rest)
  = Js.trim (pre ++ rest)
  /\ Payload.dataMatch
       (pre ++ Payload.openTag ++ body ++ Payload.closeTag ++ rest)
     = Some body.
Proof.
  intros Hpre Hbody Hrest. split.
  - unfold Markdown.displayContent.
    rewrite stripBlocks_prefix by exact Hpre.
    rewrite stripBlocks_block by exact Hbody.
    rewrite stripBlocks_nothing by exact Hrest. reflexivity.
  - apply dataMatch_first_block; assumption.
Qed.

Lemma X14_display_witness :
  Markdown.displayContent
    (Js.lit " Up 4%. " ++ Payload.openTag ++ sampleText ++ Payload.closeTag
     ++ Js.lit " Hold. ")
  = Js.trim (Js.lit " Up 4%. " ++ Js.lit " Hold. ")
  /\ Payload.dataMatch
       (Js.lit " Up 4%. " ++ Payload.openTag ++ sampleText ++ Payload.closeTag
        ++ Js.lit " Hold. ")
     = Some sampleText.
Proof.
  apply (X14_display_cuts_the_block_out
           (Js.lit " Up 4%. ") sampleText (Js.lit " Hold. "));
    reflexivity.
Defined.

(** X15.  A response in which the block pattern does not match is shown
    whole, only trimmed; in particular an opening tag that is never closed
    stays visible. *)
Theorem X15_display_without_block_is_trim (content : jsstring) :
  Payload.dataMatch content = None ->
  Markdown.displayContent content = Js.trim content.
Proof.
  intros H. unfold Markdown.displayContent.
  rewrite stripBlocks_nothing by exact H. reflexivity.
Qed.

Lemma X15_display_without_block_witness :
  Markdown.displayContent (Js.lit " Flat. <data>{1} ")
  = Js.trim (Js.lit " Flat. <data>{1} ").
Proof.
  apply (X15_display_without_block_is_trim (Js.lit " Flat. <data>{1} ")).
  reflexivity.
Defined.

Example display_can_keep_a_joined_block :
  Markdown.displayContent (Js.lit "<da<data>x</data>ta>y</data>")
  = Js.lit "<data>y</data>".
Proof. reflexivity. Qed.

(* ================================================================== *)
(** * Properties of [useLocalStorage] and of the handlers *)

Lemma eqb_refl (s : jsstring) : Js.eqb s s = true.
Proof. apply eqb_eq. reflexivity. Qed.

Lemma getItem_setItem (es : list (jsstring * jsstring)) (key value : jsstring) :
  Dashboard.getItem (Dashboard.setItem es key value) key = Some value.
Proof.
  induction es as [|[k v] es IH]; cbn [Dashboard.setItem Dashboard.getItem].
  - rewrite eqb_refl. reflexivity.
  - destruct (Js.eqb k key) eqn:Hk; cbn [Dashboard.getItem].
    + rewrite eqb_refl. reflexivity.
    + rewrite Hk. exact IH.
Qed.

Lemma getItem_setItem_other (es : list (jsstring * jsstring))
                            (key other value : jsstring) :
  Js.eqb other key = false ->
  Dashboard.getItem (Dashboard.setItem es key value) other
  = Dashboard.getItem es other.
Proof.
  intros Hother.
  assert (Hkey : Js.eqb key other = false).
  { destruct (Js.eqb key other) eqn:H; [|reflexivity].
    apply eqb_eq in H. subst. rewrite eqb_refl in Hother. discriminate. }
  induction es as [|[k v] es IH]; cbn [Dashboard.setItem Dashboard.getItem].
  - rewrite Hkey. reflexivity.
  - destruct (Js.eqb k key) eqn:Hk; cbn [Dashboard.getItem].
    + apply eqb_eq in Hk. subst k. rewrite Hkey. reflexivity.
    + destruct (Js.eqb k other); [reflexivity | exact IH].
Qed.

(** X16.  A value handed to the setter as a value is written under the key
    and read back by the next mount, whatever the initial value there, as
    long as the storage takes the write and [JSON.parse] inverts
    [JSON.stringify] on it; entries under other keys are left alone. *)
Theorem X16_stored_value_is_read_back
    (T : Type) (stringify : T -> jsstring)
    (JSON_parse : jsstring -> jsstring + T)
    (key other : jsstring) (value initial : T) (h : Dashboard.Hook T) :
  Dashboard.hasWindow (Dashboard.browser h) = true ->
  Dashboard.writesFail (Dashboard.browser h) = false ->
  stringify value <> [] ->
  JSON_parse (stringify value) = inr value ->
  Js.eqb other key = false ->
  Dashboard.storedValue
    (Dashboard.load JSON_parse key
       (Dashboard.mount initial
          (Dashboard.browser
             (Dashboard.setValue stringify key (Dashboard.plain value) h))))
  = value
  /\ Dashboard.getItem
       (Dashboard.entries
          (Dashboard.browser
             (Dashboard.setValue stringify key (Dashboard.plain value) h)))
       other
     = Dashboard.getItem (Dashboard.entries (Dashboard.browser h)) other.
Proof.
  intros Hwin Hwrite Htext Hparse Hother.
  unfold Dashboard.setValue. rewrite Hwin, Hwrite.
  cbn [Dashboard.browser Dashboard.entries Dashboard.storedText].
  split; [|apply getItem_setItem_other; exact Hother].
  unfold Dashboard.load, Dashboard.mount.
  cbn [Dashboard.browser Dashboard.hasWindow Dashboard.entries negb].
  rewrite getItem_setItem.
  destruct (stringify value) as [|c t] eqn:Hs; [congruence|].
  cbn [Js.truthy]. rewrite Hparse. reflexivity.
Qed.

Lemma X16_stored_value_witness :
  Dashboard.storedValue
    (Dashboard.load sampleParseHistory Dashboard.STORAGE_KEY
       (Dashboard.mount sampleHistory
          (Dashboard.browser
             (Dashboard.setValue sampleStringify Dashboard.STORAGE_KEY
                (Dashboard.plain [])
                (Dashboard.mount sampleHistory sampleBrowser)))))
  = []
  /\ Dashboard.getItem
       (Dashboard.entries
          (Dashboard.browser
             (Dashboard.setValue sampleStringify Dashboard.STORAGE_KEY
                (Dashboard.plain [])
                (Dashboard.mount sampleHistory sampleBrowser))))
       (Js.lit "theme")
     = Dashboard.getItem
         (Dashboard.entries
            (Dashboard.browser (Dashboard.mount sampleHistory sampleBrowser)))
         (Js.lit "theme").
Proof.
  apply (@X16_stored_value_is_read_back
           (list Page.HistoryItem) sampleStringify sampleParseHistory
           Dashboard.STORAGE_KEY (Js.lit "theme") [] sampleHistory
           (Dashboard.mount sampleHistory sampleBrowser));
    try reflexivity.
  discriminate.
Defined.

(** ** [handleSearch] *)

Lemma handleSearch_idle (env : Dashboard.Env) (customQuery : option jsstring)
                        (st : Dashboard.State) :
  negb (Js.truthy (Dashboard.activeQueryOf customQuery st)) || Dashboard.loading st
  = true ->
  Dashboard.handleSearch env customQuery st = st.
Proof. intros H. unfold Dashboard.handleSearch. rewrite H. reflexivity. Qed.

Lemma handleSearch_success
    (env : Dashboard.Env) (customQuery : option jsstring) (st : Dashboard.State)
    (result : Actions.ApiResponse) (c : N) (d : jsstring) :
  Dashboard.loading st = false ->
  Js.truthy (Dashboard.activeQueryOf customQuery st) = true ->
  Dashboard.callAction env (Dashboard.activeQueryOf customQuery st) = inr result ->
  Actions.success result = true ->
  Actions.data result = Some (c :: d) ->
  Dashboard.mounted st = true ->
  Dashboard.handleSearch env customQuery st
  = {| Dashboard.query := [];
       Dashboard.loading := false;
       Dashboard.currentAnalysis :=
         Some (Dashboard.newItemOf env (Dashboard.activeQueryOf customQuery st)
                 (c :: d) result);
       Dashboard.error := None;
       Dashboard.history :=
         Dashboard.setValue (Dashboard.JSON_stringify env) Dashboard.STORAGE_KEY
           (Dashboard.updater
              (Page.prepend
                 (Dashboard.newItemOf env (Dashboard.activeQueryOf customQuery st)
                    (c :: d) result)))
           (Dashboard.history st);
       Dashboard.mounted := true;
       Dashboard.requests :=
         Dashboard.requests st ++ [Dashboard.activeQueryOf customQuery st];
       Dashboard.log := Dashboard.log st |}.
Proof.
  intros Hload Hquery Hcall Hsuccess Hdata Hmounted.
  unfold Dashboard.handleSearch.
  rewrite Hquery, Hload, Hcall, Hsuccess, Hdata.
  cbn [negb orb Dashboard.mounted]. rewrite Hmounted.
  unfold Dashboard.settle, Dashboard.setHistory.
  cbn [Dashboard.mounted Dashboard.query Dashboard.loading Dashboard.currentAnalysis
       Dashboard.error Dashboard.history Dashboard.requests Dashboard.log].
  rewrite ?Hmounted. reflexivity.
Qed.

Lemma handleSearch_failure
    (env : Dashboard.Env) (customQuery : option jsstring) (st : Dashboard.State)
    (result : Actions.ApiResponse) (c : N) (m : jsstring) :
  Dashboard.loading st = false ->
  Js.truthy (Dashboard.activeQueryOf customQuery st) = true ->
  Dashboard.callAction env (Dashboard.activeQueryOf customQuery st) = inr result ->
  Actions.success result = false ->
  Actions.error result = Some (c :: m) ->
  Dashboard.handleSearch env customQuery st
  = {| Dashboard.query := Dashboard.query st;
       Dashboard.loading := negb (Dashboard.mounted st);
       Dashboard.currentAnalysis := Dashboard.currentAnalysis st;
       Dashboard.error := Some (c :: m);
       Dashboard.history := Dashboard.history st;
       Dashboard.mounted := Dashboard.mounted st;
       Dashboard.requests :=
         Dashboard.requests st ++ [Dashboard.activeQueryOf customQuery st];
       Dashboard.log := Dashboard.log st ++ [c :: m] |}.
Proof.
  intros Hload Hquery Hcall Hsuccess Herror.
  unfold Dashboard.handleSearch.
  rewrite Hquery, Hload, Hcall, Hsuccess, Herror.
  cbn [negb orb]. unfold Dashboard.settle, Dashboard.fail.
  cbn [Dashboard.mounted Dashboard.query Dashboard.loading Dashboard.currentAnalysis
       Dashboard.error Dashboard.history Dashboard.requests Dashboard.log].
  destruct (Dashboard.mounted st); reflexivity.
Qed.

(** X17.  An analysis saved by [handleSearch] is in the history held in
    memory, at its head, but it is not what reaches the storage: the setter
    is given a function, whose JSON text is [undefined], so the entry under
    the key becomes the text ["undefined"], which [JSON.parse] refuses; the
    next mount therefore keeps its initial value. *)
Theorem X17_saved_analysis_is_not_persisted
    (env : Dashboard.Env) (customQuery : option jsstring) (st : Dashboard.State)
    (result : Actions.ApiResponse) (c : N) (d message : jsstring)
    (parseHistory : jsstring -> jsstring + list Page.HistoryItem)
    (initial : list Page.HistoryItem) :
  Dashboard.loading st = false ->
  Dashboard.mounted st = true ->
  Js.truthy (Dashboard.activeQueryOf customQuery st) = true ->
  Dashboard.callAction env (Dashboard.activeQueryOf customQuery st) = inr result ->
  Actions.success result = true ->
  Actions.data result = Some (c :: d) ->
  Dashboard.hasWindow (Dashboard.browser (Dashboard.history st)) = true ->
  Dashboard.writesFail (Dashboard.browser (Dashboard.history st)) = false ->
  parseHistory (Js.lit "undefined") = inl message ->
  Dashboard.storedValue
    (Dashboard.history (Dashboard.handleSearch env customQuery st))
  = Dashboard.newItemOf env (Dashboard.activeQueryOf customQuery st) (c :: d) result
    :: firstn 49 (Dashboard.storedValue (Dashboard.history st))
  /\ Dashboard.getItem
       (Dashboard.entries
          (Dashboard.browser
             (Dashboard.history (Dashboard.handleSearch env customQuery st))))
       Dashboard.STORAGE_KEY
     = Some (Js.lit "undefined")
  /\ Dashboard.storedValue
       (Dashboard.load parseHistory Dashboard.STORAGE_KEY
          (Dashboard.mount initial
             (Dashboard.browser
                (Dashboard.history (Dashboard.handleSearch env customQuery st)))))
     = initial.
Proof.
  intros Hload Hmounted Hquery Hcall Hsuccess Hdata Hwin Hwrite Hparse.
  rewrite (handleSearch_success env customQuery st Hload Hquery Hcall Hsuccess
             Hdata Hmounted).
  cbn [Dashboard.history]. unfold Dashboard.setValue. rewrite Hwin, Hwrite.
  cbn [Dashboard.storedValue Dashboard.browser Dashboard.entries
       Dashboard.applyAction Dashboard.storedText].
  split; [reflexivity|]. split; [apply getItem_setItem|].
  unfold Dashboard.load, Dashboard.mount.
  cbn [Dashboard.browser Dashboard.hasWindow Dashboard.entries negb].
  rewrite getItem_setItem.
  replace (Js.truthy (Js.lit "undefined")) with true by reflexivity.
  rewrite Hparse. reflexivity.
Qed.

Lemma X17_saved_analysis_witness :
  Dashboard.getItem
    (Dashboard.entries
       (Dashboard.browser
          (Dashboard.history
             (Dashboard.handleSearch
                (sampleEnv (Actions.responded (inr (Js.lit "Hold."))))
                None (samplePage (Js.lit " NVDA outlook "))))))
    Dashboard.STORAGE_KEY
  = Some (Js.lit "undefined")
  /\ Dashboard.storedValue
       (Dashboard.load sampleParseHistory Dashboard.STORAGE_KEY
          (Dashboard.mount []
             (Dashboard.browser
                (Dashboard.history
                   (Dashboard.handleSearch
                      (sampleEnv (Actions.responded (inr (Js.lit "Hold."))))
                      None (samplePage (Js.lit " NVDA outlook ")))))))
     = [].
Proof.
  edestruct (@X17_saved_analysis_is_not_persisted
               (sampleEnv (Actions.responded (inr (Js.lit "Hold."))))
               None (samplePage (Js.lit " NVDA outlook ")))
    as (_ & Hentry & Hreload).
  - reflexivity.
  - reflexivity.
  - reflexivity.
  - vm_compute. reflexivity.
  - reflexivity.
  - reflexivity.
  - reflexivity.
  - reflexivity.
  - instantiate (2 := sampleParseHistory). reflexivity.
  - split; [exact Hentry | exact Hreload].
Defined.

Lemma requests_settle (st : Dashboard.State) :
  Dashboard.requests (Dashboard.settle st) = Dashboard.requests st.
Proof. unfold Dashboard.settle. destruct (Dashboard.mounted st); reflexivity. Qed.

Lemma handleSearch_requests_active
    (env : Dashboard.Env) (customQuery : option jsstring) (st : Dashboard.State) :
  negb (Js.truthy (Dashboard.activeQueryOf customQuery st)) || Dashboard.loading st
  = false ->
  Dashboard.requests (Dashboard.handleSearch env customQuery st)
  = Dashboard.requests st ++ [Dashboard.activeQueryOf customQuery st].
Proof.
  intros Hactive. unfold Dashboard.handleSearch. rewrite Hactive.
  rewrite requests_settle.
  destruct (Dashboard.callAction env (Dashboard.activeQueryOf customQuery st))
    as [[message|]|result]; try reflexivity.
  destruct (negb (Actions.success result)); [reflexivity|].
  destruct (Actions.data result) as [[|c d]|]; try reflexivity.
  cbn [Dashboard.mounted]. destruct (Dashboard.mounted st); reflexivity.
Qed.

(** X18.  One run of [handleSearch] hands at most one query to the server
    action.  It hands over none when a search is already loading or when the
    text chosen (the quick-test text, else the input field) is empty or
    white space only, and then it changes nothing at all; a query that is
    handed over is trimmed and not empty. *)
Theorem X18_handleSearch_sends_a_trimmed_query_once
    (env : Dashboard.Env) (customQuery : option jsstring) (st : Dashboard.State) :
  exists sent,
    Dashboard.requests (Dashboard.handleSearch env customQuery st)
    = Dashboard.requests st ++ sent
    /\ List.length sent <= 1
    /\ (forall q, In q sent ->
                  q <> [] /\ Js.trim q = q /\ Dashboard.loading st = false)
    /\ (sent = [] -> Dashboard.handleSearch env customQuery st = st)
    /\ (forallb Js.isWhiteSpace
          (match customQuery with
           | Some (c :: q) => c :: q
           | _ => Dashboard.query st
           end) = true -> sent = []).
Proof.
  destruct (negb (Js.truthy (Dashboard.activeQueryOf customQuery st))
            || Dashboard.loading st) eqn:Hidle.
  - exists []. rewrite (handleSearch_idle env customQuery st Hidle).
    rewrite app_nil_r.
    split; [reflexivity|]. split; [cbn; lia|]. split; [intros q []|].
    split; reflexivity.
  - exists [Dashboard.activeQueryOf customQuery st].
    rewrite (handleSearch_requests_active env customQuery st Hidle).
    apply orb_false_iff in Hidle. destruct Hidle as [Hq Hload].
    apply negb_false_iff in Hq.
    split; [reflexivity|]. split; [cbn; lia|]. split; [|split].
    + intros q [<- | []]. split; [|split].
      * intros Hnil. rewrite Hnil in Hq. discriminate.
      * unfold Dashboard.activeQueryOf. apply trim_idempotent.
      * exact Hload.
    + discriminate.
    + intros Hblank.
      assert (Hnil : Dashboard.activeQueryOf customQuery st = []).
      { unfold Dashboard.activeQueryOf. apply trim_nil_iff. exact Hblank. }
      rewrite Hnil in Hq. discriminate.
Qed.

(** X19.  For a query that comes from the page, the server tests the
    length of the trimmed text: the page trims before it calls, so the
    action's own trimming changes nothing, the two bounds apply to what the
    user typed without its outer white space, and that same text is what
    goes to the provider. *)
Theorem X19_page_queries_are_checked_trimmed
    (rt : Actions.Runtime) (w : Actions.World) (apiKey : jsstring)
    (customQuery : option jsstring) (st : Dashboard.State) :
  credential rt = Some apiKey ->
  exists r w',
    Actions.analyzeFinancialDataAction rt
      (Actions.ofString (Dashboard.activeQueryOf customQuery st)) w
    = (Actions.normal r, w')
    /\ (Js.length (Dashboard.activeQueryOf customQuery st) < 3 ->
        Actions.error r = Some (invalidInput [tooShort]))
    /\ (2000 < Js.length (Dashboard.activeQueryOf customQuery st) ->
        Actions.error r = Some (invalidInput [tooLong]))
    /\ outboundCalls (Actions.trace w')
       = outboundCalls (Actions.trace w)
         ++ (if lengthAccepted (Dashboard.activeQueryOf customQuery st)
             then [Actions.requestParts (Dashboard.activeQueryOf customQuery st)]
             else []).
Proof.
  intros Hkey.
  pose proof (outbound_after_action rt
                (Actions.ofString (Dashboard.activeQueryOf customQuery st)) w)
    as Hout.
  rewrite Hkey in Hout. cbn [isSome andb Actions.rawPrompt] in Hout.
  replace (Js.trim (Dashboard.activeQueryOf customQuery st))
    with (Dashboard.activeQueryOf customQuery st) in Hout
    by (symmetry; apply trim_idempotent).
  revert Hout.
  action_paths rt (Actions.ofString (Dashboard.activeQueryOf customQuery st)) w;
    try congruence;
    cbn [snd]; intros Hout; do 2 eexists; (split; [reflexivity|]);
    (split; [|split; [|exact Hout]]);
    cbn [Actions.failed Actions.error]; intros Hlen;
    try (apply safeParse_success_inv in Hval; cbn [Actions.rawPrompt] in Hval;
         destruct Hval as [[? ?] _]; lia);
    destruct (safeParse_failure_inv _ Hval) as [[Hl ->]|[Hl ->]];
    cbn [Actions.rawPrompt] in Hl; try reflexivity; lia.
Qed.

Lemma X19_page_queries_witness :
  exists r w',
    Actions.analyzeFinancialDataAction
      (sampleRuntime (Actions.responded (inr (Js.lit "Hold."))))
      (Actions.ofString
         (Dashboard.activeQueryOf None (samplePage (Js.lit "  a  ")))) world0
    = (Actions.normal r, w')
    /\ Actions.error r = Some (invalidInput [tooShort]).
Proof.
  destruct (@X19_page_queries_are_checked_trimmed
              (sampleRuntime (Actions.responded (inr (Js.lit "Hold."))))
              world0 (Js.lit "test-key") None (samplePage (Js.lit "  a  "))
              eq_refl)
    as (r & w' & Hrun & Hshort & _).
  exists r, w'. split; [exact Hrun|]. apply Hshort. cbn. lia.
Defined.

Lemma chartValid_validateChartData (rt : Actions.Runtime) (text : jsstring) :
  chartValid rt text = true ->
  exists c,
    Page.validateChartData (Actions.JSON_parse rt) text = Some c
    /\ Page.isChartData c = true.
Proof.
  unfold chartValid, Page.validateChartData. intros Hvalid.
  destruct (Payload.dataMatch text) as [capture|]; [|discriminate].
  apply andb_true_iff in Hvalid. destruct Hvalid as [Htruthy Hparse].
  rewrite Htruthy. unfold Actions.parseChart in Hparse.
  destruct (Actions.JSON_parse rt (Payload.cleanJson capture)) as [m|parsed];
    [discriminate|].
  destruct (Actions.ChartSchema_parse parsed) as [chart|] eqn:Hschema;
    [|discriminate].
  apply strictPayload_chartOfParsed.
  rewrite <- ChartSchema_parse_strict, Hschema. reflexivity.
Qed.

(** X20.  End to end, when the provider answers a page query of accepted
    length with a text that is not blank: the page shows a new item whose
    query is the trimmed text typed, whose response is the provider's text
    and whose request identifier is the server's; the item is the head of
    the history, the input field is emptied, no error is shown, loading is
    over; and if the server found the payload valid the item carries a chart
    of the declared shape. *)
Theorem X20_successful_search_end_to_end
    (rt : Actions.Runtime) (w : Actions.World) (apiKey text : jsstring)
    (env : Dashboard.Env) (customQuery : option jsstring) (st : Dashboard.State) :
  Dashboard.callAction env = serverAction rt w ->
  Dashboard.JSON_parse env = Actions.JSON_parse rt ->
  credential rt = Some apiKey ->
  Dashboard.loading st = false ->
  Dashboard.mounted st = true ->
  lengthAccepted (Dashboard.activeQueryOf customQuery st) = true ->
  Actions.generateContent rt apiKey
    (Actions.requestParts (Dashboard.activeQueryOf customQuery st))
  = Actions.responded (inr text) ->
  forallb Js.isWhiteSpace text = false ->
  exists item,
    Dashboard.currentAnalysis (Dashboard.handleSearch env customQuery st) = Some item
    /\ Dashboard.storedValue
         (Dashboard.history (Dashboard.handleSearch env customQuery st))
       = item :: firstn 49 (Dashboard.storedValue (Dashboard.history st))
    /\ Page.query item = Dashboard.activeQueryOf customQuery st
    /\ Page.response item = text
    /\ Page.requestId item = Some (idOf rt w)
    /\ (chartValid rt text = true ->
        exists c, Page.data item = Some c /\ Page.isChartData c = true)
    /\ Dashboard.query (Dashboard.handleSearch env customQuery st) = []
    /\ Dashboard.error (Dashboard.handleSearch env customQuery st) = None
    /\ Dashboard.loading (Dashboard.handleSearch env customQuery st) = false.
Proof.
  intros Hcall Hjson Hkey Hload Hmounted Hlen Hgen Hws.
  set (q := Dashboard.activeQueryOf customQuery st) in *.
  assert (Htrim : Js.trim q = q) by apply trim_idempotent.
  assert (Hval : Zod.string_safeParse Actions.FinancialQuerySchema
                   (Actions.rawPrompt (Actions.ofString q)) = Zod.success q).
  { cbn [Actions.rawPrompt]. rewrite safeParse_FinancialQuerySchema.
    unfold lengthAccepted in Hlen. apply andb_true_iff in Hlen.
    destruct Hlen as [Hlo Hhi]. apply Nat.leb_le in Hlo, Hhi.
    destruct (Js.length q <? 3) eqn:H3; [apply Nat.ltb_lt in H3; lia|].
    destruct (2000 <? Js.length q) eqn:H2000; [apply Nat.ltb_lt in H2000; lia|].
    rewrite Htrim. reflexivity. }
  pose proof (completionOf_text _ _ _ Hgen Hws) as Hdone.
  pose proof (@path_completed rt (Actions.ofString q) w apiKey q text
                Hkey Hval Hdone) as Hrun.
  assert (Hq : Js.truthy q = true).
  { destruct q as [|c t] eqn:Hqq; [|reflexivity].
    unfold lengthAccepted in Hlen. cbn in Hlen. discriminate. }
  destruct text as [|c d]; [discriminate|].
  assert (Hresult : Dashboard.callAction env q
                    = inr {| Actions.success := true;
                             Actions.data := Some (c :: d);
                             Actions.error := None;
                             Actions.testCoverage :=
                               Actions.coverage true true (chartValid rt (c :: d));
                             Actions.timestamp := Some (stampOf rt w);
                             Actions.requestId := Some (idOf rt w) |}).
  { rewrite Hcall. unfold serverAction. rewrite Hrun. reflexivity. }
  rewrite (handleSearch_success env customQuery st Hload Hq Hresult
             eq_refl eq_refl Hmounted).
  eexists. split; [reflexivity|].
  cbn [Dashboard.history Dashboard.query Dashboard.error Dashboard.loading].
  unfold Dashboard.setValue, Dashboard.newItemOf.
  destruct (Dashboard.hasWindow (Dashboard.browser (Dashboard.history st)));
    [destruct (Dashboard.writesFail (Dashboard.browser (Dashboard.history st)))|];
    cbn [Dashboard.storedValue Dashboard.applyAction Page.query Page.response
         Page.requestId Page.data Actions.requestId];
    (split; [reflexivity|]); repeat (split; [reflexivity|]);
    (split; [|repeat split]);
    intros Hvalid; rewrite Hjson; apply chartValid_validateChartData, Hvalid.
Qed.

Lemma X20_successful_search_witness :
  exists item,
    Dashboard.currentAnalysis
      (Dashboard.handleSearch
         (sampleEnv (Actions.responded (inr (Js.lit "Hold."))))
         None (samplePage (Js.lit " NVDA outlook ")))
    = Some item
    /\ Page.query item = Js.lit "NVDA outlook"
    /\ Page.response item = Js.lit "Hold.".
Proof.
  destruct (@X20_successful_search_end_to_end
              (sampleRuntime (Actions.responded (inr (Js.lit "Hold."))))
              world0 (Js.lit "test-key") (Js.lit "Hold.")
              (sampleEnv (Actions.responded (inr (Js.lit "Hold."))))
              None (samplePage (Js.lit " NVDA outlook "))
              eq_refl eq_refl eq_refl eq_refl eq_refl eq_refl eq_refl eq_refl)
    as (item & Hcurrent & _ & Hquery & Hresponse & _).
  exists item. split; [exact Hcurrent|]. split; [exact Hquery | exact Hresponse].
Defined.

(** X21.  End to end, when the server answers a page query with
    [success: false]: the page shows exactly the server's error text, which
    is one of the four fixed texts (the fallback ["Analysis failed"] is never
    needed); the history, the analysis on display and the input field stay as
    they were, and the run is over for a mounted page. *)
Theorem X21_failed_search_end_to_end
    (rt : Actions.Runtime) (w : Actions.World)
    (env : Dashboard.Env) (customQuery : option jsstring) (st : Dashboard.State)
    (r : Actions.ApiResponse) (w' : Actions.World) :
  Dashboard.callAction env = serverAction rt w ->
  Dashboard.loading st = false ->
  Js.truthy (Dashboard.activeQueryOf customQuery st) = true ->
  Actions.analyzeFinancialDataAction rt
    (Actions.ofString (Dashboard.activeQueryOf customQuery st)) w
  = (Actions.normal r, w') ->
  Actions.success r = false ->
  Dashboard.error (Dashboard.handleSearch env customQuery st) = Actions.error r
  /\ (exists message, Actions.error r = Some message /\ In message knownErrors)
  /\ Dashboard.history (Dashboard.handleSearch env customQuery st)
     = Dashboard.history st
  /\ Dashboard.currentAnalysis (Dashboard.handleSearch env customQuery st)
     = Dashboard.currentAnalysis st
  /\ Dashboard.query (Dashboard.handleSearch env customQuery st)
     = Dashboard.query st
  /\ Dashboard.loading (Dashboard.handleSearch env customQuery st)
     = negb (Dashboard.mounted st).
Proof.
  intros Hcall Hload Hq Hrun Hfalse.
  assert (Hknown : exists c m, Actions.error r = Some (c :: m)
                               /\ In (c :: m) knownErrors).
  { revert Hrun.
    action_paths rt (Actions.ofString (Dashboard.activeQueryOf customQuery st)) w;
      intros [= <- _]; try discriminate;
      cbn [Actions.failed Actions.error]; unfold knownErrors; cbn [In].
    - do 2 eexists. split; [reflexivity|]. right. left. reflexivity.
    - destruct (safeParse_failure_inv _ Hval) as [[_ ->]|[_ ->]];
        do 2 eexists; (split; [reflexivity|]); auto.
    - do 2 eexists. split; [reflexivity|]. left. reflexivity. }
  destruct Hknown as (c & m & Herror & Hin).
  assert (Hresult : Dashboard.callAction env (Dashboard.activeQueryOf customQuery st)
                    = inr r).
  { rewrite Hcall. unfold serverAction. rewrite Hrun. reflexivity. }
  rewrite (handleSearch_failure env customQuery st Hload Hq Hresult Hfalse Herror).
  cbn [Dashboard.error Dashboard.history Dashboard.currentAnalysis
       Dashboard.query Dashboard.loading].
  split; [symmetry; exact Herror|].
  split; [exists (c :: m); split; assumption|].
  repeat split.
Qed.

Lemma X21_failed_search_witness :
  Dashboard.error
    (Dashboard.handleSearch
       (sampleEnv (Actions.rejected (Actions.Error (Js.lit "429 quota exceeded"))))
       None (samplePage (Js.lit "NVDA outlook")))
  = Some serviceUnavailable
  /\ Dashboard.history
       (Dashboard.handleSearch
          (sampleEnv (Actions.rejected (Actions.Error (Js.lit "429 quota exceeded"))))
          None (samplePage (Js.lit "NVDA outlook")))
     = Dashboard.history (samplePage (Js.lit "NVDA outlook")).
Proof.
  edestruct (@X21_failed_search_end_to_end
               (sampleRuntime
                  (Actions.rejected (Actions.Error (Js.lit "429 quota exceeded"))))
               world0
               (sampleEnv (Actions.rejected (Actions.Error (Js.lit "429 quota exceeded"))))
               None (samplePage (Js.lit "NVDA outlook")))
    as (Herror & _ & Hhistory & _).
  - reflexivity.
  - reflexivity.
  - reflexivity.
  - vm_compute. reflexivity.
  - reflexivity.
  - split; [exact Herror | exact Hhistory].
Defined.

(** X22.  [clearHistory] does nothing on an unmounted page or when the
    dialog is declined.  When it is confirmed on a mounted page whose storage
    takes writes, the history is empty, nothing is on display, and, unlike a
    saved analysis, the empty history is what the next mount reads back. *)
Theorem X22_clearHistory_is_persisted
    (env : Dashboard.Env) (st : Dashboard.State)
    (parseHistory : jsstring -> jsstring + list Page.HistoryItem)
    (initial : list Page.HistoryItem) :
  Dashboard.hasWindow (Dashboard.browser (Dashboard.history st)) = true ->
  Dashboard.writesFail (Dashboard.browser (Dashboard.history st)) = false ->
  Dashboard.JSON_stringify env [] <> [] ->
  parseHistory (Dashboard.JSON_stringify env []) = inr [] ->
  (Dashboard.mounted st && Dashboard.confirmed env = false ->
   Dashboard.clearHistory env st = st)
  /\ (Dashboard.mounted st && Dashboard.confirmed env = true ->
      Dashboard.storedValue (Dashboard.history (Dashboard.clearHistory env st)) = []
      /\ Dashboard.currentAnalysis (Dashboard.clearHistory env st) = None
      /\ Dashboard.storedValue
           (Dashboard.load parseHistory Dashboard.STORAGE_KEY
              (Dashboard.mount initial
                 (Dashboard.browser
                    (Dashboard.history (Dashboard.clearHistory env st)))))
         = []).
Proof.
  intros Hwin Hwrite Htext Hparse. unfold Dashboard.clearHistory. split.
  - intros H. apply andb_false_iff in H. destruct H as [-> | H]; [reflexivity|].
    rewrite H. destruct (Dashboard.mounted st); reflexivity.
  - intros H. apply andb_true_iff in H. destruct H as [-> ->].
    cbn [negb Dashboard.history Dashboard.currentAnalysis Dashboard.setHistory].
    unfold Dashboard.setValue. rewrite Hwin, Hwrite.
    cbn [Dashboard.storedValue Dashboard.browser Dashboard.entries
         Dashboard.applyAction Dashboard.storedText].
    repeat split.
    unfold Dashboard.load, Dashboard.mount.
    cbn [Dashboard.browser Dashboard.hasWindow Dashboard.entries negb].
    rewrite getItem_setItem.
    destruct (Dashboard.JSON_stringify env []) as [|c t] eqn:Hs; [congruence|].
    cbn [Js.truthy]. rewrite Hparse. reflexivity.
Qed.

Lemma X22_clearHistory_witness :
  Dashboard.storedValue
    (Dashboard.history
       (Dashboard.clearHistory
          (sampleEnv (Actions.rejected Actions.NotAnError))
          (samplePage (Js.lit "NVDA"))))
  = []
  /\ Dashboard.storedValue
       (Dashboard.load sampleParseHistory Dashboard.STORAGE_KEY
          (Dashboard.mount sampleHistory
             (Dashboard.browser
                (Dashboard.history
                   (Dashboard.clearHistory
                      (sampleEnv (Actions.rejected Actions.NotAnError))
                      (samplePage (Js.lit "NVDA")))))))
     = [].
Proof.
  destruct (@X22_clearHistory_is_persisted
              (sampleEnv (Actions.rejected Actions.NotAnError))
              (samplePage (Js.lit "NVDA")) sampleParseHistory sampleHistory
              eq_refl eq_refl ltac:(discriminate) eq_refl)
    as [_ Hclear].
  destruct (Hclear eq_refl) as (Hnow & _ & Hlater).
  split; [exact Hnow | exact Hlater].
Defined.

(** ** More on the history list *)

Lemma includes_trans (a b c : jsstring) :
  Js.includes a b = true -> Js.includes b c = true -> Js.includes a c = true.
Proof.
  intros Hab Hbc. apply includes_spec in Hab, Hbc.
  destruct Hab as (p1 & q1 & ->). destruct Hbc as (p2 & q2 & ->).
  apply includes_spec. exists (p1 ++ p2), (q2 ++ q1).
  rewrite <- !app_assoc. reflexivity.
Qed.

Lemma includes_refl (s : jsstring) : Js.includes s s = true.
Proof.
  apply includes_spec. exists [], []. rewrite app_nil_r. reflexivity.
Qed.

Lemma filter_narrows {A} (p p' : A -> bool) (l : list A) :
  (forall x, p' x = true -> p x = true) ->
  subsequence (filter p' l) (filter p l).
Proof.
  intros Himp. induction l as [|x l IH]; cbn [filter]; [constructor|].
  destruct (p' x) eqn:Hp'.
  - rewrite (Himp x Hp'). apply subsequence_keep. exact IH.
  - destruct (p x); [apply subsequence_drop|]; exact IH.
Qed.

(** X23.  Typing more narrows the result: when the lower-cased search text
    [narrow] contains the lower-cased text [wide], the items found for
    [narrow] are, in the same order, among those found for [wide].  And an
    item of the history is always found by its own query. *)
Theorem X23_search_narrows
    (toLowerCase : jsstring -> jsstring) (history : list Page.HistoryItem)
    (wide narrow : jsstring) :
  Js.includes (toLowerCase narrow) (toLowerCase wide) = true ->
  subsequence (Page.filteredHistory toLowerCase history narrow)
              (Page.filteredHistory toLowerCase history wide)
  /\ forall item,
       In item history ->
       In item (Page.filteredHistory toLowerCase history (Page.query item)).
Proof.
  intros Hsub. unfold Page.filteredHistory. split.
  - apply filter_narrows. intros item. unfold Page.matchesSearch.
    intros H. exact (includes_trans _ _ _ H Hsub).
  - intros item Hin. apply filter_In. split; [exact Hin|].
    apply includes_refl.
Qed.

Lemma X23_search_narrows_witness :
  Js.includes (lowerBasicLatin (Js.lit "NVDA")) (lowerBasicLatin (Js.lit "nv")) = true
  /\ subsequence (Page.filteredHistory lowerBasicLatin sampleHistory (Js.lit "NVDA"))
                 (Page.filteredHistory lowerBasicLatin sampleHistory (Js.lit "nv")).
Proof.
  split; [reflexivity|].
  apply (@X23_search_narrows lowerBasicLatin sampleHistory
           (Js.lit "nv") (Js.lit "NVDA")).
  reflexivity.
Defined.

Lemma In_firstn {A} (n : nat) (l : list A) (x : A) :
  In x (firstn n l) -> In x l.
Proof.
  intros H. rewrite <- (firstn_skipn n l). apply in_or_app. left. exact H.
Qed.

Lemma NoDup_firstn {A} (n : nat) (l : list A) : NoDup l -> NoDup (firstn n l).
Proof.
  revert n. induction l as [|x l IH]; intros n Hnd.
  - rewrite firstn_nil. constructor.
  - destruct n as [|n]; [constructor|].
    cbn [firstn]. inversion Hnd as [|? ? Hx Hl]; subst.
    constructor; [|apply IH, Hl].
    intros Hin. apply Hx. exact (In_firstn _ _ _ Hin).
Qed.

(** X24.  The updater keeps the identifiers of the history distinct: if the
    identifiers in the history are pairwise different and the new item's is
    none of them, they are pairwise different afterwards too. *)
Theorem X24_prepend_keeps_ids_distinct
    (newItem : Page.HistoryItem) (prev : list Page.HistoryItem) :
  NoDup (map Page.id prev) ->
  ~ In (Page.id newItem) (map Page.id prev) ->
  NoDup (map Page.id (Page.prepend newItem prev)).
Proof.
  intros Hnd Hfresh. unfold Page.prepend. cbn [map].
  rewrite <- firstn_map. constructor.
  - intros Hin. apply Hfresh. exact (In_firstn _ _ _ Hin).
  - apply NoDup_firstn, Hnd.
Qed.

Lemma X24_prepend_keeps_ids_witness :
  NoDup (map Page.id (Page.prepend (sampleItem 3 (Js.lit "SPY")) sampleHistory)).
Proof.
  apply (X24_prepend_keeps_ids_distinct (sampleItem 3 (Js.lit "SPY")) sampleHistory).
  - repeat constructor; cbn; intuition discriminate.
  - cbn. intuition discriminate.
Defined.

(* ================================================================== *)
(** * Properties of the other components *)

(** ** [postMessageDedup] *)



Example dedup_drops_the_repeat :
  VisualEdits.posted
    (VisualEdits.run textStringify true
       [Js.lit "a"; Js.lit "a"; Js.lit "b"; Js.lit "a"]
       (VisualEdits.initial jsstring))
  = [Js.lit "a"; Js.lit "b"; Js.lit "a"].
Proof. reflexivity. Qed.

(** ** [QaErrorReporter] *)

Lemma capture_length (toLowerCase : jsstring -> jsstring)
                     (ev : ErrorReporter.WindowEvent)
                     (prev : list ErrorReporter.ErrorData) :
  List.length (ErrorReporter.capture toLowerCase ev prev) <= 20.
Proof.
  unfold ErrorReporter.capture. cbn [List.length]. rewrite length_firstn. lia.
Qed.

Lemma afterEvents_firstn (toLowerCase : jsstring -> jsstring)
                         (events : list ErrorReporter.WindowEvent)
                         (start : list ErrorReporter.ErrorData) :
  List.length start <= 20 ->
  ErrorReporter.afterEvents toLowerCase events start
  = firstn 20 (rev (map (ErrorReporter.errorDataOf toLowerCase) events) ++ start).
Proof.
  unfold ErrorReporter.afterEvents.
  revert start. induction events as [|ev evs IH]; intros start Hlen.
  - cbn [fold_left map rev app]. symmetry. apply firstn_all2. exact Hlen.
  - cbn [fold_left map rev]. rewrite IH by apply capture_length.
    unfold ErrorReporter.capture. rewrite <- app_assoc. cbn [app].
    apply (firstn_app_cons_firstn (m := 19) (k := 19)). lia.
Qed.

(** X26.  Whatever errors and rejections the window reports, starting from
    the empty list, the reporter holds the records of the most recent ones,
    newest first, and never more than 20; the older ones are dropped. *)
Theorem X26_error_list_is_capped
    (toLowerCase : jsstring -> jsstring)
    (events : list ErrorReporter.WindowEvent) :
  ErrorReporter.afterEvents toLowerCase events []
  = firstn 20 (rev (map (ErrorReporter.errorDataOf toLowerCase) events))
  /\ ErrorReporter.afterEvents toLowerCase events []
     = rev (map (ErrorReporter.errorDataOf toLowerCase)
                (skipn (List.length events - 20) events))
  /\ List.length (ErrorReporter.afterEvents toLowerCase events [])
     = Nat.min (List.length events) 20.
Proof.
  assert (H : ErrorReporter.afterEvents toLowerCase events []
              = firstn 20 (rev (map (ErrorReporter.errorDataOf toLowerCase) events))).
  { rewrite afterEvents_firstn by (cbn; lia). rewrite app_nil_r. reflexivity. }
  split; [exact H|]. split.
  - rewrite H, firstn_rev, length_map, skipn_map. reflexivity.
  - rewrite H, length_firstn, length_rev, length_map. lia.
Qed.

Example reporter_keeps_twenty_of_twenty_five :
  map ErrorReporter.timestamp
      (ErrorReporter.afterEvents lowerBasicLatin sampleEvents [])
  = map (fun n => (1700000000000 + Z.of_nat n)%Z) (rev (seq 6 20)).
Proof. vm_compute. reflexivity. Qed.

(** ** [Textarea] *)

(** X27.  The row count of the autosizing effect never exceeds [maxRows];
    when [minRows <= maxRows] it lies between the two, it is the number of
    whole 24-pixel rows of the content whenever that number lies between
    them, and it is [minRows] for an empty textarea. *)
Theorem X27_rows_are_clamped (scrollHeight minRows maxRows : Z) :
  (minRows <= maxRows)%Z ->
  (minRows <= Textarea.newRows scrollHeight minRows maxRows <= maxRows)%Z
  /\ ((24 * minRows <= scrollHeight < 24 * (maxRows + 1))%Z ->
      Textarea.newRows scrollHeight minRows maxRows = (scrollHeight / 24)%Z)
  /\ ((0 <= minRows)%Z -> Textarea.newRows 0 minRows maxRows = minRows).
Proof.
  intros Hle. unfold Textarea.newRows. repeat split.
  - lia.
  - lia.
  - intros [Hlo Hhi].
    assert (minRows <= scrollHeight / 24)%Z
      by (apply Z.div_le_lower_bound; lia).
    assert (scrollHeight / 24 < maxRows + 1)%Z
      by (apply Z.div_lt_upper_bound; lia).
    lia.
  - intros Hmin. change (0 / 24)%Z with 0%Z. lia.
Qed.

Lemma X27_rows_are_clamped_witness :
  (3 <= Textarea.newRows 100 3 10 <= 10)%Z
  /\ Textarea.newRows 100 3 10 = (100 / 24)%Z.
Proof.
  destruct (@X27_rows_are_clamped 100%Z 3%Z 10%Z ltac:(lia))
    as (Hbounds & Hexact & _).
  split; [exact Hbounds | apply Hexact; lia].
Defined.

(** ** [getInitials] *)

Lemma split_nonempty (s : jsstring) : Avatar.split s <> [].
Proof.
  destruct s as [|c t]; cbn [Avatar.split]; [discriminate|].
  destruct (N.eqb c 32); [discriminate|].
  destruct (Avatar.split t); discriminate.
Qed.

Lemma split_without_space (s : jsstring) :
  ~ In 32%N s -> Avatar.split s = [s].
Proof.
  induction s as [|c t IH]; intros Hno; [reflexivity|].
  cbn [Avatar.split].
  destruct (N.eqb c 32) eqn:Hc.
  - apply N.eqb_eq in Hc. exfalso. apply Hno. left. exact Hc.
  - rewrite IH; [reflexivity|]. intros Hin. apply Hno. right. exact Hin.
Qed.

Lemma split_at_space (before piece : jsstring) :
  ~ In 32%N piece ->
  Avatar.split (before ++ 32%N :: piece) = Avatar.split before ++ [piece].
Proof.
  intros Hno. induction before as [|c b IH]; cbn [app Avatar.split].
  - rewrite split_without_space by exact Hno. reflexivity.
  - rewrite IH. destruct (N.eqb c 32); [reflexivity|].
    pose proof (split_nonempty b) as Hne.
    destruct (Avatar.split b) as [|p ps]; [contradiction | reflexivity].
Qed.

Lemma split_solid_head (c : N) (b : jsstring) :
  N.eqb c 32 = false ->
  exists piece pieces, Avatar.split (c :: b) = (c :: piece) :: pieces.
Proof.
  intros Hc. cbn [Avatar.split]. rewrite Hc.
  pose proof (split_nonempty b) as Hne.
  destruct (Avatar.split b) as [|p ps]; [contradiction|].
  exists p, ps. reflexivity.
Qed.

Lemma last_space (s : jsstring) :
  In 32%N s ->
  exists before piece, s = before ++ 32%N :: piece /\ ~ In 32%N piece.
Proof.
  induction s as [|c t IH]; intros Hin; [contradiction|].
  destruct (in_dec N.eq_dec 32%N t) as [Ht | Ht].
  - destruct (IH Ht) as (before & piece & -> & Hno).
    exists (c :: before), piece. split; [reflexivity | exact Hno].
  - destruct Hin as [-> | Hin]; [|contradiction].
    exists [], t. split; [reflexivity | exact Ht].
Qed.

Lemma trim_isTrimmed (s : jsstring) : isTrimmed (Js.trim s) = true.
Proof.
  unfold Js.trim.
  destruct (trimStart_cases s) as [-> | (c & t & -> & Hc)]; [reflexivity|].
  rewrite trimEnd_solid_head by exact Hc.
  cbn [isTrimmed]. rewrite Hc. cbn [negb andb].
  unfold Js.trimEnd.
  destruct (trimStart_cases (rev t)) as [-> | (d & u & -> & Hd)].
  - cbn [rev last]. rewrite Hc. reflexivity.
  - cbn [rev]. destruct (rev u ++ [d]) as [|x l] eqn:Hx.
    + destruct (rev u); discriminate.
    + rewrite <- Hx.
      change (last (c :: rev u ++ [d]) c) with (last ((c :: rev u) ++ [d]) c).
      rewrite last_last, Hd. reflexivity.
Qed.

Lemma space_is_white : Js.isWhiteSpace 32 = true.
Proof. reflexivity. Qed.

Lemma getInitials_present (toUpperCase : jsstring -> jsstring) (name : jsstring) :
  name <> [] ->
  Avatar.getInitials toUpperCase (Some name)
  = if 1 <? List.length (Avatar.split (Js.trim name))
    then toUpperCase (Avatar.firstUnit (hd [] (Avatar.split (Js.trim name)))
                      ++ Avatar.firstUnit (last (Avatar.split (Js.trim name)) []))
    else toUpperCase (firstn 2 name).
Proof. destruct name; [congruence | reflexivity]. Qed.

(** X28.  For a present, non-empty name: if the trimmed name has a space,
    the initials are the upper-cased pair of its first code unit and the
    first code unit after its last space (both exist, so the text
    [undefined] never shows up); if it has none, they are the upper-cased
    first two code units of the name as given, untrimmed. *)
Theorem X28_initials_of_a_name
    (toUpperCase : jsstring -> jsstring) (name : jsstring) :
  name <> [] ->
  (In 32%N (Js.trim name) ->
   exists c1 middle c2 rest,
     Js.trim name = c1 :: middle ++ 32%N :: c2 :: rest
     /\ ~ In 32%N (c2 :: rest)
     /\ Js.isWhiteSpace c1 = false
     /\ Avatar.getInitials toUpperCase (Some name) = toUpperCase [c1; c2])
  /\ (~ In 32%N (Js.trim name) ->
      Avatar.getInitials toUpperCase (Some name) = toUpperCase (firstn 2 name)).
Proof.
  intros Hname. rewrite (getInitials_present toUpperCase Hname). split.
  - intros Hspace.
    destruct (last_space _ Hspace) as (before & piece & Heq & Hno).
    pose proof (trim_isTrimmed name) as Htrimmed. rewrite Heq in Htrimmed.
    destruct before as [|c1 middle].
    { cbn [app isTrimmed] in Htrimmed. rewrite space_is_white in Htrimmed.
      discriminate. }
    destruct piece as [|c2 rest].
    { cbn [app isTrimmed] in Htrimmed.
      change (c1 :: middle ++ [32%N]) with ((c1 :: middle) ++ [32%N]) in Htrimmed.
      rewrite last_last, space_is_white, andb_false_r in Htrimmed.
      discriminate. }
    exists c1, middle, c2, rest. split; [exact Heq|]. split; [exact Hno|].
    assert (Hc1 : Js.isWhiteSpace c1 = false).
    { cbn [app isTrimmed] in Htrimmed. apply andb_true_iff in Htrimmed.
      destruct Htrimmed as [H _]. apply negb_true_iff in H. exact H. }
    split; [exact Hc1|].
    assert (Hc32 : N.eqb c1 32 = false).
    { destruct (N.eqb c1 32) eqn:H; [|reflexivity].
      apply N.eqb_eq in H. subst c1. rewrite space_is_white in Hc1. discriminate. }
    destruct (@split_solid_head c1 middle Hc32) as (p & ps & Hsplit).
    change (c1 :: middle ++ 32%N :: c2 :: rest)
      with ((c1 :: middle) ++ 32%N :: c2 :: rest) in Heq.
    rewrite Heq, split_at_space by exact Hno. rewrite Hsplit.
    rewrite last_last.
    cbn [app List.length hd Avatar.firstUnit].
    match goal with
    | |- (if ?b then _ else _) = _ => destruct b eqn:Hlt
    end; [reflexivity|].
    apply Nat.ltb_ge in Hlt. rewrite length_app in Hlt. cbn in Hlt. lia.
  - intros Hno. rewrite split_without_space by exact Hno. reflexivity.
Qed.

Lemma X28_initials_witness :
  exists c1 middle c2 rest,
    Js.trim (Js.lit " Ada  Lovelace ") = c1 :: middle ++ 32%N :: c2 :: rest
    /\ Avatar.getInitials upperBasicLatin (Some (Js.lit " Ada  Lovelace "))
       = upperBasicLatin [c1; c2].
Proof.
  destruct (@X28_initials_of_a_name upperBasicLatin (Js.lit " Ada  Lovelace ")
              ltac:(discriminate))
    as [Hparts _].
  destruct Hparts as (c1 & middle & c2 & rest & Heq & _ & _ & Hinit).
  - vm_compute. tauto.
  - exists c1, middle, c2, rest. split; [exact Heq | exact Hinit].
Defined.

Example initials_of_two_names :
  Avatar.getInitials upperBasicLatin (Some (Js.lit " ada  lovelace ")) = Js.lit "AL".
Proof. reflexivity. Qed.

Example initials_without_label :
  Avatar.getInitials upperBasicLatin None = Js.lit "QA".
Proof. reflexivity. Qed.
